(** * Routing and budget control of PC-Agent-Plus

    A shallow embedding of the routing subsystem of the repository:
    [complexity_scorer.py], [budget_tracker.py], [model_selector.py] and
    the [RouterAgent] of the router package.

    Conventions of the embedding.
    - Python [float] amounts (costs, limits, scores, thresholds) are exact
      rationals [Q]: comparisons of finite doubles agree with those of the
      rationals they denote; rounding of sums, NaN and signed zeros are
      outside the model.  The one infinity the code uses, [float('inf')]
      as default of [budget_status.get('remaining', ...)], is a
      constructor of [amount].  No theorem below compares two sums that
      the code computes in different ways, where rounding would decide;
      the module [Float64] shows on binary64 numbers what happens there.
    - A Python [int] is a [Z]; where the code mixes it with floats, the
      conversion and its [OverflowError] are modelled.
    - A Python [str] is a [string] of ASCII characters.
    - [datetime.now()] is an input: every call of it in a method is one
      argument of the method's model, in the order of the calls.
    - A method that mutates [self] returns the new object; a method that
      can raise returns a [result].
    - [logger] and [print] calls have no effect on the modelled state. *)

From Stdlib Require Import QArith Qminmax Lqa ZArith String Ascii List Bool Lia.
From Stdlib Require PrimFloat.
From stdpp Require Import gmap strings list fin_maps.
Import ListNotations.

#[local] Open Scope string_scope.

(** ** Python runtime pieces the modules rely on *)
Module Py.

(** Exceptions the modelled code can raise. *)
Inductive exn : Type :=
| KeyError (key : string)
| AttributeError (attr : string)
| OverflowError.

Inductive result (A : Type) : Type :=
| Ok (a : A)
| Raise (e : exn).
Arguments Ok {A} a.
Arguments Raise {A} e.

Definition bind {A B : Type} (r : result A) (k : A -> result B) : result B :=
  match r with
  | Ok a => k a
  | Raise e => Raise e
  end.

(** Scalar values that can sit in a context mapping or a feature table. *)
Inductive pyval : Type :=
| PNone
| PBool (b : bool)
| PInt (z : Z)
| PFloat (q : Q)
| PStr (s : string).

(** What a caller can pass where [Optional[Dict]] is expected. *)
Inductive pyobj : Type :=
| Scalar (v : pyval)
| Dict (d : gmap string pyval).

(** [bool(x)] *)
Definition truthy (o : pyobj) : bool :=
  match o with
  | Scalar PNone => false
  | Scalar (PBool b) => b
  | Scalar (PInt z) => negb (z =? 0)%Z
  | Scalar (PFloat q) => negb (Qeq_bool q 0)
  | Scalar (PStr s) => negb (String.eqb s "")
  | Dict d => negb (bool_decide (d = ∅))
  end.

(** [a < b] on floats. *)
Definition Qltb (a b : Q) : bool := negb (Qle_bool b a).

(** [max(a, b)]: the first argument unless the second is greater. *)
Definition max2 (a b : Q) : Q := if Qltb a b then b else a.

(** [min(a, b)]: the first argument unless the second is smaller. *)
Definition min2 (a b : Q) : Q := if Qltb b a then b else a.

(** [min(a, b, c)] *)
Definition min3 (a b c : Q) : Q := min2 (min2 a b) c.

(** [sum(xs)]: left to right, from 0, with exact additions.  On floats
    the built-in rounds, and from Python 3.12 on it adds with a
    compensation term, so that it need not agree in the last place with
    a [+=] loop over the same numbers ([Float64.builtin_sum]). *)
Definition sum (xs : list Q) : Q := fold_left Qplus xs 0%Q.

(** The least magnitude of an [int] that rounds beyond the largest
    double: converting such an [int] to [float] raises [OverflowError]. *)
Definition float_limit : Z := (2 ^ 1024 - 2 ^ 970)%Z.

(** [sys.maxsize]: no string, and so no count taken from one, is longer. *)
Definition sys_maxsize : Z := (2 ^ 63 - 1)%Z.

(** [float(z)], as arithmetic between an [int] and a [float] applies it. *)
Definition float_of_int (z : Z) : result Q :=
  if (Z.abs z <? float_limit)%Z then Ok (inject_Z z) else Raise OverflowError.

(** [z / n] for two [int]s, [n] positive: the quotient as a float, or
    [OverflowError] when it is too large for one. *)
Definition int_truediv (z n : Z) : result Q :=
  if (Z.abs z <? n * float_limit)%Z then Ok (inject_Z z / inject_Z n)%Q
  else Raise OverflowError.

(** A number as an expression yields it: still an [int], or a [float]. *)
Inductive number : Type :=
| Int (z : Z)
| Float (q : Q).

(** The [float] operand that [x * w] takes for [x] when [w] is a float. *)
Definition to_float (x : number) : result Q :=
  match x with
  | Int z => float_of_int z
  | Float q => Ok q
  end.

(** [l.index(x)]: the position of the first occurrence, [None] where
    Python raises [ValueError]. *)
Fixpoint index_of (x : string) (l : list string) : option nat :=
  match l with
  | [] => None
  | y :: l' =>
      if String.eqb y x then Some O
      else match index_of x l' with
           | Some i => Some (S i)
           | None => None
           end
  end.

(** *** Strings *)

Definition is_upper (c : ascii) : bool :=
  let n := nat_of_ascii c in (65 <=? n)%nat && (n <=? 90)%nat.

Definition lower_char (c : ascii) : ascii :=
  if is_upper c then ascii_of_nat (nat_of_ascii c + 32) else c.

(** [s.lower()], on ASCII text. *)
Fixpoint lower (s : string) : string :=
  match s with
  | EmptyString => EmptyString
  | String c s' => String (lower_char c) (lower s')
  end.

(** [c.isspace()], on ASCII: tab, newline, VT, FF, CR, FS..US and space. *)
Definition isspace (c : ascii) : bool :=
  let n := nat_of_ascii c in
  ((9 <=? n)%nat && (n <=? 13)%nat) || ((28 <=? n)%nat && (n <=? 32)%nat).

Fixpoint split_from (cur : string) (s : string) : list string :=
  match s with
  | EmptyString => if String.eqb cur "" then [] else [cur]
  | String c s' =>
      if isspace c
      then (if String.eqb cur "" then split_from "" s'
            else cur :: split_from "" s')
      else split_from (cur ++ String c "") s'
  end.

(** [s.split()]: the maximal runs of non-blank characters. *)
Definition split (s : string) : list string := split_from "" s.

(** [needle in hay] *)
Fixpoint contains (needle hay : string) : bool :=
  String.prefix needle hay
  || match hay with
     | EmptyString => false
     | String _ hay' => contains needle hay'
     end.

Fixpoint drop (n : nat) (s : string) : string :=
  match n, s with
  | O, _ => s
  | S _, EmptyString => EmptyString
  | S n', String _ s' => drop n' s'
  end.

(** What follows the leftmost occurrence of [lit] in [s]. *)
Fixpoint after_first (lit s : string) : option string :=
  if String.prefix lit s then Some (drop (String.length lit) s)
  else match s with
       | EmptyString => None
       | String _ s' => after_first lit s'
       end.

(** The literals occur in this order, without overlap, in [line]. *)
Fixpoint in_order (lits : list string) (line : string) : bool :=
  match lits with
  | [] => true
  | lit :: lits' =>
      match after_first lit line with
      | Some rest => in_order lits' rest
      | None => false
      end
  end.

Definition newline : ascii := ascii_of_nat 10.

Fixpoint lines_from (cur : string) (s : string) : list string :=
  match s with
  | EmptyString => [cur]
  | String c s' =>
      if Ascii.eqb c newline then cur :: lines_from "" s'
      else lines_from (cur ++ String c "") s'
  end.

(** The pieces of [s] between newline characters. *)
Definition lines (s : string) : list string := lines_from "" s.

(** [re.search(p, s) is not None] for a pattern [p] that is the literals
    of [lits] joined (and followed) by [.*]: as [.] matches no newline, a
    match lies within one line, and the leftmost choice of every literal
    finds one when there is any. *)
Definition re_search_seq (lits : list string) (s : string) : bool :=
  existsb (in_order lits) (lines s).

Definition is_sentence_end (c : ascii) : bool :=
  Ascii.eqb c "."%char || Ascii.eqb c "!"%char || Ascii.eqb c "?"%char.

(** Number of maximal runs of [.], [!] or [?]; [inrun] tells whether the
    previous character belonged to one. *)
Fixpoint count_runs (inrun : bool) (s : string) : nat :=
  match s with
  | EmptyString => O
  | String c s' =>
      if is_sentence_end c
      then (if inrun then count_runs true s' else S (count_runs true s'))
      else count_runs false s'
  end.

(** [len(re.split(r'[.!?]+', s))] *)
Definition re_split_count (s : string) : nat := S (count_runs false s).

(** [sum(1 for w in words if w in s)] *)
Definition count_in (words : list string) (s : string) : nat :=
  length (filter (fun w => contains w s = true) words).

(** [any(w in s for w in words)] *)
Definition any_in (words : list string) (s : string) : bool :=
  existsb (fun w => contains w s) words.

(** *** Dates and times ([datetime] of the standard library) *)

Record datetime : Type := mk_datetime {
  year : Z; month : Z; day : Z;
  hour : Z; minute : Z; second : Z; microsecond : Z
}.

Record date : Type := mk_date { d_year : Z; d_month : Z; d_day : Z }.

#[global] Instance datetime_eq_dec : EqDecision datetime.
Proof. solve_decision. Defined.

#[global] Instance date_eq_dec : EqDecision date.
Proof. solve_decision. Defined.

(** [dt.date()] *)
Definition to_date (dt : datetime) : date :=
  mk_date (year dt) (month dt) (day dt).

(** [dt.replace(day=1).date()] *)
Definition month_start (dt : datetime) : date :=
  mk_date (year dt) (month dt) 1.

Definition is_leap (y : Z) : bool :=
  ((y mod 4 =? 0) && (negb (y mod 100 =? 0) || (y mod 400 =? 0)))%Z.

Definition days_before_year (y : Z) : Z :=
  let p := (y - 1)%Z in (p * 365 + p / 4 - p / 100 + p / 400)%Z.

Definition days_in_month (y m : Z) : Z :=
  if (m =? 2)%Z then (if is_leap y then 29 else 28)%Z
  else if ((m =? 4) || (m =? 6) || (m =? 9) || (m =? 11))%Z then 30%Z
  else 31%Z.

(** Days of the year before the first of month [m]. *)
Definition days_before_month (y m : Z) : Z :=
  fold_left (fun acc k => (acc + days_in_month y k)%Z)
            (map Z.of_nat (seq 1 (Z.to_nat (m - 1)))) 0%Z.

(** [date.toordinal()]: 1 is the first of January of year 1. *)
Definition ymd2ord (y m d : Z) : Z :=
  (days_before_year y + days_before_month y m + d)%Z.

Definition toordinal (dt : datetime) : Z :=
  ymd2ord (year dt) (month dt) (day dt).

(** [dt.weekday()]: Monday is 0, Sunday is 6. *)
Definition weekday (dt : datetime) : Z := ((toordinal dt + 6) mod 7)%Z.

(** The month and day of the [n]-th day (from 0) of year [y], found by
    walking the months from [m]. *)
Fixpoint month_day (fuel : nat) (y m n : Z) : Z * Z :=
  match fuel with
  | O => (m, (n + 1)%Z)
  | S fuel' =>
      let dim := days_in_month y m in
      if (n <? dim)%Z then (m, (n + 1)%Z)
      else month_day fuel' y (m + 1)%Z (n - dim)%Z
  end.

(** [date.fromordinal(n)], the inverse of [ymd2ord]. *)
Definition ord2ymd (n : Z) : date :=
  let n0 := (n - 1)%Z in
  let n400 := (n0 / 146097)%Z in
  let r400 := (n0 mod 146097)%Z in
  let n100 := (r400 / 36524)%Z in
  let r100 := (r400 mod 36524)%Z in
  let n4 := (r100 / 1461)%Z in
  let r4 := (r100 mod 1461)%Z in
  let n1 := (r4 / 365)%Z in
  let r1 := (r4 mod 365)%Z in
  let y := (n400 * 400 + 1 + n100 * 100 + n4 * 4 + n1)%Z in
  if ((n1 =? 4) || (n100 =? 4))%Z then mk_date (y - 1) 12 31
  else let '(m, d) := month_day 11 y 1 r1 in mk_date y m d.

(** [dt - timedelta(days=k)] followed by
    [.replace(hour=0, minute=0, second=0, microsecond=0)] *)
Definition midnight_days_before (k : Z) (dt : datetime) : datetime :=
  let d := ord2ymd (toordinal dt - k) in
  mk_datetime (d_year d) (d_month d) (d_day d) 0 0 0 0.

(** [datetime.min] *)
Definition datetime_min : datetime := mk_datetime 1 1 1 0 0 0 0.

(** The ordinal of the last day of year 9999, the largest there is. *)
Definition max_ordinal : Z := 3652059%Z.

(** [dt - timedelta(days=k)]: the same time of day [k] days earlier, or
    [OverflowError] when that day lies outside the years 1 to 9999. *)
Definition minus_days (k : Z) (dt : datetime) : result datetime :=
  let ordinal := (toordinal dt - k)%Z in
  if ((0 <? ordinal) && (ordinal <=? max_ordinal))%Z
  then let d := ord2ymd ordinal in
       Ok (mk_datetime (d_year d) (d_month d) (d_day d)
             (hour dt) (minute dt) (second dt) (microsecond dt))
  else Raise OverflowError.

(** The tuple by which two naive [datetime]s are compared. *)
Definition fields (dt : datetime) : list Z :=
  [year dt; month dt; day dt; hour dt; minute dt; second dt; microsecond dt].

(** [a <= b] on two tuples of [int]s. *)
Fixpoint tuple_le (a b : list Z) : bool :=
  match a, b with
  | [], _ => true
  | _ :: _, [] => false
  | x :: a', y :: b' => ((x <? y) || ((x =? y) && tuple_le a' b'))%Z
  end.

(** [a >= b] on two naive [datetime]s. *)
Definition datetime_ge (a b : datetime) : bool :=
  tuple_le (fields b) (fields a).

(** What the constructor of [datetime] accepts. *)
Definition valid_datetime (dt : datetime) : Prop :=
  (1 <= year dt <= 9999 /\ 1 <= month dt <= 12
   /\ 1 <= day dt <= days_in_month (year dt) (month dt)
   /\ 0 <= hour dt < 24 /\ 0 <= minute dt < 60 /\ 0 <= second dt < 60
   /\ 0 <= microsecond dt < 1000000)%Z.

End Py.

(** ** Binary64 arithmetic, where rounding decides

  [BudgetTracker] keeps each period counter with [+=], and
  [get_total_expenses] calls the built-in [sum] on the costs of the
  ledger.  On floats the two round differently from Python 3.12 on. *)
Module Float64.
Import PrimFloat.
#[local] Open Scope float_scope.

(** [counter += cost] for each cost in turn, from [0.0]: what
    [record_expense] makes of a period counter while no boundary is
    crossed. *)
Definition accumulate (costs : list float) : float :=
  fold_left add costs 0.

(** One turn of the loop over floats of the built-in [sum] (Python 3.12
    and later), Neumaier's summation: the pair is [(f_result, c)]. *)
Definition compensate (acc : float * float) (x : float) : float * float :=
  let '(f_result, c) := acc in
  let t := f_result + x in
  let c :=
    if abs x <=? abs f_result then c + ((f_result - t) + x)
    else c + ((x - t) + f_result) in
  (t, c).

(** [sum(costs)] for a list of floats, Python 3.12 and later: the first
    float is added to the start value [0], the others go through the
    loop, and the compensation is added at the end when it is finite and
    not zero. *)
Definition builtin_sum (costs : list float) : float :=
  match costs with
  | [] => 0
  | x :: costs' =>
      let '(f_result, c) := fold_left compensate costs' (0 + x, 0) in
      if negb (c =? 0) && is_finite c then f_result + c else f_result
  end.

(** The floats that Python reads from [0.1], [0.2] and [0.3]. *)
#[warnings="-inexact-float"] Definition three_costs : list float := [0.1; 0.2; 0.3].

End Float64.

(** ** The configuration document, as the three components read it

  A section or key that is absent from the document reads as [None];
  every reader supplies its own default, as the [.get(key, default)]
  calls of the source do. *)
Module Config.

Record ModelConfig : Type := mk_model {
  name : option string;
  cost_per_1k_tokens : option Q;
  enabled : option bool;
  min_cost_per_call : option Q
}.

(** [{}] *)
Definition no_model_config : ModelConfig := mk_model None None None None.

Record Thresholds : Type := mk_thresholds {
  th_premium : option Q;
  th_mid : option Q;
  th_open : option Q
}.

Record Budget : Type := mk_budget {
  daily_limit : option Q;
  weekly_limit : option Q;
  monthly_limit : option Q;
  warning_threshold : option Q;
  critical_threshold : option Q
}.

Record t : Type := mk_config {
  models : gmap string ModelConfig;
  thresholds : Thresholds;
  budget : Budget;
  fallback_order : list string;
  complexity_weights : list (string * Q)
}.

End Config.

(** ** complexity_scorer.py *)
Module Scorer.
Import Py.
#[local] Open Scope Q_scope.

Record ScoringRecord : Type := mk_scoring {
  description : string;
  features : gmap string pyval;
  score : Q;
  context : pyobj
}.

Record ComplexityScorer : Type := mk_scorer {
  weights : list (string * Q);
  history : list ScoringRecord
}.

Definition __init__ (config : Config.t) : ComplexityScorer :=
  mk_scorer (Config.complexity_weights config) [].

Definition _count_apps (description : string) : Z :=
  let apps := ["chrome"; "word"; "excel"; "notepad"; "calculator";
               "outlook"; "explorer"; "paint"; "powerpoint"] in
  Z.of_nat (count_in apps description).

Definition _has_inter_app_dependency (description : string) : bool :=
  let patterns := [ ["from"; "to"];
                    ["copy"; "from"; "to"];
                    ["import"; "into"];
                    ["export"; "from"; "to"];
                    ["search"; "and"; "create"] ] in
  existsb (fun pattern => re_search_seq pattern description) patterns.

Definition _requires_text_processing (description : string) : bool :=
  let keywords := ["edit"; "format"; "bold"; "italic"; "underline";
                   "align"; "paragraph"; "font"; "style"] in
  any_in keywords description.

Definition _requires_navigation (description : string) : bool :=
  let keywords := ["open"; "close"; "navigate"; "go to"; "click";
                   "select"; "find"; "search"; "browse"] in
  any_in keywords description.

Definition _requires_data_manipulation (description : string) : bool :=
  let keywords := ["calculate"; "sum"; "average"; "sort"; "filter";
                   "analyze"; "graph"; "chart"; "formula"; "function"] in
  any_in keywords description.

Definition _estimate_step_count (description : string) : Z :=
  let steps := Z.of_nat (re_split_count description) in
  let action_verbs := ["click"; "type"; "open"; "close"; "save";
                       "create"; "delete"; "move"; "copy"; "paste"] in
  let verb_count := Z.of_nat (count_in action_verbs description) in
  Z.max steps verb_count.

Definition _has_conditional_logic (description : string) : bool :=
  let keywords := ["if"; "then"; "else"; "when"; "unless";
                   "depending on"; "based on"; "condition"] in
  any_in keywords description.

(** The three keys that come from the context. *)
Definition context_keys : list string :=
  ["historical_success_rate"; "similar_tasks_complexity"; "user_skill_level"].

(** [context.get(key, 0.5)] *)
Definition context_get (d : gmap string pyval) (key : string) : pyval :=
  default (PFloat 0.5) (d !! key).

Definition _extract_features (description : string) (context : pyobj)
  : result (gmap string pyval) :=
  let description_lower := lower description in
  let features : gmap string pyval :=
    list_to_map
      [ ("word_count", PInt (Z.of_nat (length (split description))));
        ("app_count", PInt (_count_apps description_lower));
        ("has_inter_app_dependency",
           PBool (_has_inter_app_dependency description_lower));
        ("requires_text_processing",
           PBool (_requires_text_processing description_lower));
        ("requires_navigation",
           PBool (_requires_navigation description_lower));
        ("requires_data_manipulation",
           PBool (_requires_data_manipulation description_lower));
        ("step_count_estimate",
           PInt (_estimate_step_count description_lower));
        ("has_conditional_logic",
           PBool (_has_conditional_logic description_lower)) ] in
  if truthy context then
    match context with
    | Dict d =>
        Ok (<["user_skill_level" := context_get d "user_skill_level"]>
            (<["similar_tasks_complexity" :=
                 context_get d "similar_tasks_complexity"]>
             (<["historical_success_rate" :=
                  context_get d "historical_success_rate"]> features)))
    | Scalar _ => Raise (AttributeError "get")
    end
  else Ok features.

Definition default_weights : list (string * Q) :=
  [ ("word_count", 0.1);
    ("app_count", 0.2);
    ("has_inter_app_dependency", 0.3);
    ("requires_text_processing", 0.15);
    ("requires_navigation", 0.1);
    ("requires_data_manipulation", 0.2);
    ("step_count_estimate", 0.15);
    ("has_conditional_logic", 0.25);
    ("historical_success_rate", 0.2) ].

(** [d[key] = value] on a dict kept in insertion order. *)
Fixpoint dict_set (key : string) (value : Q) (d : list (string * Q))
  : list (string * Q) :=
  match d with
  | [] => [(key, value)]
  | (k, v) :: d' =>
      if String.eqb k key then (k, value) :: d'
      else (k, v) :: dict_set key value d'
  end.

(** [{**d1, **d2}] *)
Definition dict_merge (d1 d2 : list (string * Q)) : list (string * Q) :=
  fold_left (fun acc kv => dict_set (fst kv) (snd kv) acc) d2 d1.

(** The branch of [_normalize_feature] for a [float] value. *)
Definition normalize_float (feature_name : string) (value : Q) : Q :=
  if String.eqb feature_name "word_count" then min2 (value / 50) 1
  else if String.eqb feature_name "app_count" then min2 (value / 5) 1
  else if String.eqb feature_name "step_count_estimate"
       then min2 (value / 20) 1
  else if String.eqb feature_name "historical_success_rate"
       then 1 - value
  else min2 value 1.

(** The same branch for an [int] value: the divisions and the
    subtraction turn it into a float, [min(value, 1.0)] gives it back
    as it is when it is not above 1. *)
Definition normalize_int (feature_name : string) (value : Z) : result number :=
  if String.eqb feature_name "word_count"
  then bind (int_truediv value 50) (fun v => Ok (Float (min2 v 1)))
  else if String.eqb feature_name "app_count"
  then bind (int_truediv value 5) (fun v => Ok (Float (min2 v 1)))
  else if String.eqb feature_name "step_count_estimate"
  then bind (int_truediv value 20) (fun v => Ok (Float (min2 v 1)))
  else if String.eqb feature_name "historical_success_rate"
  then bind (float_of_int value) (fun v => Ok (Float (1 - v)))
  else if Qltb 1 (inject_Z value) then Ok (Float 1) else Ok (Int value).

Definition _normalize_feature (feature_name : string) (value : pyval)
  : result number :=
  match value with
  | PBool b => Ok (Float (if b then 1 else 0))
  | PInt z => normalize_int feature_name z
  | PFloat q => Ok (Float (normalize_float feature_name q))
  | PNone | PStr _ => Ok (Float 0.5)
  end.

(** One turn of the loop over [weights.items()]; the accumulator is
    [(score, total_weight)]. *)
Definition weigh (features : gmap string pyval) (acc : Q * Q)
           (item : string * Q) : result (Q * Q) :=
  let '(feature_name, weight) := item in
  match features !! feature_name with
  | Some feature_value =>
      bind (_normalize_feature feature_name feature_value)
        (fun normalized_value =>
           bind (to_float normalized_value) (fun value =>
             Ok (fst acc + value * weight, snd acc + weight)))
  | None => Ok acc
  end.

Definition _calculate_weighted_score (self : ComplexityScorer)
           (features : gmap string pyval) : result Q :=
  let weights := dict_merge default_weights (weights self) in
  bind (fold_left (fun acc item => bind acc (fun a => weigh features a item))
                  weights (Ok (0, 0)))
       (fun totals =>
          let '(score, total_weight) := totals in
          if Qltb 0 total_weight then Ok (score / total_weight) else Ok score).

Section WithExp.
(** [numpy.exp] on the floats that reach it. *)
Variable np_exp : Q -> Q.

Definition _sigmoid_normalize (x : Q) : Q :=
  1 / (1 + np_exp (-(10) * (x - 0.5))).

Definition calculate_complexity (self : ComplexityScorer)
           (task_description : string) (context : pyobj)
  : result (Q * ComplexityScorer) :=
  bind (_extract_features task_description context) (fun features =>
  bind (_calculate_weighted_score self features) (fun score =>
    let normalized_score := _sigmoid_normalize score in
    let normalized_score := max2 0 (min2 1 normalized_score) in
    let self :=
      mk_scorer (weights self)
        (history self ++
           [mk_scoring task_description features normalized_score context])
    in
    Ok (normalized_score, self))).
End WithExp.

Definition update_model_performance (self : ComplexityScorer)
           (task_description model_type : string) (success : bool)
  : ComplexityScorer :=
  if (1000 <? length (history self))%nat
  then mk_scorer (weights self)
         (skipn (length (history self) - 1000) (history self))
  else self.

(** A value that arithmetic with floats can take: no [int] beyond the
    range of a float. *)
Definition float_sized (v : pyval) : Prop :=
  match v with
  | PInt z => (Z.abs z < float_limit)%Z
  | _ => True
  end.

(** The context is [None], or a mapping whose values under the three
    context keys are float-sized. *)
Definition usable_context (context : pyobj) : Prop :=
  context = Scalar PNone
  \/ exists d, context = Dict d
              /\ forall key v, In key context_keys -> d !! key = Some v ->
                              float_sized v.

(** A value that lies between 0 and 1 when it is a number. *)
Definition unit_valued (v : pyval) : Prop :=
  match v with
  | PFloat q => 0 <= q /\ q <= 1
  | PInt z => (0 <= z <= 1)%Z
  | _ => True
  end.

(** The context is [None], or a mapping whose values under the three
    context keys are unit-valued. *)
Definition unit_context (context : pyobj) : Prop :=
  context = Scalar PNone
  \/ exists d, context = Dict d
              /\ forall key v, In key context_keys -> d !! key = Some v ->
                              unit_valued v.

(** The feature is normalized without raising, to a value between 0
    and 1. *)
Definition counts_in_unit (feature_name : string) (value : pyval) : Prop :=
  exists x,
    bind (_normalize_feature feature_name value) to_float = Ok x
    /\ 0 <= x /\ x <= 1.

End Scorer.

(** ** budget_tracker.py *)
Module Budget.
Import Py.
#[local] Open Scope Q_scope.

Record ExpenseRecord : Type := mk_expense {
  timestamp : datetime;
  model_type : string;
  cost : Q;
  task_description : string;
  success : bool
}.

Record BudgetTracker : Type := mk_tracker {
  daily_budget : Q;
  weekly_budget : Q;
  monthly_budget : Q;
  warning_threshold : Q;
  critical_threshold : Q;
  expenses : list ExpenseRecord;
  daily_expenses : Q;
  weekly_expenses : Q;
  monthly_expenses : Q;
  current_day : date;
  current_week : datetime;
  current_month : date
}.

(** The dictionary [check_budget_status] returns. *)
Record BudgetStatus : Type := mk_status {
  daily_remaining : Q;
  weekly_remaining : Q;
  monthly_remaining : Q;
  daily_used : Q;
  weekly_used : Q;
  monthly_used : Q;
  is_warning : bool;
  is_critical : bool;
  remaining : Q
}.

(** [now] is the reading of [datetime.now()] inside the method. *)
Definition _get_week_start (now : datetime) : datetime :=
  let days_since_monday := weekday now in
  midnight_days_before days_since_monday now.

Definition __init__ (config : Config.t) (day_now week_now month_now : datetime)
  : BudgetTracker :=
  let budget_config := Config.budget config in
  mk_tracker
    (default 10 (Config.daily_limit budget_config))
    (default 50 (Config.weekly_limit budget_config))
    (default 200 (Config.monthly_limit budget_config))
    (default 2 (Config.warning_threshold budget_config))
    (default 0.5 (Config.critical_threshold budget_config))
    [] 0 0 0
    (to_date day_now) (_get_week_start week_now) (month_start month_now).

(** Assignments to the attributes the methods write. *)
Definition set_day (self : BudgetTracker) (spent : Q) (d : date) :=
  mk_tracker (daily_budget self) (weekly_budget self) (monthly_budget self)
    (warning_threshold self) (critical_threshold self) (expenses self)
    spent (weekly_expenses self) (monthly_expenses self)
    d (current_week self) (current_month self).

Definition set_week (self : BudgetTracker) (spent : Q) (w : datetime) :=
  mk_tracker (daily_budget self) (weekly_budget self) (monthly_budget self)
    (warning_threshold self) (critical_threshold self) (expenses self)
    (daily_expenses self) spent (monthly_expenses self)
    (current_day self) w (current_month self).

Definition set_month (self : BudgetTracker) (spent : Q) (m : date) :=
  mk_tracker (daily_budget self) (weekly_budget self) (monthly_budget self)
    (warning_threshold self) (critical_threshold self) (expenses self)
    (daily_expenses self) (weekly_expenses self) spent
    (current_day self) (current_week self) m.

(** [now] is read at the top of the method, [week_now] inside its call
    of [_get_week_start]. *)
Definition _update_periods (self : BudgetTracker) (now week_now : datetime)
  : BudgetTracker :=
  let today := to_date now in
  let self :=
    if decide (today <> current_day self) then set_day self 0 today
    else self in
  let week_start := _get_week_start week_now in
  let self :=
    if decide (week_start <> current_week self) then set_week self 0 week_start
    else self in
  let month_start := month_start now in
  if decide (month_start <> current_month self) then set_month self 0 month_start
  else self.

(** [stamp] is the reading that becomes the record's timestamp. *)
Definition record_expense (self : BudgetTracker) (cost : Q)
           (model_type task_description : string)
           (now week_now stamp : datetime) : BudgetTracker :=
  let self := _update_periods self now week_now in
  let expense :=
    mk_expense stamp model_type cost (substring 0 100 task_description) true in
  mk_tracker (daily_budget self) (weekly_budget self) (monthly_budget self)
    (warning_threshold self) (critical_threshold self)
    (expenses self ++ [expense])
    (daily_expenses self + cost)
    (weekly_expenses self + cost)
    (monthly_expenses self + cost)
    (current_day self) (current_week self) (current_month self).

Definition check_budget_status (self : BudgetTracker) (now week_now : datetime)
  : BudgetStatus * BudgetTracker :=
  let self := _update_periods self now week_now in
  let daily_remaining := max2 0 (daily_budget self - daily_expenses self) in
  let weekly_remaining := max2 0 (weekly_budget self - weekly_expenses self) in
  let monthly_remaining :=
    max2 0 (monthly_budget self - monthly_expenses self) in
  let is_warning := Qle_bool daily_remaining (warning_threshold self) in
  let is_critical := Qle_bool daily_remaining (critical_threshold self) in
  (mk_status daily_remaining weekly_remaining monthly_remaining
     (daily_expenses self) (weekly_expenses self) (monthly_expenses self)
     is_warning is_critical
     (min3 daily_remaining weekly_remaining monthly_remaining),
   self).

Definition get_total_expenses (self : BudgetTracker) : Q :=
  sum (map cost (expenses self)).

Definition get_remaining_budget (self : BudgetTracker)
           (now week_now : datetime) : Q * BudgetTracker :=
  let '(status, self) := check_budget_status self now week_now in
  (remaining status, self).

(** [now] is the reading of [datetime.now()] at the top of the method. *)
Definition get_expense_history (self : BudgetTracker) (period : string)
           (now : datetime) : result (list ExpenseRecord) :=
  bind (if String.eqb period "day" then minus_days 1 now
        else if String.eqb period "week" then minus_days 7 now
        else if String.eqb period "month" then minus_days 30 now
        else Ok datetime_min)
       (fun cutoff =>
          Ok (List.filter
                (fun expense => datetime_ge (timestamp expense) cutoff)
                (expenses self))).

(** One turn of the loop of [get_model_expense_breakdown]. *)
Definition tally (breakdown : gmap string Q) (expense : ExpenseRecord)
  : gmap string Q :=
  let model_type := model_type expense in
  let breakdown :=
    match breakdown !! model_type with
    | None => <[model_type := 0]> breakdown
    | Some _ => breakdown
    end in
  <[model_type := default 0 (breakdown !! model_type) + cost expense]>
    breakdown.

Definition get_model_expense_breakdown (self : BudgetTracker)
  : gmap string Q :=
  fold_left tally (expenses self) ∅.

Definition can_afford (self : BudgetTracker) (estimated_cost : Q)
           (now week_now : datetime) : bool * BudgetTracker :=
  let '(status, self) := check_budget_status self now week_now in
  (Qle_bool estimated_cost (remaining status), self).

Definition reset_budgets (self : BudgetTracker)
           (day_now week_now month_now : datetime) : BudgetTracker :=
  mk_tracker (daily_budget self) (weekly_budget self) (monthly_budget self)
    (warning_threshold self) (critical_threshold self)
    [] 0 0 0
    (to_date day_now) (_get_week_start week_now) (month_start month_now).

(** *** Call sequences

    A caller's use of a tracker: the public methods that change it, each
    with its arguments and the clock readings it makes.  A period rolls
    over when a reading falls in another day, week or month than the
    tracker's anchors. *)
Inductive call : Type :=
| RecordExpense (cost : Q) (model_type task_description : string)
                (now week_now stamp : datetime)
| CheckBudgetStatus (now week_now : datetime)
| ResetBudgets (day_now week_now month_now : datetime).

Definition step (self : BudgetTracker) (c : call) : BudgetTracker :=
  match c with
  | RecordExpense cost model_type task_description now week_now stamp =>
      record_expense self cost model_type task_description now week_now stamp
  | CheckBudgetStatus now week_now =>
      snd (check_budget_status self now week_now)
  | ResetBudgets day_now week_now month_now =>
      reset_budgets self day_now week_now month_now
  end.

Definition run (self : BudgetTracker) (calls : list call) : BudgetTracker :=
  fold_left step calls self.

(** The costs passed to [record_expense] since the last [reset_budgets]
    of the sequence (or since its start), oldest first. *)
Definition recorded_costs (calls : list call) : list Q :=
  fold_left (fun acc c =>
               match c with
               | RecordExpense cost _ _ _ _ _ => (acc ++ [cost])%list
               | CheckBudgetStatus _ _ => acc
               | ResetBudgets _ _ _ => []
               end) calls [].

(** The clock readings of a call that [_update_periods] looks at. *)
Definition same_period (self : BudgetTracker) (now week_now : datetime)
  : Prop :=
  to_date now = current_day self
  /\ _get_week_start week_now = current_week self
  /\ month_start now = current_month self.

(** The call passes no negative cost. *)
Definition nonneg_cost (c : call) : Prop :=
  match c with
  | RecordExpense cost _ _ _ _ _ => 0 <= cost
  | _ => True
  end.

(** The call is no reset and its readings fall in the day, week and month
    the tracker is anchored at: no boundary is crossed. *)
Definition within_period (self : BudgetTracker) (c : call) : Prop :=
  match c with
  | RecordExpense _ _ _ now week_now _ => same_period self now week_now
  | CheckBudgetStatus now week_now => same_period self now week_now
  | ResetBudgets _ _ _ => False
  end.

(** The call is no reset and is made on day [d]. *)
Definition within_day (d : date) (c : call) : Prop :=
  match c with
  | RecordExpense _ _ _ now _ _ => to_date now = d
  | CheckBudgetStatus now _ => to_date now = d
  | ResetBudgets _ _ _ => False
  end.

End Budget.

(** ** model_selector.py *)
Module Selector.
Import Py.
#[local] Open Scope Q_scope.

(** The mock client: what [_create_mock_client] closes over. *)
Record MockClient : Type := mk_client {
  client_model_type : string;
  client_config : Config.ModelConfig
}.

Record ModelSelector : Type := mk_selector {
  config : Config.t;
  models : gmap string MockClient;
  thresholds : Config.Thresholds;
  fallback_order : list string
}.

(** The two entries of the [budget_status] dictionary that
    [select_model] reads; [None] is a missing key. *)
Record StatusDict : Type := mk_status_dict {
  get_is_critical : option bool;
  get_remaining : option Q
}.

(** A remaining budget: a float, or the default [float('inf')]. *)
Inductive amount : Type :=
| Finite (q : Q)
| Infinity.

(** [a >= q] *)
Definition amount_geb (a : amount) (q : Q) : bool :=
  match a with
  | Finite r => Qle_bool q r
  | Infinity => true
  end.

Definition _create_mock_client (model_type : string)
           (config : Config.ModelConfig) : MockClient :=
  mk_client model_type config.

Definition _initialize_models (config : Config.t) : gmap string MockClient :=
  let model_configs := Config.models config in
  let models : gmap string MockClient :=
    map_imap (fun model_type model_config =>
                if default false (Config.enabled model_config)
                then Some (_create_mock_client model_type model_config)
                else None) model_configs in
  match models !! "rule" with
  | None =>
      <["rule" := _create_mock_client "rule" Config.no_model_config]> models
  | Some _ => models
  end.

Definition __init__ (config : Config.t) : ModelSelector :=
  mk_selector config (_initialize_models config)
    (Config.thresholds config) (Config.fallback_order config).

Definition _can_afford_model (self : ModelSelector) (model_type : string)
           (budget_remaining : amount) : bool :=
  let model_config :=
    default Config.no_model_config
            (Config.models (config self) !! model_type) in
  let min_cost := default 0.001 (Config.min_cost_per_call model_config) in
  amount_geb budget_remaining min_cost.

Definition get_model_cost (self : ModelSelector) (model_type : string) : Q :=
  let model_config :=
    default Config.no_model_config
            (Config.models (config self) !! model_type) in
  default 0 (Config.cost_per_1k_tokens model_config).

(** [return tier, self.models[tier]] *)
Definition return_tier (self : ModelSelector) (tier : string)
  : result (string * MockClient) :=
  match models self !! tier with
  | Some client => Ok (tier, client)
  | None => Raise (KeyError tier)
  end.

Definition select_model (self : ModelSelector) (complexity : Q)
           (budget_status : StatusDict) : result (string * MockClient) :=
  let premium_threshold := default 0.8 (Config.th_premium (thresholds self)) in
  let mid_threshold := default 0.5 (Config.th_mid (thresholds self)) in
  let open_threshold := default 0.2 (Config.th_open (thresholds self)) in
  let budget_critical := default false (get_is_critical budget_status) in
  let budget_remaining :=
    match get_remaining budget_status with
    | Some r => Finite r
    | None => Infinity
    end in
  (* the statements after the third [if] *)
  let default_to_rule := return_tier self "rule" in
  (* the third [if] and what follows it *)
  let from_open :=
    if Qltb open_threshold complexity then
      if _can_afford_model self "open" budget_remaining
      then return_tier self "open"
      else return_tier self "rule"
    else default_to_rule in
  (* the second [if] and what follows it *)
  let from_mid :=
    if Qltb mid_threshold complexity then
      if _can_afford_model self "mid" budget_remaining
      then return_tier self "mid"
      else if negb budget_critical then
        if _can_afford_model self "premium" budget_remaining
        then return_tier self "premium"
        else from_open
      else from_open
    else from_open in
  if Qltb premium_threshold complexity && negb budget_critical then
    if _can_afford_model self "premium" budget_remaining
    then return_tier self "premium"
    else from_mid
  else from_mid.

(** [None] is Python's [None]. *)
Definition fallback_model (self : ModelSelector) (current_model : string)
  : option string :=
  match index_of current_model (fallback_order self) with
  | None => None
  | Some current_index =>
      if (current_index <? length (fallback_order self) - 1)%nat
      then fallback_order self !! (current_index + 1)%nat
      else None
  end.

(** The tier a call of [select_model] names, when it returns. *)
Definition chosen (r : result (string * MockClient)) : result string :=
  bind r (fun named => Ok (fst named)).

(** The tiers [select_model] can name. *)
Definition tiers : list string := ["premium"; "mid"; "open"; "rule"].

(** The place of a tier among the four, the rule engine lowest. *)
Definition rank (tier : string) : nat :=
  if String.eqb tier "premium" then 3
  else if String.eqb tier "mid" then 2
  else if String.eqb tier "open" then 1
  else 0.

End Selector.

(** ** The router package: [RouterAgent] *)
Module Router.
Import Py.
#[local] Open Scope Q_scope.

Record RoutingDecision : Type := mk_decision {
  subtask : string;
  complexity : Q;
  model_type : string;
  budget_remaining : Q
}.

Record RouterAgent : Type := mk_router {
  config : Config.t;
  complexity_scorer : Scorer.ComplexityScorer;
  budget_tracker : Budget.BudgetTracker;
  model_selector : Selector.ModelSelector;
  routing_history : list RoutingDecision
}.

(** The three readings are those of [BudgetTracker.__init__]. *)
Definition __init__ (config : Config.t) (day_now week_now month_now : datetime)
  : RouterAgent :=
  mk_router config
    (Scorer.__init__ config)
    (Budget.__init__ config day_now week_now month_now)
    (Selector.__init__ config)
    [].

(** The status dictionary as [ModelSelector.select_model] sees it. *)
Definition status_dict (status : Budget.BudgetStatus) : Selector.StatusDict :=
  Selector.mk_status_dict (Some (Budget.is_critical status))
                          (Some (Budget.remaining status)).

Section WithRouterExp.
Variable np_exp : Q -> Q.

(** The agent is returned in either case: what a collaborator changed
    before another one raised stays changed. *)
Definition select_model (self : RouterAgent) (subtask_description : string)
           (context : pyobj) (now week_now : datetime)
  : RouterAgent * result (string * Selector.MockClient * Q) :=
  match Scorer.calculate_complexity np_exp (complexity_scorer self)
          subtask_description context with
  | Raise e => (self, Raise e)
  | Ok (complexity, scorer) =>
      let '(budget_status, tracker) :=
        Budget.check_budget_status (budget_tracker self) now week_now in
      let self :=
        mk_router (config self) scorer tracker (model_selector self)
                  (routing_history self) in
      match Selector.select_model (model_selector self) complexity
              (status_dict budget_status) with
      | Raise e => (self, Raise e)
      | Ok (model_type, model_client) =>
          let decision :=
            mk_decision (substring 0 50 subtask_description) complexity
                        model_type (Budget.remaining budget_status) in
          (mk_router (config self) scorer tracker (model_selector self)
                     (routing_history self ++ [decision]),
           Ok (model_type, model_client, complexity))
      end
  end.
End WithRouterExp.

(** The readings are those of [record_expense]; none is made for the
    tier ["rule"]. *)
Definition update_routing_performance (self : RouterAgent)
           (subtask_description model_type : string) (success : bool)
           (now week_now stamp : datetime) : RouterAgent :=
  let scorer :=
    Scorer.update_model_performance (complexity_scorer self)
      subtask_description model_type success in
  let tracker :=
    if negb (String.eqb model_type "rule") then
      let cost := Selector.get_model_cost (model_selector self) model_type in
      Budget.record_expense (budget_tracker self) cost "unknown" ""
                            now week_now stamp
    else budget_tracker self in
  mk_router (config self) scorer tracker (model_selector self)
            (routing_history self).

(** One turn of the counting loop of [_calculate_model_distribution]. *)
Definition count_decision (distribution : gmap string Z)
           (decision : RoutingDecision) : gmap string Z :=
  let model_type := model_type decision in
  <[model_type := (default 0 (distribution !! model_type) + 1)%Z]> distribution.

(** The counts are lengths of parts of a Python list, so the division
    [v / total] of two [int]s cannot overflow. *)
Definition _calculate_model_distribution (self : RouterAgent) : gmap string Q :=
  let distribution := fold_left count_decision (routing_history self) ∅ in
  let total := Z.of_nat (length (routing_history self)) in
  if (0 <? total)%Z
  then (fun v => inject_Z v / inject_Z total) <$> distribution
  else inject_Z <$> distribution.

Definition _calculate_average_complexity (self : RouterAgent) : Q :=
  match routing_history self with
  | [] => 0
  | _ :: _ =>
      let total := Py.sum (map complexity (routing_history self)) in
      total / inject_Z (Z.of_nat (length (routing_history self)))
  end.

Record RoutingStats : Type := mk_stats {
  total_decisions : nat;
  model_distribution : gmap string Q;
  avg_complexity : Q;
  budget_used : Q;
  stats_budget_remaining : Q
}.

(** The readings are those of [get_remaining_budget]. *)
Definition get_routing_stats (self : RouterAgent) (now week_now : datetime)
  : RoutingStats * RouterAgent :=
  let used := Budget.get_total_expenses (budget_tracker self) in
  let '(unspent, tracker) :=
    Budget.get_remaining_budget (budget_tracker self) now week_now in
  (mk_stats (length (routing_history self))
            (_calculate_model_distribution self)
            (_calculate_average_complexity self)
            used unspent,
   mk_router (config self) (complexity_scorer self) tracker
             (model_selector self) (routing_history self)).

(** What a logged decision looks like: a complexity between 0 and 1, one
    of the four tiers, a remainder that is not negative and at most 50
    characters of the description. *)
Definition well_formed (decision : RoutingDecision) : Prop :=
  0 <= complexity decision /\ complexity decision <= 1
  /\ In (model_type decision) Selector.tiers
  /\ 0 <= budget_remaining decision
  /\ (String.length (subtask decision) <= 50)%nat.

(** *** Call sequences of a router's owner *)
Inductive call : Type :=
| SelectModel (subtask_description : string) (context : pyobj)
              (now week_now : datetime)
| UpdateRoutingPerformance (subtask_description model_type : string)
                           (success : bool) (now week_now stamp : datetime).

Definition step (np_exp : Q -> Q) (self : RouterAgent) (c : call)
  : RouterAgent :=
  match c with
  | SelectModel subtask_description context now week_now =>
      fst (select_model np_exp self subtask_description context now week_now)
  | UpdateRoutingPerformance subtask_description model_type success
                             now week_now stamp =>
      update_routing_performance self subtask_description model_type success
                                 now week_now stamp
  end.

Definition run (np_exp : Q -> Q) (self : RouterAgent) (calls : list call)
  : RouterAgent :=
  fold_left (step np_exp) calls self.

End Router.

(** ** simulate.py: the routing rule of the simulation *)
Module Simulate.
#[local] Open Scope Q_scope.

(** The routing thresholds of [SimulationParameters]. *)
Record SimulationParameters : Type := mk_params {
  premium_threshold : Q;
  mid_threshold : Q;
  open_threshold : Q
}.

Definition _select_model (params : SimulationParameters) (complexity : Q)
  : string :=
  if Py.Qltb (premium_threshold params) complexity then "premium"
  else if Py.Qltb (mid_threshold params) complexity then "mid"
  else if Py.Qltb (open_threshold params) complexity then "open"
  else "rule".

End Simulate.

(** ** orchestrator.py: what the orchestrator reports as a subtask's cost *)
Module Orchestrator.
#[local] Open Scope Q_scope.


End Orchestrator.

(** ** config_loader.py: the built-in configuration *)
Module ConfigLoader.
#[local] Open Scope Q_scope.

(** The sections of [_create_default_config] that the router reads. *)
Definition _create_default_config : Config.t :=
  Config.mk_config
    (<["premium" := Config.mk_model (Some "gpt-4o") (Some 0.015) (Some true) None]>
     (<["mid" := Config.mk_model (Some "claude-3.5-sonnet") (Some 0.008)
                   (Some true) None]>
      (<["open" := Config.mk_model (Some "qwen2.5-vl-72b") (Some 0.000)
                     (Some true) None]>
       {[ "rule" := Config.mk_model (Some "rule-based") (Some 0.000)
                      (Some true) None ]})))
    (Config.mk_thresholds (Some 0.8) (Some 0.5) (Some 0.2))
    (Config.mk_budget (Some 10.0) None None (Some 2.0) (Some 0.5))
    [] [].

(** The document [validate_config] is given: [None] stands for a section
    that is absent. The two last fields are the sections it does not look
    at. *)
Record Document : Type := mk_document {
  doc_models : option (gmap string Config.ModelConfig);
  doc_thresholds : option Config.Thresholds;
  doc_budget : option Config.Budget;
  doc_fallback_order : list string;
  doc_complexity_weights : list (string * Q)
}.

(** What the components read from the document: [config.get(section, {})]. *)
Definition sections (config : Document) : Config.t :=
  Config.mk_config
    (default ∅ (doc_models config))
    (default (Config.mk_thresholds None None None) (doc_thresholds config))
    (default (Config.mk_budget None None None None None) (doc_budget config))
    (doc_fallback_order config) (doc_complexity_weights config).

(** The function returns [False] where a check fails and [True] at its
    end; the messages it logs are left out. A key that is absent passes
    its check. *)
Definition validate_config (config : Document) : bool :=
  match doc_models config, doc_thresholds config, doc_budget config with
  | Some models, Some thresholds, Some budget =>
      forallb (fun entry =>
                 match entry with
                 | Some value => Qle_bool 0 value && Qle_bool value 1
                 | None => true
                 end)
              [Config.th_premium thresholds; Config.th_mid thresholds;
               Config.th_open thresholds]
      && forallb (fun entry =>
                    match entry with
                    | Some value => negb (Py.Qltb value 0)
                    | None => true
                    end)
                 [Config.daily_limit budget; Config.warning_threshold budget;
                  Config.critical_threshold budget]
  | _, _, _ => false
  end.

End ConfigLoader.

(** ** Sample data for the worked examples *)
Module Sample.
#[local] Open Scope Q_scope.

(** [{}]: every reader falls back on its defaults. *)
Definition no_config : Config.t :=
  Config.mk_config ∅ (Config.mk_thresholds None None None)
    (Config.mk_budget None None None None None) [] [].

(** Sunday 1 November 2026, 10:00. *)
Definition sunday : Py.datetime := Py.mk_datetime 2026 11 1 10 0 0 0.

(** Later the same day. *)
Definition sunday_noon : Py.datetime := Py.mk_datetime 2026 11 1 12 0 0 0.

(** Tuesday 3 November 2026, 09:00: the next week, the same month. *)
Definition tuesday : Py.datetime := Py.mk_datetime 2026 11 3 9 0 0 0.

(** The budget of the scenario of section 8 of the specification. *)
Definition scenario_budget : Config.t :=
  Config.mk_config ∅ (Config.mk_thresholds None None None)
    (Config.mk_budget (Some 10) None None (Some 2) (Some 0.5)) [] [].

Definition enabled_tier (min_cost : option Q) : Config.ModelConfig :=
  Config.mk_model None None (Some true) min_cost.

(** Only the premium tier is configured, and it is switched off. *)
Definition premium_disabled : Config.t :=
  Config.mk_config
    {[ "premium" := Config.mk_model None (Some 0.015) (Some false) None ]}
    (Config.mk_thresholds (Some 0.8) (Some 0.5) (Some 0.2))
    (Config.mk_budget None None None None None) [] [].

(** All four tiers enabled; the open tier may run on 0.0001. *)
Definition cheap_open : Config.t :=
  Config.mk_config
    (<["premium" := enabled_tier (Some 0.001)]>
     (<["mid" := enabled_tier None]>
      (<["open" := enabled_tier (Some 0.0001)]>
       {[ "rule" := enabled_tier None ]})))
    (Config.mk_thresholds (Some 0.8) (Some 0.5) (Some 0.2))
    (Config.mk_budget None None None None None) [] [].

End Sample.

(** * Properties *)

#[local] Open Scope Q_scope.

(** ** Comparisons, [max] and [min] *)

Lemma Qltb_lt (a b : Q) : Py.Qltb a b = true <-> a < b.
Proof.
  unfold Py.Qltb. rewrite negb_true_iff.
  destruct (Qle_bool b a) eqn:E.
  - apply Qle_bool_iff in E. split; [discriminate | intros H; lra].
  - split; [intros _ | reflexivity].
    destruct (Qlt_le_dec a b) as [H | H]; [exact H |].
    apply Qle_bool_iff in H. congruence.
Qed.

Lemma Qltb_ge (a b : Q) : Py.Qltb a b = false <-> b <= a.
Proof.
  destruct (Py.Qltb a b) eqn:E.
  - apply Qltb_lt in E. split; [discriminate | intros H; lra].
  - split; [intros _ | reflexivity].
    destruct (Qlt_le_dec a b) as [H | H]; [| exact H].
    apply Qltb_lt in H. congruence.
Qed.

Lemma Qle_bool_false (a b : Q) : Qle_bool a b = false <-> b < a.
Proof.
  destruct (Qle_bool a b) eqn:E.
  - apply Qle_bool_iff in E. split; [discriminate | intros H; lra].
  - split; [intros _ | reflexivity].
    destruct (Qlt_le_dec b a) as [H | H]; [exact H |].
    apply Qle_bool_iff in H. congruence.
Qed.

(** Case analysis on every float comparison in sight. *)
Ltac q_cases :=
  repeat match goal with
    | H : context [Py.Qltb ?a ?b] |- _ =>
        let E := fresh "E" in
        destruct (Py.Qltb a b) eqn:E;
        [apply Qltb_lt in E | apply Qltb_ge in E]
    | |- context [Py.Qltb ?a ?b] =>
        let E := fresh "E" in
        destruct (Py.Qltb a b) eqn:E;
        [apply Qltb_lt in E | apply Qltb_ge in E]
    | H : context [Qle_bool ?a ?b] |- _ =>
        let E := fresh "E" in
        destruct (Qle_bool a b) eqn:E;
        [apply Qle_bool_iff in E | apply Qle_bool_false in E]
    | |- context [Qle_bool ?a ?b] =>
        let E := fresh "E" in
        destruct (Qle_bool a b) eqn:E;
        [apply Qle_bool_iff in E | apply Qle_bool_false in E]
    end.

Ltac q_solve :=
  unfold Py.min3, Py.max2, Py.min2 in *; q_cases;
  try discriminate; try reflexivity; try lra.

Lemma max2_mono (x y : Q) : x <= y -> Py.max2 0 x <= Py.max2 0 y.
Proof. intros H. q_solve. Qed.

Lemma min3_mono (a b c a' b' c' : Q) :
  a <= a' -> b <= b' -> c <= c' -> Py.min3 a b c <= Py.min3 a' b' c'.
Proof. intros Ha Hb Hc. q_solve. Qed.

Lemma clip_unit (x : Q) : 0 <= Py.max2 0 (Py.min2 1 x) <= 1.
Proof. split; q_solve. Qed.

Lemma sum_snoc (xs : list Q) (x : Q) : Py.sum (xs ++ [x]) = Py.sum xs + x.
Proof. unfold Py.sum. rewrite fold_left_app. reflexivity. Qed.

(** ** The scorer's history *)

(** C6: after [update_model_performance] the scoring history holds at
    most 1000 entries, whatever it held before (so after any number of
    [calculate_complexity] calls); what is kept is the most recent part. *)
Theorem update_model_performance_caps_history
  (self : Scorer.ComplexityScorer) (task_description model_type : string)
  (success : bool) :
  let self' :=
    Scorer.update_model_performance self task_description model_type success in
  (length (Scorer.history self') <= 1000)%nat
  /\ Scorer.history self'
     = skipn (length (Scorer.history self) - 1000) (Scorer.history self).
Proof.
  cbv zeta. unfold Scorer.update_model_performance.
  destruct (1000 <? length (Scorer.history self))%nat eqn:E; cbn [Scorer.history].
  - apply Nat.ltb_lt in E. split; [| reflexivity].
    rewrite length_skipn. lia.
  - apply Nat.ltb_ge in E. split; [exact E |].
    replace (length (Scorer.history self) - 1000)%nat with 0%nat by lia.
    reflexivity.
Qed.

(** ** The tracker: what [_update_periods] touches *)

Ltac periods :=
  unfold Budget._update_periods, Budget.set_day, Budget.set_week,
    Budget.set_month;
  repeat (case_decide; cbn in * ); try reflexivity; try tauto.

Lemma update_periods_expenses self now week_now :
  Budget.expenses (Budget._update_periods self now week_now)
  = Budget.expenses self.
Proof. periods. Qed.

Lemma update_periods_limits self now week_now :
  let self' := Budget._update_periods self now week_now in
  Budget.daily_budget self' = Budget.daily_budget self
  /\ Budget.weekly_budget self' = Budget.weekly_budget self
  /\ Budget.monthly_budget self' = Budget.monthly_budget self
  /\ Budget.warning_threshold self' = Budget.warning_threshold self
  /\ Budget.critical_threshold self' = Budget.critical_threshold self.
Proof. periods; repeat split; reflexivity. Qed.

Lemma update_periods_daily self now week_now :
  Budget.daily_expenses (Budget._update_periods self now week_now)
  = if decide (Py.to_date now <> Budget.current_day self) then 0
    else Budget.daily_expenses self.
Proof. periods. Qed.

Lemma update_periods_weekly self now week_now :
  Budget.weekly_expenses (Budget._update_periods self now week_now)
  = if decide (Budget._get_week_start week_now <> Budget.current_week self)
    then 0 else Budget.weekly_expenses self.
Proof. periods. Qed.

Lemma update_periods_monthly self now week_now :
  Budget.monthly_expenses (Budget._update_periods self now week_now)
  = if decide (Py.month_start now <> Budget.current_month self) then 0
    else Budget.monthly_expenses self.
Proof. periods. Qed.

Lemma update_periods_day self now week_now :
  Budget.current_day (Budget._update_periods self now week_now)
  = Py.to_date now.
Proof.
  unfold Budget._update_periods, Budget.set_day, Budget.set_week,
    Budget.set_month.
  destruct (decide (Py.to_date now <> Budget.current_day self)) as [H | H];
    repeat (case_decide; cbn); try reflexivity;
    symmetry; apply dec_stable; exact H.
Qed.

Lemma update_periods_same self now week_now :
  Budget.same_period self now week_now ->
  Budget._update_periods self now week_now = self.
Proof.
  intros (Hd & Hw & Hm). unfold Budget._update_periods.
  repeat (case_decide; cbn in * ); try reflexivity; congruence.
Qed.

Lemma run_snoc self calls c :
  Budget.run self (calls ++ [c]) = Budget.step (Budget.run self calls) c.
Proof. unfold Budget.run. rewrite fold_left_app. reflexivity. Qed.

Lemma recorded_costs_snoc calls c :
  Budget.recorded_costs (calls ++ [c])
  = match c with
    | Budget.RecordExpense cost _ _ _ _ _ =>
        (Budget.recorded_costs calls ++ [cost])%list
    | Budget.CheckBudgetStatus _ _ => Budget.recorded_costs calls
    | Budget.ResetBudgets _ _ _ => []
    end.
Proof. unfold Budget.recorded_costs. rewrite fold_left_app. reflexivity. Qed.

(** The ledger holds, in order, the costs recorded since the last reset. *)
Lemma ledger_costs self calls :
  Budget.expenses self = [] ->
  map Budget.cost (Budget.expenses (Budget.run self calls))
  = Budget.recorded_costs calls.
Proof.
  intros Hempty. induction calls as [| c calls IH] using rev_ind.
  - cbn. rewrite Hempty. reflexivity.
  - rewrite run_snoc, recorded_costs_snoc.
    destruct c as [cost mt td now wk stamp | now wk | t1 t2 t3]; cbn.
    + rewrite update_periods_expenses, map_app, IH. reflexivity.
    + rewrite update_periods_expenses. exact IH.
    + reflexivity.
Qed.

(** C9: the total over the ledger is the sum, taken in the order of the
    calls, of the costs passed to [record_expense] since the tracker was
    built or last reset; status checks and period rollovers in between do
    not change it, and the sign of the costs plays no part. *)
Theorem total_expenses_is_sum_of_recorded_costs
  (config : Config.t) (self : Budget.BudgetTracker)
  (t1 t2 t3 : Py.datetime) (calls : list Budget.call) :
  Budget.get_total_expenses (Budget.run (Budget.__init__ config t1 t2 t3) calls)
  = Py.sum (Budget.recorded_costs calls)
  /\ Budget.get_total_expenses
       (Budget.run (Budget.reset_budgets self t1 t2 t3) calls)
     = Py.sum (Budget.recorded_costs calls).
Proof.
  unfold Budget.get_total_expenses.
  split; rewrite ledger_costs; reflexivity.
Qed.

(** ** The tracker: counters and ledger *)

Lemma record_expense_ledger self cost mt td now wk stamp :
  Budget.expenses (Budget.record_expense self cost mt td now wk stamp)
  = (Budget.expenses self
     ++ [Budget.mk_expense stamp mt cost (substring 0 100 td) true])%list.
Proof.
  unfold Budget.record_expense. cbn [Budget.expenses].
  rewrite update_periods_expenses. reflexivity.
Qed.

Lemma record_expense_daily self cost mt td now wk stamp :
  Budget.daily_expenses (Budget.record_expense self cost mt td now wk stamp)
  = (if decide (Py.to_date now <> Budget.current_day self) then 0
     else Budget.daily_expenses self) + cost.
Proof.
  unfold Budget.record_expense. cbn [Budget.daily_expenses].
  rewrite update_periods_daily. reflexivity.
Qed.

Lemma record_expense_weekly self cost mt td now wk stamp :
  Budget.weekly_expenses (Budget.record_expense self cost mt td now wk stamp)
  = (if decide (Budget._get_week_start wk <> Budget.current_week self) then 0
     else Budget.weekly_expenses self) + cost.
Proof.
  unfold Budget.record_expense. cbn [Budget.weekly_expenses].
  rewrite update_periods_weekly. reflexivity.
Qed.

Lemma record_expense_monthly self cost mt td now wk stamp :
  Budget.monthly_expenses (Budget.record_expense self cost mt td now wk stamp)
  = (if decide (Py.month_start now <> Budget.current_month self) then 0
     else Budget.monthly_expenses self) + cost.
Proof.
  unfold Budget.record_expense. cbn [Budget.monthly_expenses].
  rewrite update_periods_monthly. reflexivity.
Qed.


Lemma check_budget_status_state self now wk :
  snd (Budget.check_budget_status self now wk)
  = Budget._update_periods self now wk.
Proof. reflexivity. Qed.

(** One call keeps the three counters from falling below 0. *)
Lemma counters_step_nonneg self c :
  Budget.nonneg_cost c ->
  (0 <= Budget.daily_expenses self
   /\ 0 <= Budget.weekly_expenses self
   /\ 0 <= Budget.monthly_expenses self) ->
  let self' := Budget.step self c in
  0 <= Budget.daily_expenses self'
  /\ 0 <= Budget.weekly_expenses self'
  /\ 0 <= Budget.monthly_expenses self'.
Proof.
  intros Hc (Hd & Hw & Hm).
  destruct c as [cost mt td now wk stamp | now wk | t1 t2 t3];
    cbn [Budget.step Budget.nonneg_cost] in *; cbv zeta.
  - rewrite record_expense_daily, record_expense_weekly,
      record_expense_monthly.
    repeat case_decide; repeat split; lra.
  - rewrite check_budget_status_state.
    rewrite update_periods_daily, update_periods_weekly,
      update_periods_monthly.
    repeat case_decide; repeat split; lra.
  - cbn. repeat split; lra.
Qed.

(** C3, amended: at every state reached from a new tracker by calls of
    [record_expense] with costs that are not negative,
    [check_budget_status] and [reset_budgets], with any clock readings (so
    with any period rollovers), none of the three period counters is
    negative.  The comparison of [get_total_expenses()] with the counters
    is not part of it: the counters are kept with [+=] and the total is a
    [sum], and on floats the total can come out below a counter
    ([compensated_total_is_below_the_daily_counter]). *)
Theorem counters_are_never_negative
  (config : Config.t) (t1 t2 t3 : Py.datetime) (calls : list Budget.call) :
  Forall Budget.nonneg_cost calls ->
  let self := Budget.run (Budget.__init__ config t1 t2 t3) calls in
  0 <= Budget.daily_expenses self
  /\ 0 <= Budget.weekly_expenses self
  /\ 0 <= Budget.monthly_expenses self.
Proof.
  intros Hcalls. cbv zeta.
  induction calls as [| c calls IH] using rev_ind.
  - cbn. repeat split; lra.
  - apply Forall_app in Hcalls as [Hcalls Hc].
    apply Forall_inv in Hc.
    rewrite run_snoc.
    apply counters_step_nonneg; [exact Hc | exact (IH Hcalls)].
Qed.

(** C3 at work: an expense on Sunday, a status check on Tuesday, a second
    expense the same day. *)
Lemma counters_are_never_negative_witness :
  let self :=
    Budget.run (Budget.__init__ Sample.scenario_budget
                  Sample.sunday Sample.sunday Sample.sunday)
      [ Budget.RecordExpense 3 "mid" "open the report"
          Sample.sunday Sample.sunday Sample.sunday;
        Budget.CheckBudgetStatus Sample.tuesday Sample.tuesday;
        Budget.RecordExpense 0.5 "open" "sort the table"
          Sample.tuesday Sample.tuesday Sample.tuesday ] in
  0 <= Budget.daily_expenses self
  /\ 0 <= Budget.weekly_expenses self
  /\ 0 <= Budget.monthly_expenses self.
Proof.
  apply counters_are_never_negative.
  repeat constructor; cbn; lra.
Defined.

(** C3 as stated fails: [record_expense] takes any float, and one negative
    cost leaves all three counters negative. *)
Lemma negative_cost_makes_counters_negative :
  let self :=
    Budget.run (Budget.__init__ Sample.no_config
                  Sample.sunday Sample.sunday Sample.sunday)
      [ Budget.RecordExpense (-(1)) "unknown" ""
          Sample.sunday Sample.sunday Sample.sunday ] in
  Budget.daily_expenses self < 0
  /\ Budget.weekly_expenses self < 0
  /\ Budget.monthly_expenses self < 0.
Proof. vm_compute. repeat split; reflexivity. Qed.

(** C3 as stated fails on floats too, with costs that are not negative:
    after [record_expense(0.1)], [record_expense(0.2)] and
    [record_expense(0.3)] within one day the daily counter, kept with
    [+=], is 0.6000000000000001, and [get_total_expenses()], the built-in
    [sum] of Python 3.12 over the same three costs, is 0.6. *)
Example compensated_total_is_below_the_daily_counter :
  PrimFloat.ltb (Float64.builtin_sum Float64.three_costs)
                (Float64.accumulate Float64.three_costs) = true.
Proof. vm_compute. reflexivity. Qed.

(** ** The tracker: limits and status *)

Lemma step_limits self c :
  let self' := Budget.step self c in
  Budget.daily_budget self' = Budget.daily_budget self
  /\ Budget.weekly_budget self' = Budget.weekly_budget self
  /\ Budget.monthly_budget self' = Budget.monthly_budget self
  /\ Budget.warning_threshold self' = Budget.warning_threshold self
  /\ Budget.critical_threshold self' = Budget.critical_threshold self.
Proof.
  destruct c as [cost mt td now wk stamp | now wk | t1 t2 t3]; cbv zeta;
    cbn [Budget.step].
  - unfold Budget.record_expense. cbn. apply update_periods_limits.
  - rewrite check_budget_status_state. apply update_periods_limits.
  - cbn. repeat split; reflexivity.
Qed.

Lemma run_limits self calls :
  let self' := Budget.run self calls in
  Budget.daily_budget self' = Budget.daily_budget self
  /\ Budget.weekly_budget self' = Budget.weekly_budget self
  /\ Budget.monthly_budget self' = Budget.monthly_budget self
  /\ Budget.warning_threshold self' = Budget.warning_threshold self
  /\ Budget.critical_threshold self' = Budget.critical_threshold self.
Proof.
  cbv zeta. induction calls as [| c calls IH] using rev_ind.
  - repeat split; reflexivity.
  - rewrite run_snoc.
    destruct (step_limits (Budget.run self calls) c) as (H1 & H2 & H3 & H4 & H5).
    destruct IH as (I1 & I2 & I3 & I4 & I5).
    repeat split; congruence.
Qed.

Lemma status_daily_remaining self now wk :
  Budget.daily_remaining (fst (Budget.check_budget_status self now wk))
  = Py.max2 0 (Budget.daily_budget self
               - (if decide (Py.to_date now <> Budget.current_day self) then 0
                  else Budget.daily_expenses self)).
Proof.
  unfold Budget.check_budget_status. cbn [fst Budget.daily_remaining].
  destruct (update_periods_limits self now wk) as (-> & _).
  rewrite update_periods_daily. reflexivity.
Qed.

Lemma status_weekly_remaining self now wk :
  Budget.weekly_remaining (fst (Budget.check_budget_status self now wk))
  = Py.max2 0 (Budget.weekly_budget self
               - (if decide (Budget._get_week_start wk
                             <> Budget.current_week self) then 0
                  else Budget.weekly_expenses self)).
Proof.
  unfold Budget.check_budget_status. cbn [fst Budget.weekly_remaining].
  destruct (update_periods_limits self now wk) as (_ & -> & _).
  rewrite update_periods_weekly. reflexivity.
Qed.

Lemma status_monthly_remaining self now wk :
  Budget.monthly_remaining (fst (Budget.check_budget_status self now wk))
  = Py.max2 0 (Budget.monthly_budget self
               - (if decide (Py.month_start now <> Budget.current_month self)
                  then 0 else Budget.monthly_expenses self)).
Proof.
  unfold Budget.check_budget_status. cbn [fst Budget.monthly_remaining].
  destruct (update_periods_limits self now wk) as (_ & _ & -> & _).
  rewrite update_periods_monthly. reflexivity.
Qed.

Lemma status_flags self now wk :
  let status := fst (Budget.check_budget_status self now wk) in
  Budget.is_warning status
  = Qle_bool (Budget.daily_remaining status) (Budget.warning_threshold self)
  /\ Budget.is_critical status
     = Qle_bool (Budget.daily_remaining status)
                (Budget.critical_threshold self).
Proof.
  cbv zeta. unfold Budget.check_budget_status.
  cbn [fst Budget.is_warning Budget.is_critical Budget.daily_remaining].
  destruct (update_periods_limits self now wk) as (_ & _ & _ & -> & ->).
  split; reflexivity.
Qed.

(** On one day the daily counter grows by what is recorded. *)
Lemma daily_counter_within_day self calls :
  Forall (Budget.within_day (Budget.current_day self)) calls ->
  Budget.current_day (Budget.run self calls) = Budget.current_day self
  /\ Budget.daily_expenses (Budget.run self calls)
     == Budget.daily_expenses self + Py.sum (Budget.recorded_costs calls).
Proof.
  intros Hcalls. induction calls as [| c calls IH] using rev_ind.
  - cbn. split; [reflexivity | lra].
  - apply Forall_app in Hcalls as [Hcalls Hc]. apply Forall_inv in Hc.
    destruct (IH Hcalls) as [Hday Hsum]. clear IH.
    rewrite run_snoc, recorded_costs_snoc.
    destruct c as [cost mt td now wk stamp | now wk | t1 t2 t3];
      cbn [Budget.step Budget.within_day] in *.
    + split.
      * unfold Budget.record_expense. cbn [Budget.current_day].
        rewrite update_periods_day. exact Hc.
      * rewrite record_expense_daily, sum_snoc.
        rewrite decide_False by (rewrite Hday; intros H; apply H, Hc).
        lra.
    + rewrite check_budget_status_state, update_periods_day,
        update_periods_daily.
      rewrite decide_False by (rewrite Hday; intros H; apply H, Hc).
      split; [exact Hc | exact Hsum].
    + contradiction.
Qed.

(** C2, amended: with a daily limit of 10, a warning threshold of 2 and a
    critical threshold of 0.5, once the costs recorded on the tracker's
    first day sum to 9.6 the status has [is_warning] and [is_critical]
    both true (0.4 is left, which is at most 0.5); once they sum to 9.51
    it has [is_critical] true. *)
Theorem budget_scenario_flags
  (config : Config.t) (t1 t2 t3 now week_now : Py.datetime)
  (calls : list Budget.call) :
  let self0 := Budget.__init__ config t1 t2 t3 in
  Budget.daily_budget self0 == 10 ->
  Budget.warning_threshold self0 == 2 ->
  Budget.critical_threshold self0 == 0.5 ->
  Forall (Budget.within_day (Py.to_date t1)) calls ->
  Py.to_date now = Py.to_date t1 ->
  let status :=
    fst (Budget.check_budget_status (Budget.run self0 calls) now week_now) in
  (Py.sum (Budget.recorded_costs calls) == 9.6 ->
   Budget.is_warning status = true /\ Budget.is_critical status = true)
  /\ (Py.sum (Budget.recorded_costs calls) == 9.51 ->
      Budget.is_critical status = true).
Proof.
  intros self0 Hlimit Hwarn Hcrit Hcalls Hnow status.
  destruct (daily_counter_within_day self0 calls Hcalls) as [Hday Hsum].
  destruct (run_limits self0 calls) as (Hl & _ & _ & Hw & Hc).
  destruct (status_flags (Budget.run self0 calls) now week_now) as [Fw Fc].
  fold status in Fw, Fc. rewrite Fw, Fc. clear Fw Fc.
  subst status. rewrite status_daily_remaining.
  rewrite decide_False by (rewrite Hday; intros H; apply H, Hnow).
  rewrite Hl, Hw, Hc.
  change (Budget.daily_expenses self0) with 0 in Hsum.
  split; intros Htotal; [split |]; q_solve.
Qed.

(** C2 at work: one expense of 9.6, and 9 followed by 0.51. *)
Lemma budget_scenario_flags_witness :
  let self0 :=
    Budget.__init__ Sample.scenario_budget
      Sample.sunday Sample.sunday Sample.sunday in
  let after calls :=
    fst (Budget.check_budget_status (Budget.run self0 calls)
           Sample.sunday_noon Sample.sunday_noon) in
  let one :=
    [ Budget.RecordExpense 9.6 "mid" "draft the letter"
        Sample.sunday Sample.sunday Sample.sunday ] in
  let two :=
    [ Budget.RecordExpense 9 "premium" "analyze the sheet"
        Sample.sunday Sample.sunday Sample.sunday;
      Budget.RecordExpense 0.51 "open" "close the window"
        Sample.sunday_noon Sample.sunday_noon Sample.sunday_noon ] in
  (Budget.is_warning (after one) = true
   /\ Budget.is_critical (after one) = true)
  /\ Budget.is_critical (after two) = true.
Proof.
  cbv zeta. split.
  - apply (budget_scenario_flags Sample.scenario_budget
             Sample.sunday Sample.sunday Sample.sunday
             Sample.sunday_noon Sample.sunday_noon
             [ Budget.RecordExpense 9.6 "mid" "draft the letter"
                 Sample.sunday Sample.sunday Sample.sunday ]);
      try reflexivity.
    repeat constructor.
  - apply (budget_scenario_flags Sample.scenario_budget
             Sample.sunday Sample.sunday Sample.sunday
             Sample.sunday_noon Sample.sunday_noon
             [ Budget.RecordExpense 9 "premium" "analyze the sheet"
                 Sample.sunday Sample.sunday Sample.sunday;
               Budget.RecordExpense 0.51 "open" "close the window"
                 Sample.sunday_noon Sample.sunday_noon Sample.sunday_noon ]);
      try reflexivity.
    repeat constructor.
Defined.

(** C2 as stated fails: after a single expense of 9.6 the daily remainder
    is 0.4, which is not above the critical threshold 0.5, so
    [is_critical] is true where the scenario expects false. *)
Lemma critical_after_9_6 :
  let self :=
    Budget.record_expense
      (Budget.__init__ Sample.scenario_budget
         Sample.sunday Sample.sunday Sample.sunday)
      9.6 "unknown" "" Sample.sunday Sample.sunday Sample.sunday in
  let status :=
    fst (Budget.check_budget_status self Sample.sunday_noon Sample.sunday_noon)
  in
  Budget.get_total_expenses self == 9.6
  /\ Budget.daily_remaining status == 0.4
  /\ Budget.is_warning status = true
  /\ Budget.is_critical status = true.
Proof. vm_compute. repeat split; reflexivity. Qed.

(** ** The tracker within one period *)

Lemma same_period_anchors self self' now wk :
  Budget.current_day self' = Budget.current_day self ->
  Budget.current_week self' = Budget.current_week self ->
  Budget.current_month self' = Budget.current_month self ->
  Budget.same_period self now wk -> Budget.same_period self' now wk.
Proof. unfold Budget.same_period. intros -> -> ->. tauto. Qed.

Lemma within_period_anchors self self' c :
  Budget.current_day self' = Budget.current_day self ->
  Budget.current_week self' = Budget.current_week self ->
  Budget.current_month self' = Budget.current_month self ->
  Budget.within_period self c -> Budget.within_period self' c.
Proof.
  intros Hd Hw Hm. destruct c; cbn; try tauto;
    apply same_period_anchors; assumption.
Qed.

(** A call that crosses no boundary keeps the anchors and lowers no
    counter when its cost is not negative. *)
Lemma step_within_period self c :
  Budget.within_period self c -> Budget.nonneg_cost c ->
  let self' := Budget.step self c in
  (Budget.current_day self' = Budget.current_day self
   /\ Budget.current_week self' = Budget.current_week self
   /\ Budget.current_month self' = Budget.current_month self)
  /\ Budget.daily_expenses self <= Budget.daily_expenses self'
  /\ Budget.weekly_expenses self <= Budget.weekly_expenses self'
  /\ Budget.monthly_expenses self <= Budget.monthly_expenses self'.
Proof.
  intros Hin Hcost.
  destruct c as [cost mt td now wk stamp | now wk | t1 t2 t3];
    cbn [Budget.step Budget.within_period Budget.nonneg_cost] in *; cbv zeta.
  - unfold Budget.record_expense.
    rewrite (update_periods_same self now wk Hin). cbn.
    repeat split; lra.
  - rewrite check_budget_status_state, (update_periods_same self now wk Hin).
    repeat split; lra.
  - contradiction.
Qed.

Lemma run_within_period self calls :
  Forall (Budget.within_period self) calls ->
  Forall Budget.nonneg_cost calls ->
  let self' := Budget.run self calls in
  (Budget.current_day self' = Budget.current_day self
   /\ Budget.current_week self' = Budget.current_week self
   /\ Budget.current_month self' = Budget.current_month self)
  /\ Budget.daily_expenses self <= Budget.daily_expenses self'
  /\ Budget.weekly_expenses self <= Budget.weekly_expenses self'
  /\ Budget.monthly_expenses self <= Budget.monthly_expenses self'.
Proof.
  intros Hin Hcost. cbv zeta.
  induction calls as [| c calls IH] using rev_ind.
  - cbn. repeat split; lra.
  - apply Forall_app in Hin as [Hin Hc]. apply Forall_inv in Hc.
    apply Forall_app in Hcost as [Hcost Hq]. apply Forall_inv in Hq.
    destruct (IH Hin Hcost) as ((Ad & Aw & Am) & Hd & Hw & Hm). clear IH.
    rewrite run_snoc.
    destruct (step_within_period (Budget.run self calls) c)
      as ((Bd & Bw & Bm) & Kd & Kw & Km).
    { apply (within_period_anchors self); assumption. }
    { exact Hq. }
    repeat split; try congruence; lra.
Qed.

(** The remainder a status check reports when no boundary is crossed. *)
Lemma status_remaining_same_period self now wk :
  Budget.same_period self now wk ->
  Budget.remaining (fst (Budget.check_budget_status self now wk))
  = Py.min3
      (Py.max2 0 (Budget.daily_budget self - Budget.daily_expenses self))
      (Py.max2 0 (Budget.weekly_budget self - Budget.weekly_expenses self))
      (Py.max2 0 (Budget.monthly_budget self - Budget.monthly_expenses self)).
Proof.
  intros Hin. unfold Budget.check_budget_status.
  rewrite (update_periods_same self now wk Hin). reflexivity.
Qed.

(** C7, amended: along calls of [record_expense] with costs that are not
    negative (and status checks), all made within the day, week and month
    of the tracker, the [remaining] that [check_budget_status] reports
    after a longer prefix of the calls is at most the one after a shorter
    prefix; and a status check whose reading falls in a new day, week or
    month reports that period's remainder as its full limit when the
    limit is not negative, and as 0 when the limit is negative. *)
Theorem remaining_monotone_and_reset
  (self : Budget.BudgetTracker) (earlier later : list Budget.call)
  (now wk now' wk' roll roll_wk : Py.datetime) :
  Forall (Budget.within_period self) (earlier ++ later) ->
  Forall Budget.nonneg_cost (earlier ++ later) ->
  Budget.same_period self now wk ->
  Budget.same_period self now' wk' ->
  Budget.remaining
    (fst (Budget.check_budget_status
            (Budget.run self (earlier ++ later)) now' wk'))
  <= Budget.remaining
       (fst (Budget.check_budget_status (Budget.run self earlier) now wk))
  /\ let status := fst (Budget.check_budget_status self roll roll_wk) in
     (Py.to_date roll <> Budget.current_day self ->
      (0 <= Budget.daily_budget self ->
       Budget.daily_remaining status == Budget.daily_budget self)
      /\ (Budget.daily_budget self <= 0 ->
          Budget.daily_remaining status == 0))
     /\ (Budget._get_week_start roll_wk <> Budget.current_week self ->
         (0 <= Budget.weekly_budget self ->
          Budget.weekly_remaining status == Budget.weekly_budget self)
         /\ (Budget.weekly_budget self <= 0 ->
             Budget.weekly_remaining status == 0))
     /\ (Py.month_start roll <> Budget.current_month self ->
         (0 <= Budget.monthly_budget self ->
          Budget.monthly_remaining status == Budget.monthly_budget self)
         /\ (Budget.monthly_budget self <= 0 ->
             Budget.monthly_remaining status == 0)).
Proof.
  intros Hin Hcost Hnow Hnow'. split.
  - apply Forall_app in Hin as [Hin1 Hin2].
    apply Forall_app in Hcost as [Hcost1 Hcost2].
    destruct (run_within_period self earlier Hin1 Hcost1)
      as ((Ad & Aw & Am) & _).
    set (mid := Budget.run self earlier) in *.
    assert (Hrun : Budget.run self (earlier ++ later) = Budget.run mid later).
    { unfold Budget.run. apply fold_left_app. }
    rewrite Hrun.
    destruct (run_within_period mid later) as ((Bd & Bw & Bm) & Kd & Kw & Km).
    { eapply Forall_impl; [exact Hin2 |].
      intros c. apply within_period_anchors; assumption. }
    { exact Hcost2. }
    rewrite !status_remaining_same_period.
    + destruct (run_limits mid later) as (-> & -> & -> & _).
      apply min3_mono; apply max2_mono; lra.
    + apply (same_period_anchors self); assumption.
    + apply (same_period_anchors self); [congruence .. | assumption].
  - cbv zeta. rewrite status_daily_remaining, status_weekly_remaining,
      status_monthly_remaining.
    repeat split; intros; rewrite decide_True by assumption; q_solve.
Qed.

(** C7 at work: two expenses on Sunday, then a status check on Tuesday,
    which is another day and another week of the same month. *)
Lemma remaining_monotone_and_reset_witness :
  let self :=
    Budget.__init__ Sample.scenario_budget
      Sample.sunday Sample.sunday Sample.sunday in
  let first :=
    [ Budget.RecordExpense 3 "mid" "open the report"
        Sample.sunday Sample.sunday Sample.sunday ] in
  let second :=
    [ Budget.RecordExpense 0.5 "open" "sort the table"
        Sample.sunday_noon Sample.sunday_noon Sample.sunday_noon ] in
  let tuesday_status :=
    fst (Budget.check_budget_status (Budget.run self (first ++ second))
           Sample.tuesday Sample.tuesday) in
  Budget.remaining
    (fst (Budget.check_budget_status (Budget.run self (first ++ second))
            Sample.sunday_noon Sample.sunday_noon))
  <= Budget.remaining
       (fst (Budget.check_budget_status (Budget.run self first)
               Sample.sunday Sample.sunday))
  /\ Budget.daily_remaining tuesday_status == 10
  /\ Budget.weekly_remaining tuesday_status == 50.
Proof.
  cbv zeta.
  set (self := Budget.__init__ Sample.scenario_budget
                 Sample.sunday Sample.sunday Sample.sunday).
  set (first := [ Budget.RecordExpense 3 "mid" "open the report"
                    Sample.sunday Sample.sunday Sample.sunday ]).
  set (second := [ Budget.RecordExpense 0.5 "open" "sort the table"
                     Sample.sunday_noon Sample.sunday_noon
                     Sample.sunday_noon ]).
  split.
  - apply (remaining_monotone_and_reset self first second
             Sample.sunday Sample.sunday Sample.sunday_noon Sample.sunday_noon
             Sample.tuesday Sample.tuesday).
    + repeat constructor; vm_compute; reflexivity.
    + repeat constructor; vm_compute; discriminate.
    + repeat split; vm_compute; reflexivity.
    + repeat split; vm_compute; reflexivity.
  - pose proof (remaining_monotone_and_reset
                  (Budget.run self (first ++ second)) [] []
                  Sample.sunday Sample.sunday Sample.sunday Sample.sunday
                  Sample.tuesday Sample.tuesday) as H.
    destruct H as [_ (Hd & Hw & _)].
    1-2: constructor.
    1-2: repeat split; vm_compute; reflexivity.
    split.
    + apply Hd; vm_compute; discriminate.
    + apply Hw; vm_compute; discriminate.
Defined.

(** C7 as stated fails: no method rejects a negative limit, and with
    [weekly_limit: -5] a status check in a new week reports a weekly
    remainder of 0, not the configured limit. *)
Lemma negative_limit_resets_to_zero :
  let config :=
    Config.mk_config ∅ (Config.mk_thresholds None None None)
      (Config.mk_budget None (Some (-(5))) None None None) [] [] in
  let self :=
    Budget.__init__ config Sample.sunday Sample.sunday Sample.sunday in
  let status :=
    fst (Budget.check_budget_status self Sample.tuesday Sample.tuesday) in
  Budget._get_week_start Sample.tuesday <> Budget.current_week self
  /\ Budget.weekly_budget self == -(5)
  /\ Budget.weekly_remaining status == 0
  /\ ~ Budget.weekly_remaining status == Budget.weekly_budget self.
Proof.
  cbv zeta. split; [vm_compute; discriminate |].
  split; [reflexivity |]. split; [vm_compute; reflexivity |].
  vm_compute. discriminate.
Qed.

(** ** The selector's catalog *)

Lemma initialize_models_lookup (config : Config.t) (tier : string) :
  tier <> "rule" ->
  Selector._initialize_models config !! tier
  = match Config.models config !! tier with
    | Some model_config =>
        if default false (Config.enabled model_config)
        then Some (Selector._create_mock_client tier model_config)
        else None
    | None => None
    end.
Proof.
  intros Hne. unfold Selector._initialize_models.
  match goal with |- context [map_imap ?f ?m] => set (models := map_imap f m) end.
  assert (Hl : models !! tier
               = match Config.models config !! tier with
                 | Some model_config =>
                     if default false (Config.enabled model_config)
                     then Some (Selector._create_mock_client tier model_config)
                     else None
                 | None => None
                 end).
  { subst models. rewrite map_lookup_imap.
    destruct (Config.models config !! tier); reflexivity. }
  destruct (models !! "rule").
  - exact Hl.
  - rewrite lookup_insert_ne by congruence. exact Hl.
Qed.

(** The catalog always holds the tier ["rule"]. *)
Lemma rule_always_instantiated (config : Config.t) :
  is_Some (Selector._initialize_models config !! "rule").
Proof.
  unfold Selector._initialize_models.
  match goal with |- context [map_imap ?f ?m] => set (models := map_imap f m) end.
  destruct (models !! "rule") as [client |] eqn:E.
  - rewrite E. eauto.
  - rewrite lookup_insert_eq. eauto.
Qed.

Lemma return_tier_spec (self : Selector.ModelSelector) (tier : string) :
  match Selector.return_tier self tier with
  | Py.Ok (named, client) =>
      named = tier /\ Selector.models self !! tier = Some client
  | Py.Raise e =>
      e = Py.KeyError tier /\ Selector.models self !! tier = None
  end.
Proof.
  unfold Selector.return_tier.
  destruct (Selector.models self !! tier); split; reflexivity.
Qed.

(** Every path of [select_model] ends in [return tier, self.models[tier]]
    for one of the four tiers: the call returns a tier of the catalog, or
    raises [KeyError] for a tier that the catalog lacks. *)
Lemma select_model_outcome
  (self : Selector.ModelSelector) (complexity : Q)
  (budget_status : Selector.StatusDict) :
  match Selector.select_model self complexity budget_status with
  | Py.Ok (tier, client) =>
      In tier Selector.tiers /\ Selector.models self !! tier = Some client
  | Py.Raise e =>
      exists tier, e = Py.KeyError tier /\ In tier Selector.tiers
                   /\ Selector.models self !! tier = None
  end.
Proof.
  assert (H : forall tier, In tier Selector.tiers ->
    match Selector.return_tier self tier with
    | Py.Ok (named, client) =>
        In named Selector.tiers /\ Selector.models self !! named = Some client
    | Py.Raise e =>
        exists t, e = Py.KeyError t /\ In t Selector.tiers
                  /\ Selector.models self !! t = None
    end).
  { intros tier Hin. pose proof (return_tier_spec self tier) as Hr.
    destruct (Selector.return_tier self tier) as [[named client] | e].
    - destruct Hr as [-> Hr]. split; assumption.
    - destruct Hr as [-> Hr]. exists tier. repeat split; assumption. }
  unfold Selector.select_model.
  repeat match goal with
    | |- context [if ?b then _ else _] => destruct b
    end;
    apply H; cbn; tauto.
Qed.

(** C1 on the code: with the premium tier switched off in the
    configuration, [_initialize_models] leaves it out of the catalog, yet
    [select_model] still picks it for a complex task with budget at hand
    and raises [KeyError] at [self.models['premium']]. *)
Theorem select_model_raises_on_disabled_tier :
  let self := Selector.__init__ Sample.premium_disabled in
  Selector.models self !! "premium" = None
  /\ is_Some (Selector.models self !! "rule")
  /\ Selector.select_model self 0.9
       (Selector.mk_status_dict (Some false) (Some 5))
     = Py.Raise (Py.KeyError "premium").
Proof.
  cbv zeta. split; [| split].
  - vm_compute. reflexivity.
  - apply rule_always_instantiated.
  - vm_compute. reflexivity.
Qed.

(** ** The selector's decision *)

Lemma can_afford_finite (self : Selector.ModelSelector) (tier : string) (r : Q) :
  Selector._can_afford_model self tier (Selector.Finite r)
  = Qle_bool
      (default 0.001
         (Config.min_cost_per_call
            (default Config.no_model_config
               (Config.models (Selector.config self) !! tier)))) r.
Proof. reflexivity. Qed.

Lemma chosen_return_tier (self : Selector.ModelSelector) (tier : string) :
  is_Some (Selector.models self !! tier) ->
  Selector.chosen (Selector.return_tier self tier) = Py.Ok tier.
Proof.
  intros [client H]. unfold Selector.return_tier. rewrite H. reflexivity.
Qed.

(** C8, amended: with thresholds premium 0.8, mid 0.5 and open 0.2 (set
    or left to these defaults), complexity 0.85, a budget that is not
    critical, a premium minimum per-call cost of 0.001 and the tiers
    premium, mid and open instantiated: with 5.0 remaining [select_model]
    names ["premium"]; with 0.0005 remaining it names ["mid"] if mid is
    affordable, else ["open"] if open is affordable, else ["rule"]. *)
Theorem scenario_premium_and_fallback
  (config : Config.t) (complexity remaining : Q) (critical : option bool) :
  let self := Selector.__init__ config in
  let status := Selector.mk_status_dict critical (Some remaining) in
  default 0.8 (Config.th_premium (Config.thresholds config)) == 0.8 ->
  default 0.5 (Config.th_mid (Config.thresholds config)) == 0.5 ->
  default 0.2 (Config.th_open (Config.thresholds config)) == 0.2 ->
  default 0.001
    (Config.min_cost_per_call
       (default Config.no_model_config (Config.models config !! "premium")))
  == 0.001 ->
  is_Some (Selector.models self !! "premium") ->
  is_Some (Selector.models self !! "mid") ->
  is_Some (Selector.models self !! "open") ->
  complexity == 0.85 ->
  default false critical = false ->
  (remaining == 5 ->
   Selector.chosen (Selector.select_model self complexity status)
   = Py.Ok "premium")
  /\ (remaining == 0.0005 ->
      Selector.chosen (Selector.select_model self complexity status)
      = Py.Ok
          (if Selector._can_afford_model self "mid" (Selector.Finite remaining)
           then "mid"
           else if Selector._can_afford_model self "open"
                     (Selector.Finite remaining)
           then "open"
           else "rule")).
Proof.
  intros self status Hp Hm Ho Hmin Ip Im Io Hc Hcrit.
  assert (Ir : is_Some (Selector.models self !! "rule"))
    by apply rule_always_instantiated.
  unfold Selector.select_model.
  cbn [Selector.get_is_critical Selector.get_remaining status].
  rewrite Hcrit. cbn [negb andb].
  change (Selector.thresholds self) with (Config.thresholds config).
  assert (Tp : Py.Qltb (default 0.8 (Config.th_premium (Config.thresholds config)))
                 complexity = true) by (apply Qltb_lt; lra).
  assert (Tm : Py.Qltb (default 0.5 (Config.th_mid (Config.thresholds config)))
                 complexity = true) by (apply Qltb_lt; lra).
  assert (To : Py.Qltb (default 0.2 (Config.th_open (Config.thresholds config)))
                 complexity = true) by (apply Qltb_lt; lra).
  rewrite Tp, Tm, To. cbn [andb].
  split; intros Hr.
  - assert (Ap : Selector._can_afford_model self "premium"
                   (Selector.Finite remaining) = true).
    { rewrite can_afford_finite. apply Qle_bool_iff.
      change (Selector.config self) with config. lra. }
    rewrite Ap. apply chosen_return_tier, Ip.
  - assert (Ap : Selector._can_afford_model self "premium"
                   (Selector.Finite remaining) = false).
    { rewrite can_afford_finite. apply Qle_bool_false.
      change (Selector.config self) with config. lra. }
    rewrite Ap.
    destruct (Selector._can_afford_model self "mid" (Selector.Finite remaining)).
    + apply chosen_return_tier, Im.
    + destruct (Selector._can_afford_model self "open"
                  (Selector.Finite remaining));
        apply chosen_return_tier; assumption.
Qed.

(** C8 at work, on a configuration whose open tier may run on 0.0001. *)
Lemma scenario_premium_and_fallback_witness :
  let self := Selector.__init__ Sample.cheap_open in
  Selector.chosen
    (Selector.select_model self 0.85
       (Selector.mk_status_dict (Some false) (Some 5)))
  = Py.Ok "premium"
  /\ Selector.chosen
       (Selector.select_model self 0.85
          (Selector.mk_status_dict (Some false) (Some 0.0005)))
     = Py.Ok "open".
Proof.
  cbv zeta. split.
  - apply (scenario_premium_and_fallback Sample.cheap_open 0.85 5 (Some false));
      try reflexivity; vm_compute; eauto.
  - apply (scenario_premium_and_fallback Sample.cheap_open 0.85 0.0005
             (Some false));
      try reflexivity; vm_compute; eauto.
Defined.

(** C8 as stated fails: with 0.0005 remaining, mid unaffordable (its
    floor is the default 0.001) and open affordable (its floor is 0.0001),
    the third branch of [select_model] names ["open"], which is neither
    ["mid"] nor ["rule"]. *)
Lemma fallback_reaches_open_tier :
  let self := Selector.__init__ Sample.cheap_open in
  let remaining := Selector.Finite 0.0005 in
  Selector._can_afford_model self "premium" remaining = false
  /\ Selector._can_afford_model self "mid" remaining = false
  /\ Selector._can_afford_model self "open" remaining = true
  /\ Selector.chosen
       (Selector.select_model self 0.85
          (Selector.mk_status_dict (Some false) (Some 0.0005)))
     = Py.Ok "open".
Proof. vm_compute. repeat split; reflexivity. Qed.

(** The second half of C1 holds on the code: below the open threshold
    (thresholds in their order), or with a critical budget that affords
    neither mid nor open, every path ends in [self.models['rule']], which
    is always there. *)
Lemma select_model_falls_back_to_rule
  (self : Selector.ModelSelector) (complexity : Q)
  (budget_status : Selector.StatusDict) :
  let premium_threshold :=
    default 0.8 (Config.th_premium (Selector.thresholds self)) in
  let mid_threshold := default 0.5 (Config.th_mid (Selector.thresholds self)) in
  let open_threshold :=
    default 0.2 (Config.th_open (Selector.thresholds self)) in
  let budget_remaining :=
    match Selector.get_remaining budget_status with
    | Some r => Selector.Finite r
    | None => Selector.Infinity
    end in
  (open_threshold <= mid_threshold /\ mid_threshold <= premium_threshold
   /\ complexity <= open_threshold)
  \/ (default false (Selector.get_is_critical budget_status) = true
      /\ Selector._can_afford_model self "mid" budget_remaining = false
      /\ Selector._can_afford_model self "open" budget_remaining = false) ->
  Selector.select_model self complexity budget_status
  = Selector.return_tier self "rule".
Proof.
  cbv zeta. intros [(Hom & Hmp & Hc) | (Hcrit & Hmid & Hopen)];
    unfold Selector.select_model.
  - rewrite (proj2 (Qltb_ge _ complexity)) by lra.
    rewrite (proj2 (Qltb_ge (default 0.5 _) complexity)) by lra.
    rewrite (proj2 (Qltb_ge (default 0.2 _) complexity)) by lra.
    reflexivity.
  - rewrite Hcrit, Hmid, Hopen. cbn [negb]. rewrite andb_false_r.
    repeat match goal with
      | |- context [if ?b then _ else _] => destruct b
      end; reflexivity.
Qed.

(** ** The router's feedback *)


(** ** The breakdown of router-recorded spend *)

Lemma breakdown_snoc (ledger : list Budget.ExpenseRecord) e :
  fold_left Budget.tally (ledger ++ [e]) ∅
  = Budget.tally (fold_left Budget.tally ledger ∅) e.
Proof. apply fold_left_app. Qed.


Lemma router_run_snoc np_exp self calls c :
  Router.run np_exp self (calls ++ [c])
  = Router.step np_exp (Router.run np_exp self calls) c.
Proof. unfold Router.run. rewrite fold_left_app. reflexivity. Qed.



(** ** The scorer: conversions that cannot overflow *)

Lemma float_limit_above_maxsize : (Py.sys_maxsize + 1 < Py.float_limit)%Z.
Proof. vm_compute. reflexivity. Qed.

Lemma float_of_int_sized (z : Z) :
  (Z.abs z < Py.float_limit)%Z -> Py.float_of_int z = Py.Ok (inject_Z z).
Proof.
  intros H. unfold Py.float_of_int. apply Z.ltb_lt in H. rewrite H.
  reflexivity.
Qed.

Lemma int_truediv_sized (z n : Z) :
  (1 <= n)%Z -> (Z.abs z < Py.float_limit)%Z ->
  Py.int_truediv z n = Py.Ok (inject_Z z / inject_Z n).
Proof.
  intros Hn H. unfold Py.int_truediv.
  assert (Hlt : (Z.abs z <? n * Py.float_limit)%Z = true).
  { apply Z.ltb_lt. pose proof float_limit_above_maxsize as HL.
    assert (0 <= Py.sys_maxsize)%Z by (vm_compute; discriminate). nia. }
  rewrite Hlt. reflexivity.
Qed.

(** A float-sized value is normalized and weighed without raising. *)
Lemma normalize_sized (feature_name : string) (value : Py.pyval) :
  Scorer.float_sized value ->
  exists x,
    Py.bind (Scorer._normalize_feature feature_name value) Py.to_float
    = Py.Ok x.
Proof.
  intros Hsized.
  destruct value as [| b | z | q | s]; cbn [Scorer._normalize_feature Py.bind
    Py.to_float]; eauto.
  cbn [Scorer.float_sized] in Hsized. unfold Scorer.normalize_int.
  repeat match goal with
    | |- context [String.eqb ?a ?b] => destruct (String.eqb a b)
    end;
    try (rewrite int_truediv_sized by (assumption || lia);
         cbn [Py.bind Py.to_float]; eauto).
  - rewrite float_of_int_sized by assumption. cbn [Py.bind Py.to_float]. eauto.
  - destruct (Py.Qltb 1 (inject_Z z)); cbn [Py.bind Py.to_float]; eauto.
    rewrite float_of_int_sized by assumption. eauto.
Qed.

Lemma weigh_sized (features : gmap string Py.pyval) (acc : Q * Q)
  (item : string * Q) :
  (forall name v, features !! name = Some v -> Scorer.float_sized v) ->
  exists acc', Scorer.weigh features acc item = Py.Ok acc'.
Proof.
  intros Hsized. destruct item as [feature_name weight]. unfold Scorer.weigh.
  destruct (features !! feature_name) as [value |] eqn:E; [| eauto].
  destruct (normalize_sized feature_name value (Hsized _ _ E)) as [x Hx].
  destruct (Scorer._normalize_feature feature_name value) as [normalized | e];
    cbn [Py.bind] in *; [| discriminate Hx].
  rewrite Hx. cbn [Py.bind]. eauto.
Qed.

Lemma weighted_score_sized (self : Scorer.ComplexityScorer)
  (features : gmap string Py.pyval) :
  (forall name v, features !! name = Some v -> Scorer.float_sized v) ->
  exists score, Scorer._calculate_weighted_score self features = Py.Ok score.
Proof.
  intros Hsized. unfold Scorer._calculate_weighted_score.
  generalize (Scorer.dict_merge Scorer.default_weights (Scorer.weights self)).
  intros weights.
  assert (Hfold : forall acc, exists acc',
             fold_left
               (fun acc item =>
                  Py.bind acc (fun a => Scorer.weigh features a item))
               weights (Py.Ok acc) = Py.Ok acc').
  { induction weights as [| item weights IH]; intros acc; [cbn; eauto |].
    cbn [fold_left Py.bind].
    destruct (weigh_sized features acc item Hsized) as [acc1 ->]. apply IH. }
  destruct (Hfold (0, 0)) as [[score total_weight] ->]. cbn [Py.bind].
  destruct (Py.Qltb 0 total_weight); eauto.
Qed.

(** *** Counts taken from a description are no longer than it *)

Lemma split_from_length (cur s : string) :
  (length (Py.split_from cur s) <= S (String.length s))%nat.
Proof.
  revert cur. induction s as [| c s IH]; intros cur; cbn [Py.split_from].
  - destruct (String.eqb cur ""); cbn; lia.
  - destruct (Py.isspace c); [destruct (String.eqb cur "") |];
      cbn [length String.length].
    + specialize (IH ""). lia.
    + specialize (IH ""). lia.
    + specialize (IH (cur ++ String c "")). lia.
Qed.

Lemma count_runs_length (inrun : bool) (s : string) :
  (Py.count_runs inrun s <= String.length s)%nat.
Proof.
  revert inrun. induction s as [| c s IH]; intros inrun; cbn; [lia |].
  destruct (Py.is_sentence_end c); [destruct inrun |].
  - specialize (IH true). lia.
  - specialize (IH true). lia.
  - specialize (IH false). lia.
Qed.

Lemma lower_length (s : string) :
  String.length (Py.lower s) = String.length s.
Proof. induction s as [| c s IH]; cbn; congruence. Qed.

Lemma count_in_length (words : list string) (s : string) :
  (Py.count_in words s <= length words)%nat.
Proof. unfold Py.count_in. apply length_filter. Qed.

Lemma description_counts_sized (description : string) :
  (Z.of_nat (String.length description) <= Py.sys_maxsize)%Z ->
  Scorer.float_sized (Py.PInt (Z.of_nat (length (Py.split description))))
  /\ Scorer.float_sized (Py.PInt (Scorer._count_apps (Py.lower description)))
  /\ Scorer.float_sized
       (Py.PInt (Scorer._estimate_step_count (Py.lower description))).
Proof.
  intros Hlen. pose proof float_limit_above_maxsize as HL.
  assert (H0 : (10 <= Py.sys_maxsize)%Z) by (vm_compute; discriminate).
  cbn [Scorer.float_sized].
  split; [| split].
  - pose proof (split_from_length "" description) as Hs.
    unfold Py.split. lia.
  - unfold Scorer._count_apps.
    match goal with
    | |- context [Py.count_in ?ws ?s] => pose proof (count_in_length ws s) as Hc
    end.
    cbn [length] in Hc. lia.
  - unfold Scorer._estimate_step_count, Py.re_split_count.
    pose proof (count_runs_length false (Py.lower description)) as Hr.
    rewrite lower_length in Hr.
    match goal with
    | |- context [Py.count_in ?ws ?s] => pose proof (count_in_length ws s) as Hc
    end.
    cbn [length] in Hc. lia.
Qed.

(** Every feature extracted from a description of Python's length and a
    usable context is float-sized. *)
Lemma extracted_features_sized
  (description : string) (context : Py.pyobj)
  (features : gmap string Py.pyval) :
  (Z.of_nat (String.length description) <= Py.sys_maxsize)%Z ->
  Scorer.usable_context context ->
  Scorer._extract_features description context = Py.Ok features ->
  forall name v, features !! name = Some v -> Scorer.float_sized v.
Proof.
  intros Hlen Hctx Hf.
  destruct (description_counts_sized description Hlen) as (Hw & Ha & Hs).
  unfold Scorer._extract_features in Hf. cbv zeta in Hf.
  match type of Hf with
  | context [list_to_map ?l] => set (base := list_to_map l) in Hf
  end.
  assert (Hbase : forall name v, base !! name = Some v -> Scorer.float_sized v).
  { intros name v Hl. subst base. apply elem_of_list_to_map_2 in Hl.
    repeat (apply elem_of_cons in Hl as [Hl | Hl];
            [injection Hl as -> ->; first [assumption | exact I] |]).
    apply elem_of_nil in Hl. contradiction. }
  destruct (Py.truthy context) eqn:Ht.
  - destruct Hctx as [-> | (d & -> & Hd)]; [discriminate Ht |].
    injection Hf as <-. intros name v Hl.
    assert (Hget : forall key, In key Scorer.context_keys ->
                     Scorer.float_sized (Scorer.context_get d key)).
    { intros key Hkey. unfold Scorer.context_get.
      destruct (d !! key) as [w |] eqn:E; [exact (Hd key w Hkey E) | exact I]. }
    apply lookup_insert_Some in Hl as [[<- <-] | [_ Hl]];
      [apply Hget; cbn; tauto |].
    apply lookup_insert_Some in Hl as [[<- <-] | [_ Hl]];
      [apply Hget; cbn; tauto |].
    apply lookup_insert_Some in Hl as [[<- <-] | [_ Hl]];
      [apply Hget; cbn; tauto |].
    exact (Hbase name v Hl).
  - injection Hf as <-. exact Hbase.
Qed.

(** ** The scorer: range and context *)

(** What [_extract_features] returns, and what it holds under the
    context's keys. *)
Lemma extract_features_context
  (description : string) (context : Py.pyobj) :
  context = Py.Scalar Py.PNone \/ (exists d, context = Py.Dict d) ->
  exists features,
    Scorer._extract_features description context = Py.Ok features
    /\ forall key, In key Scorer.context_keys ->
         features !! key
         = (if Py.truthy context
            then match context with
                 | Py.Dict d => Some (default (Py.PFloat 0.5) (d !! key))
                 | Py.Scalar _ => None
                 end
            else None).
Proof.
  intros Hctx. unfold Scorer._extract_features.
  destruct (Py.truthy context) eqn:Ht.
  - destruct Hctx as [-> | [d ->]]; [discriminate Ht |].
    eexists. split; [reflexivity |]. intros key Hkey.
    cbn in Hkey. destruct Hkey as [<- | [<- | [<- | []]]].
    + rewrite lookup_insert_ne by discriminate.
      rewrite lookup_insert_ne by discriminate.
      apply lookup_insert_eq.
    + rewrite lookup_insert_ne by discriminate. apply lookup_insert_eq.
    + apply lookup_insert_eq.
  - eexists. split; [reflexivity |]. intros key Hkey.
    cbn in Hkey. destruct Hkey as [<- | [<- | [<- | []]]]; reflexivity.
Qed.

(** The neutral default, and any value that is not a number, count 0.5 in
    the weighted score. *)
Lemma neutral_values_normalize_to_half (key : string) :
  In key Scorer.context_keys ->
  (exists q, Scorer._normalize_feature key (Py.PFloat 0.5)
             = Py.Ok (Py.Float q) /\ q == 0.5)
  /\ Scorer._normalize_feature key Py.PNone = Py.Ok (Py.Float 0.5)
  /\ forall s, Scorer._normalize_feature key (Py.PStr s)
               = Py.Ok (Py.Float 0.5).
Proof.
  intros Hkey. split; [| split; [reflexivity | intros s; reflexivity]].
  cbn in Hkey.
  destruct Hkey as [<- | [<- | [<- | []]]]; eexists; split; reflexivity.
Qed.

(** C5, amended: for every description (of a length Python allows) and
    every context that is [None] or a mapping whose numbers fit a float,
    [calculate_complexity] returns without raising a score in the closed
    interval from 0 to 1 and appends one record to the history.  When the
    mapping is not empty, a context feature that is missing from it takes
    the default 0.5, and the default as well as any value that is not a
    number counts 0.5 in the score; when the context is [None] or an empty
    mapping, no context feature is added at all. *)
Theorem calculate_complexity_on_mappings
  (np_exp : Q -> Q) (self : Scorer.ComplexityScorer)
  (task_description : string) (context : Py.pyobj) :
  (Z.of_nat (String.length task_description) <= Py.sys_maxsize)%Z ->
  Scorer.usable_context context ->
  exists (score : Q) (features : gmap string Py.pyval),
    Scorer.calculate_complexity np_exp self task_description context
    = Py.Ok (score,
             Scorer.mk_scorer (Scorer.weights self)
               (Scorer.history self
                ++ [Scorer.mk_scoring task_description features score
                      context]))
    /\ (0 <= score /\ score <= 1)
    /\ forall key : string,
         In key Scorer.context_keys ->
         features !! key
         = (if Py.truthy context
            then match context with
                 | Py.Dict d => Some (default (Py.PFloat 0.5) (d !! key))
                 | Py.Scalar _ => None
                 end
            else None)
         /\ (exists q, Scorer._normalize_feature key (Py.PFloat 0.5)
                       = Py.Ok (Py.Float q) /\ q == 0.5)
         /\ Scorer._normalize_feature key Py.PNone = Py.Ok (Py.Float 0.5)
         /\ forall s, Scorer._normalize_feature key (Py.PStr s)
                      = Py.Ok (Py.Float 0.5).
Proof.
  intros Hlen Hctx.
  destruct (extract_features_context task_description context)
    as (features & Hf & Hkeys).
  { destruct Hctx as [-> | (d & -> & _)]; [left | right]; eauto. }
  destruct (weighted_score_sized self features) as [raw Hraw].
  { exact (extracted_features_sized task_description context features
             Hlen Hctx Hf). }
  unfold Scorer.calculate_complexity.
  rewrite Hf. cbn [Py.bind]. rewrite Hraw. cbn [Py.bind].
  eexists. exists features. split; [reflexivity |].
  split; [apply clip_unit |].
  intros key Hkey. split; [apply Hkeys, Hkey |].
  apply neutral_values_normalize_to_half, Hkey.
Qed.

(** C5 at work: no context, and a mapping that gives one feature a string
    and leaves the others out. *)
Lemma calculate_complexity_on_mappings_witness :
  let self := Scorer.__init__ Sample.no_config in
  let context : Py.pyobj :=
    Py.Dict {[ "user_skill_level" := Py.PStr "expert" ]} in
  (exists score features,
     Scorer.calculate_complexity (fun _ => 1) self "open chrome"
       (Py.Scalar Py.PNone)
     = Py.Ok (score,
              Scorer.mk_scorer []
                [Scorer.mk_scoring "open chrome" features score
                   (Py.Scalar Py.PNone)])
     /\ (0 <= score /\ score <= 1)
     /\ features !! "historical_success_rate" = None)
  /\ (exists score features,
        Scorer.calculate_complexity (fun _ => 1) self "open chrome" context
        = Py.Ok (score,
                 Scorer.mk_scorer []
                   [Scorer.mk_scoring "open chrome" features score context])
        /\ (0 <= score /\ score <= 1)
        /\ features !! "historical_success_rate" = Some (Py.PFloat 0.5)
        /\ features !! "user_skill_level" = Some (Py.PStr "expert")).
Proof.
  cbv zeta.
  assert (Hlen : (Z.of_nat (String.length "open chrome") <= Py.sys_maxsize)%Z)
    by (vm_compute; discriminate).
  split.
  - destruct (calculate_complexity_on_mappings (fun _ => 1)
                (Scorer.__init__ Sample.no_config) "open chrome"
                (Py.Scalar Py.PNone) Hlen)
      as (score & features & Hrun & Hscore & Hkeys).
    { left. reflexivity. }
    exists score, features. split; [exact Hrun | split; [exact Hscore |]].
    apply (Hkeys "historical_success_rate"). cbn. tauto.
  - destruct (calculate_complexity_on_mappings (fun _ => 1)
                (Scorer.__init__ Sample.no_config) "open chrome"
                (Py.Dict {[ "user_skill_level" := Py.PStr "expert" ]}) Hlen)
      as (score & features & Hrun & Hscore & Hkeys).
    { right. eexists. split; [reflexivity |].
      intros key v _ Hl. apply lookup_singleton_Some in Hl as [_ <-].
      exact I. }
    exists score, features. split; [exact Hrun | split; [exact Hscore |]].
    split.
    + apply (Hkeys "historical_success_rate"). cbn. tauto.
    + apply (Hkeys "user_skill_level"). cbn. tauto.
Defined.

(** C5 as stated fails twice.  An absent context does not set the context
    features to 0.5: it adds none, so the weighted score of the empty
    description without context is below the one with every context
    feature at 0.5.  And a context that is no mapping, here a string,
    raises [AttributeError] at [context.get]. *)
Lemma absent_context_is_not_neutral :
  let self := Scorer.__init__ Sample.no_config in
  let neutral : gmap string Py.pyval :=
    <["historical_success_rate" := Py.PFloat 0.5]>
      (<["similar_tasks_complexity" := Py.PFloat 0.5]>
         {[ "user_skill_level" := Py.PFloat 0.5 ]}) in
  (exists absent with_neutral score_absent score_neutral,
     Scorer._extract_features "" (Py.Scalar Py.PNone) = Py.Ok absent
     /\ Scorer._extract_features "" (Py.Dict neutral) = Py.Ok with_neutral
     /\ absent !! "historical_success_rate" = None
     /\ with_neutral !! "historical_success_rate" = Some (Py.PFloat 0.5)
     /\ Scorer._calculate_weighted_score self absent = Py.Ok score_absent
     /\ Scorer._calculate_weighted_score self with_neutral
        = Py.Ok score_neutral
     /\ score_absent < score_neutral)
  /\ Scorer.calculate_complexity (fun _ => 1) self ""
       (Py.Scalar (Py.PStr "fast"))
     = Py.Raise (Py.AttributeError "get").
Proof.
  cbv zeta. split.
  - do 4 eexists. split; [reflexivity |]. split; [reflexivity |].
    split; [reflexivity |]. split; [reflexivity |].
    split; [vm_compute; reflexivity |]. split; [vm_compute; reflexivity |].
    reflexivity.
  - reflexivity.
Qed.

(** An [int] beyond the range of a float in the context makes
    [1.0 - value] raise: the reason why C5 asks for float-sized numbers. *)
Example oversized_context_value_raises :
  Scorer.calculate_complexity (fun _ => 1)
    (Scorer.__init__ Sample.no_config) "open chrome"
    (Py.Dict {[ "historical_success_rate" := Py.PInt (10 ^ 400) ]})
  = Py.Raise Py.OverflowError.
Proof. vm_compute. reflexivity. Qed.

(** ** Worked examples *)

(** A history of 1001 records is cut to its last 1000 by the feedback
    hook, and left alone by scoring. *)
Example history_of_1001_is_trimmed :
  let entry n :=
    Scorer.mk_scoring "" ∅ (inject_Z (Z.of_nat n)) (Py.Scalar Py.PNone) in
  let self := Scorer.mk_scorer [] (map entry (seq 0 1001)) in
  let self' := Scorer.update_model_performance self "" "mid" true in
  length (Scorer.history self') = 1000%nat
  /\ (Scorer.score <$> head (Scorer.history self')) = Some (inject_Z 1).
Proof. vm_compute. split; reflexivity. Qed.

(** A router whose premium tier costs 0.015: a failed premium task and a
    rule-based one leave a single expense, booked under ["unknown"]. *)
Example failed_premium_task_is_charged :
  let config :=
    Config.mk_config
      {[ "premium" := Config.mk_model None (Some 0.015) (Some true) None ]}
      (Config.mk_thresholds None None None)
      (Config.mk_budget None None None None None) [] [] in
  let router :=
    Router.run (fun _ => 1)
      (Router.__init__ config Sample.sunday Sample.sunday Sample.sunday)
      [ Router.UpdateRoutingPerformance "analyze the sheet" "premium" false
          Sample.sunday Sample.sunday Sample.sunday;
        Router.UpdateRoutingPerformance "close the window" "rule" true
          Sample.sunday_noon Sample.sunday_noon Sample.sunday_noon ] in
  let tracker := Router.budget_tracker router in
  map Budget.cost (Budget.expenses tracker) = [0.015]
  /\ Budget.get_model_expense_breakdown tracker !! "unknown"
     = Some (0 + 0.015)
  /\ Budget.get_model_expense_breakdown tracker !! "premium" = None.
Proof. vm_compute. repeat split; reflexivity. Qed.

(** The week-boundary scenario of section 8: an expense on Sunday, the
    status on the Tuesday after shows the week's spend back at 0 and the
    month's spend unchanged. *)
Example week_rolls_over_month_stays :
  let self :=
    Budget.record_expense
      (Budget.__init__ Sample.no_config
         Sample.sunday Sample.sunday Sample.sunday)
      3 "mid" "draft the letter" Sample.sunday Sample.sunday Sample.sunday in
  let status :=
    fst (Budget.check_budget_status self Sample.tuesday Sample.tuesday) in
  Budget.weekly_used status = 0
  /\ Budget.monthly_used status = 0 + 3
  /\ Py.weekday Sample.sunday = 6%Z
  /\ Py.weekday Sample.tuesday = 1%Z.
Proof. vm_compute. repeat split; reflexivity. Qed.

(** * Further properties of the tracker *)

Lemma update_periods_week self now week_now :
  Budget.current_week (Budget._update_periods self now week_now)
  = Budget._get_week_start week_now.
Proof.
  unfold Budget._update_periods, Budget.set_day, Budget.set_week,
    Budget.set_month.
  destruct (decide (Budget._get_week_start week_now
                    <> Budget.current_week
                         (if decide (Py.to_date now <> Budget.current_day self)
                          then Budget.mk_tracker (Budget.daily_budget self)
                                 (Budget.weekly_budget self)
                                 (Budget.monthly_budget self)
                                 (Budget.warning_threshold self)
                                 (Budget.critical_threshold self)
                                 (Budget.expenses self) 0
                                 (Budget.weekly_expenses self)
                                 (Budget.monthly_expenses self)
                                 (Py.to_date now) (Budget.current_week self)
                                 (Budget.current_month self)
                          else self))) as [H | H];
    repeat (case_decide; cbn); try reflexivity;
    symmetry; apply dec_stable; exact H.
Qed.

Lemma update_periods_month self now week_now :
  Budget.current_month (Budget._update_periods self now week_now)
  = Py.month_start now.
Proof.
  unfold Budget._update_periods.
  match goal with
  | |- context [if decide (Py.month_start now <> Budget.current_month ?s)
                then _ else _] =>
      destruct (decide (Py.month_start now <> Budget.current_month s))
        as [H | H]
  end.
  - reflexivity.
  - symmetry. apply dec_stable. exact H.
Qed.

(** A second [_update_periods] with the same readings changes nothing. *)
Lemma update_periods_twice self now week_now :
  Budget._update_periods (Budget._update_periods self now week_now)
    now week_now
  = Budget._update_periods self now week_now.
Proof.
  apply update_periods_same. repeat split.
  - symmetry. apply update_periods_day.
  - symmetry. apply update_periods_week.
  - symmetry. apply update_periods_month.
Qed.

(** X1: [check_budget_status] is idempotent: a second call with the clock
    at the same readings returns the same dictionary and leaves the
    tracker as the first call left it. *)
Theorem check_budget_status_idempotent
  (self : Budget.BudgetTracker) (now week_now : Py.datetime) :
  Budget.check_budget_status
    (snd (Budget.check_budget_status self now week_now)) now week_now
  = Budget.check_budget_status self now week_now.
Proof.
  rewrite check_budget_status_state.
  unfold Budget.check_budget_status.
  rewrite update_periods_twice. reflexivity.
Qed.

(** X2: recording a cost raises each of the three [*_used] figures by
    exactly that cost, compared with a status taken at the same clock
    readings just before. *)
Theorem record_then_status_round_trip
  (self : Budget.BudgetTracker) (cost : Q) (model_type task_description : string)
  (now week_now stamp : Py.datetime) :
  let before := fst (Budget.check_budget_status self now week_now) in
  let after :=
    fst (Budget.check_budget_status
           (Budget.record_expense self cost model_type task_description
              now week_now stamp) now week_now) in
  Budget.daily_used after = Budget.daily_used before + cost
  /\ Budget.weekly_used after = Budget.weekly_used before + cost
  /\ Budget.monthly_used after = Budget.monthly_used before + cost.
Proof.
  cbv zeta.
  set (rolled := Budget._update_periods self now week_now).
  assert (Hsame : Budget.same_period
                    (Budget.record_expense self cost model_type
                       task_description now week_now stamp) now week_now).
  { unfold Budget.record_expense, Budget.same_period. cbn.
    rewrite update_periods_day, update_periods_week, update_periods_month.
    repeat split; reflexivity. }
  unfold Budget.check_budget_status at 1 3 5.
  rewrite (update_periods_same _ now week_now Hsame).
  cbn [fst Budget.daily_used Budget.weekly_used Budget.monthly_used].
  unfold Budget.check_budget_status.
  cbn [fst Budget.daily_used Budget.weekly_used Budget.monthly_used].
  unfold Budget.record_expense.
  cbn [Budget.daily_expenses Budget.weekly_expenses Budget.monthly_expenses].
  repeat split; reflexivity.
Qed.

(** The overall remainder is the least of the three period remainders. *)
Lemma remaining_is_minimum
  (self : Budget.BudgetTracker) (now week_now : Py.datetime) :
  let status := fst (Budget.check_budget_status self now week_now) in
  0 <= Budget.remaining status
  /\ Budget.remaining status <= Budget.daily_remaining status
  /\ Budget.remaining status <= Budget.weekly_remaining status
  /\ Budget.remaining status <= Budget.monthly_remaining status
  /\ (Budget.remaining status = Budget.daily_remaining status
      \/ Budget.remaining status = Budget.weekly_remaining status
      \/ Budget.remaining status = Budget.monthly_remaining status).
Proof.
  cbv zeta. unfold Budget.check_budget_status.
  cbn [fst Budget.remaining Budget.daily_remaining Budget.weekly_remaining
         Budget.monthly_remaining].
  set (s := Budget._update_periods self now week_now).
  generalize (Budget.daily_budget s - Budget.daily_expenses s).
  generalize (Budget.weekly_budget s - Budget.weekly_expenses s).
  generalize (Budget.monthly_budget s - Budget.monthly_expenses s).
  intros m w d. unfold Py.min3, Py.min2, Py.max2.
  q_cases; repeat split; try lra; tauto.
Qed.

(** X3: in every status the overall [remaining] is not negative, is at
    most each of the three period remainders, and is one of them. *)
Theorem status_remaining_is_least
  (self : Budget.BudgetTracker) (now week_now : Py.datetime) :
  let status := fst (Budget.check_budget_status self now week_now) in
  0 <= Budget.remaining status
  /\ Budget.remaining status <= Budget.daily_remaining status
  /\ Budget.remaining status <= Budget.weekly_remaining status
  /\ Budget.remaining status <= Budget.monthly_remaining status
  /\ (Budget.remaining status = Budget.daily_remaining status
      \/ Budget.remaining status = Budget.weekly_remaining status
      \/ Budget.remaining status = Budget.monthly_remaining status).
Proof. exact (remaining_is_minimum self now week_now). Qed.

(** X4: when the critical threshold is not above the warning threshold,
    a critical status is also a warning status. *)
Theorem critical_implies_warning
  (self : Budget.BudgetTracker) (now week_now : Py.datetime) :
  Budget.critical_threshold self <= Budget.warning_threshold self ->
  let status := fst (Budget.check_budget_status self now week_now) in
  Budget.is_critical status = true -> Budget.is_warning status = true.
Proof.
  intros Horder status Hcrit.
  destruct (status_flags self now week_now) as [Fw Fc].
  fold status in Fw, Fc. rewrite Fc in Hcrit. rewrite Fw.
  apply Qle_bool_iff in Hcrit. apply Qle_bool_iff. lra.
Qed.

Lemma critical_implies_warning_witness :
  let self :=
    Budget.record_expense
      (Budget.__init__ Sample.scenario_budget
         Sample.sunday Sample.sunday Sample.sunday)
      9.7 "mid" "draft the letter" Sample.sunday Sample.sunday Sample.sunday in
  Budget.is_warning
    (fst (Budget.check_budget_status self Sample.sunday_noon Sample.sunday_noon))
  = true.
Proof.
  cbv zeta.
  apply critical_implies_warning.
  - vm_compute. discriminate.
  - vm_compute. reflexivity.
Defined.

(** X5: [can_afford] answers whether the estimate is at most what
    [get_remaining_budget] reports; so a cost of 0 is always affordable,
    whatever can be afforded can be afforded for less, and the call changes
    the tracker no more than a status check does. *)
Theorem can_afford_follows_remaining
  (self : Budget.BudgetTracker) (estimated_cost : Q)
  (now week_now : Py.datetime) :
  (fst (Budget.can_afford self estimated_cost now week_now) = true
   <-> estimated_cost
       <= fst (Budget.get_remaining_budget self now week_now))
  /\ fst (Budget.can_afford self 0 now week_now) = true
  /\ (forall cheaper : Q,
        cheaper <= estimated_cost ->
        fst (Budget.can_afford self estimated_cost now week_now) = true ->
        fst (Budget.can_afford self cheaper now week_now) = true)
  /\ snd (Budget.can_afford self estimated_cost now week_now)
     = snd (Budget.check_budget_status self now week_now).
Proof.
  pose proof (remaining_is_minimum self now week_now) as (Hpos & _).
  cbv zeta in Hpos.
  unfold Budget.can_afford, Budget.get_remaining_budget.
  destruct (Budget.check_budget_status self now week_now)
    as [status tracker] eqn:E.
  cbn [fst snd] in *.
  split; [apply Qle_bool_iff |].
  split; [apply Qle_bool_iff; exact Hpos |].
  split; [| reflexivity].
  intros cheaper Hle Hok. apply Qle_bool_iff in Hok. apply Qle_bool_iff. lra.
Qed.

(** X6: once the day's spend has reached the daily limit, no positive
    cost is affordable. *)
Theorem exhausted_day_affords_nothing
  (self : Budget.BudgetTracker) (estimated_cost : Q)
  (now week_now : Py.datetime) :
  Py.to_date now = Budget.current_day self ->
  Budget.daily_budget self <= Budget.daily_expenses self ->
  0 < estimated_cost ->
  fst (Budget.can_afford self estimated_cost now week_now) = false.
Proof.
  intros Hday Hspent Hcost.
  pose proof (remaining_is_minimum self now week_now)
    as (_ & Hd & _).
  cbv zeta in Hd. rewrite status_daily_remaining in Hd.
  rewrite decide_False in Hd by (intros H; apply H, Hday).
  unfold Budget.can_afford.
  destruct (Budget.check_budget_status self now week_now)
    as [status tracker] eqn:E.
  cbn [fst] in *. apply Qle_bool_false.
  assert (Py.max2 0 (Budget.daily_budget self - Budget.daily_expenses self)
          == 0) by q_solve.
  lra.
Qed.

Lemma exhausted_day_affords_nothing_witness :
  let self :=
    Budget.record_expense
      (Budget.__init__ Sample.scenario_budget
         Sample.sunday Sample.sunday Sample.sunday)
      10.5 "premium" "analyze the sheet"
      Sample.sunday Sample.sunday Sample.sunday in
  fst (Budget.can_afford self 0.001 Sample.sunday_noon Sample.sunday_noon)
  = false.
Proof.
  cbv zeta. apply exhausted_day_affords_nothing.
  - vm_compute. reflexivity.
  - vm_compute. discriminate.
  - reflexivity.
Defined.

(** The breakdown's entry for a tier after the loop has run over a
    ledger. *)
Lemma breakdown_lookup (ledger : list Budget.ExpenseRecord) (tier : string) :
  fold_left Budget.tally ledger (∅ : gmap string Q) !! tier
  = match filter (fun e => Budget.model_type e = tier) ledger with
    | [] => None
    | recorded => Some (Py.sum (map Budget.cost recorded))
    end.
Proof.
  induction ledger as [| e ledger IH] using rev_ind.
  - reflexivity.
  - rewrite breakdown_snoc, filter_app.
    unfold Budget.tally at 1.
    set (m := fold_left Budget.tally ledger ∅) in *.
    destruct (decide (Budget.model_type e = tier)) as [He | He].
    + rewrite filter_cons_True by exact He. rewrite filter_nil.
      rewrite He. rewrite lookup_insert_eq.
      destruct (filter (fun e0 => Budget.model_type e0 = tier) ledger)
        as [| r rs] eqn:Ef; rewrite IH.
      * rewrite lookup_insert_eq. reflexivity.
      * rewrite IH. cbn [default app].
        change (r :: (rs ++ [e])%list) with ((r :: rs) ++ [e])%list.
        rewrite map_app. cbn [map]. rewrite sum_snoc. reflexivity.
    + rewrite filter_cons_False by exact He. rewrite filter_nil, app_nil_r.
      rewrite lookup_insert_ne by exact He.
      destruct (m !! Budget.model_type e);
        [| rewrite lookup_insert_ne by exact He]; exact IH.
Qed.

(** X7: [get_model_expense_breakdown] has an entry for exactly the tiers
    that occur in the ledger, and the entry is the sum, in ledger order,
    of the costs recorded for that tier. *)
Theorem breakdown_is_per_tier_sum
  (self : Budget.BudgetTracker) (tier : string) :
  Budget.get_model_expense_breakdown self !! tier
  = match filter (fun e => Budget.model_type e = tier) (Budget.expenses self)
    with
    | [] => None
    | recorded => Some (Py.sum (map Budget.cost recorded))
    end.
Proof. apply breakdown_lookup. Qed.

(** X8: [reset_budgets] empties the ledger and the three counters and
    keeps the limits: the total and the breakdown are empty, and a status
    taken at the same clock readings reports nothing used. *)
Theorem reset_budgets_clears_spend
  (self : Budget.BudgetTracker) (day_now week_now month_now : Py.datetime) :
  let self' := Budget.reset_budgets self day_now week_now month_now in
  let status := fst (Budget.check_budget_status self' day_now week_now) in
  Budget.get_total_expenses self' = 0
  /\ Budget.get_model_expense_breakdown self' = ∅
  /\ Budget.daily_used status = 0
  /\ Budget.weekly_used status = 0
  /\ Budget.monthly_used status = 0
  /\ (Budget.daily_budget self' = Budget.daily_budget self
      /\ Budget.weekly_budget self' = Budget.weekly_budget self
      /\ Budget.monthly_budget self' = Budget.monthly_budget self
      /\ Budget.warning_threshold self' = Budget.warning_threshold self
      /\ Budget.critical_threshold self' = Budget.critical_threshold self).
Proof.
  cbv zeta. split; [reflexivity |]. split; [reflexivity |].
  unfold Budget.check_budget_status.
  cbn [fst Budget.daily_used Budget.weekly_used Budget.monthly_used].
  rewrite update_periods_daily, update_periods_weekly, update_periods_monthly.
  split; [case_decide; reflexivity |].
  split; [case_decide; reflexivity |].
  split; [case_decide; reflexivity |].
  repeat split; reflexivity.
Qed.

#[local] Open Scope Z_scope.

(** ** The calendar *)

Lemma days_in_month_bounds (y m : Z) : 28 <= Py.days_in_month y m <= 31.
Proof.
  unfold Py.days_in_month.
  destruct (m =? 2); [destruct (Py.is_leap y); lia |].
  destruct ((m =? 4) || (m =? 6) || (m =? 9) || (m =? 11))%bool; lia.
Qed.

Lemma days_before_month_succ (y m : Z) :
  1 <= m ->
  Py.days_before_month y (m + 1)
  = Py.days_before_month y m + Py.days_in_month y m.
Proof.
  intros Hm. unfold Py.days_before_month.
  replace (Z.to_nat (m + 1 - 1)) with (S (Z.to_nat (m - 1))) by lia.
  rewrite seq_S, map_app, fold_left_app. cbn [map fold_left].
  replace (Z.of_nat (1 + Z.to_nat (m - 1))) with m by lia.
  reflexivity.
Qed.

Lemma days_before_month_end (y : Z) :
  Py.days_before_month y 13 = if Py.is_leap y then 366 else 365.
Proof.
  unfold Py.days_before_month. cbn. unfold Py.days_in_month. cbn.
  destruct (Py.is_leap y); reflexivity.
Qed.

Lemma month_day_from (fuel : nat) (y m n : Z) :
  1 <= m -> m + Z.of_nat fuel = 12 -> 0 <= n ->
  Py.days_before_month y m + n < Py.days_before_month y 13 ->
  let md := Py.month_day fuel y m n in
  m <= fst md <= 12
  /\ 1 <= snd md <= Py.days_in_month y (fst md)
  /\ Py.days_before_month y (fst md) + snd md
     = Py.days_before_month y m + n + 1.
Proof.
  revert m n. induction fuel as [| fuel IH]; intros m n Hm Hfuel Hn Hend;
    cbv zeta; cbn [Py.month_day].
  - assert (m = 12) by lia. subst m. cbn [fst snd].
    pose proof (days_before_month_succ y 12 ltac:(lia)) as Hs.
    change (12 + 1) with 13 in Hs. lia.
  - destruct (Z.ltb_spec n (Py.days_in_month y m)) as [Hlt | Hge].
    + cbn [fst snd]. lia.
    + pose proof (days_before_month_succ y m Hm) as Hs.
      destruct (IH (m + 1) (n - Py.days_in_month y m)) as (H1 & H2 & H3);
        lia.
Qed.

(** [ord2ymd] inverts [ymd2ord] and yields dates of the calendar. *)
Lemma ord2ymd_ordinal (n : Z) :
  1 <= n ->
  let d := Py.ord2ymd n in
  Py.ymd2ord (Py.d_year d) (Py.d_month d) (Py.d_day d) = n
  /\ 1 <= Py.d_year d
  /\ 1 <= Py.d_month d <= 12
  /\ 1 <= Py.d_day d <= Py.days_in_month (Py.d_year d) (Py.d_month d).
Proof.
  intros Hn. cbv zeta. unfold Py.ord2ymd.
  set (n0 := n - 1).
  set (n400 := n0 / 146097). set (r400 := n0 mod 146097).
  set (n100 := r400 / 36524). set (r100 := r400 mod 36524).
  set (n4 := r100 / 1461). set (r4 := r100 mod 1461).
  set (n1 := r4 / 365). set (r1 := r4 mod 365).
  set (y := n400 * 400 + 1 + n100 * 100 + n4 * 4 + n1).
  assert (F : 0 <= n400 /\ 0 <= n100 <= 4 /\ 0 <= n4 <= 24 /\ 0 <= n1 <= 4
              /\ 0 <= r1 < 365
              /\ n0 = 146097 * n400 + 36524 * n100 + 1461 * n4 + 365 * n1 + r1
              /\ (n100 = 4 -> n4 = 0 /\ n1 = 0 /\ r1 = 0)
              /\ (n1 = 4 -> r1 = 0 /\ n4 <= 23)
              /\ (n4 = 24 -> n1 <= 3 \/ n100 = 4)).
  { subst n400 r400 n100 r100 n4 r4 n1 r1 n0.
    Z.to_euclidean_division_equations. lia. }
  destruct F as (F400 & F100 & F4 & F1 & Fr & Fn & Fb & Fe & Fc).
  assert (Hn0 : n = n0 + 1) by (subst n0; lia).
  clearbody n400 n100 n4 n1 r1 n0. clear r400 r100 r4.
  destruct ((n1 =? 4) || (n100 =? 4))%bool eqn:Elast.
  - cbn [Py.d_year Py.d_month Py.d_day].
    assert (Hleap : Py.is_leap (y - 1) = true).
    { unfold Py.is_leap. apply orb_true_iff in Elast.
      apply andb_true_iff. split.
      - apply Z.eqb_eq. subst y.
        destruct Elast as [E | E]; apply Z.eqb_eq in E;
          Z.to_euclidean_division_equations; lia.
      - apply orb_true_iff.
        destruct Elast as [E | E]; apply Z.eqb_eq in E.
        + left. apply negb_true_iff, Z.eqb_neq. subst y.
          Z.to_euclidean_division_equations; lia.
        + right. apply Z.eqb_eq. subst y.
          Z.to_euclidean_division_equations; lia. }
    assert (Hdim : Py.days_in_month (y - 1) 12 = 31) by reflexivity.
    assert (Hdbm : Py.days_before_month (y - 1) 12 = 335).
    { pose proof (days_before_month_succ (y - 1) 12 ltac:(lia)) as Hs.
      change (12 + 1) with 13 in Hs.
      rewrite days_before_month_end, Hleap, Hdim in Hs. lia. }
    rewrite Hdim. unfold Py.ymd2ord. rewrite Hdbm.
    unfold Py.days_before_year. subst y.
    apply orb_true_iff in Elast.
    destruct Elast as [E | E]; apply Z.eqb_eq in E;
      repeat split; try lia; Z.to_euclidean_division_equations; lia.
  - apply orb_false_iff in Elast as [E1 E100].
    apply Z.eqb_neq in E1. apply Z.eqb_neq in E100.
    pose proof (month_day_from 11 y 1 r1 ltac:(lia) ltac:(lia) ltac:(lia))
      as Hmd.
    assert (Hfirst : Py.days_before_month y 1 = 0) by reflexivity.
    rewrite Hfirst, days_before_month_end in Hmd.
    specialize (Hmd ltac:(destruct (Py.is_leap y); lia)).
    cbv zeta in Hmd.
    destruct (Py.month_day 11 y 1 r1) as [m d].
    cbn [fst snd Py.d_year Py.d_month Py.d_day] in *.
    destruct Hmd as (Hm & Hd & Hsum).
    unfold Py.ymd2ord, Py.days_before_year. subst y.
    repeat split; try lia.
    Z.to_euclidean_division_equations. lia.
Qed.

Lemma week_start_ordinal (now : Py.datetime) :
  1 <= Py.toordinal now ->
  1 <= Py.toordinal now - Py.weekday now
  /\ Py.toordinal (Budget._get_week_start now)
     = Py.toordinal now - Py.weekday now.
Proof.
  intros Hord.
  assert (Hwd : 0 <= Py.weekday now <= Py.toordinal now - 1).
  { unfold Py.weekday. Z.to_euclidean_division_equations. lia. }
  split; [lia |].
  unfold Budget._get_week_start, Py.midnight_days_before.
  unfold Py.toordinal at 1. cbn [Py.year Py.month Py.day].
  apply ord2ymd_ordinal. lia.
Qed.

(** X9: for every reading of the clock, [_get_week_start] is a Monday, at
    00:00:00.000000, on the day of the reading or up to six days before
    it. *)
Theorem week_start_is_monday_midnight (now : Py.datetime) :
  1 <= Py.toordinal now ->
  let week_start := Budget._get_week_start now in
  Py.weekday week_start = 0
  /\ (Py.hour week_start = 0 /\ Py.minute week_start = 0
      /\ Py.second week_start = 0 /\ Py.microsecond week_start = 0)
  /\ Py.toordinal now - 6 <= Py.toordinal week_start <= Py.toordinal now.
Proof.
  intros Hord. cbv zeta.
  destruct (week_start_ordinal now Hord) as [Hpos Hws].
  split; [| split].
  - unfold Py.weekday at 1. rewrite Hws. unfold Py.weekday.
    Z.to_euclidean_division_equations. lia.
  - repeat split; reflexivity.
  - rewrite Hws. unfold Py.weekday. Z.to_euclidean_division_equations. lia.
Qed.

Lemma week_start_is_monday_midnight_witness :
  let week_start := Budget._get_week_start Sample.tuesday in
  Py.weekday week_start = 0
  /\ (Py.hour week_start = 0 /\ Py.minute week_start = 0
      /\ Py.second week_start = 0 /\ Py.microsecond week_start = 0)
  /\ Py.toordinal Sample.tuesday - 6 <= Py.toordinal week_start
     <= Py.toordinal Sample.tuesday.
Proof.
  apply week_start_is_monday_midnight. vm_compute. discriminate.
Defined.

(** X10: two readings have the same week start exactly when they fall in
    the same Monday-to-Sunday week; so the weekly counter is reset by a
    reading in another week, and by no other. *)
Theorem week_start_same_iff_same_week (a b : Py.datetime) :
  1 <= Py.toordinal a -> 1 <= Py.toordinal b ->
  Budget._get_week_start a = Budget._get_week_start b
  <-> (Py.toordinal a - 1) / 7 = (Py.toordinal b - 1) / 7.
Proof.
  intros Ha Hb.
  destruct (week_start_ordinal a Ha) as [Pa Oa].
  destruct (week_start_ordinal b Hb) as [Pb Ob].
  assert (Hk : forall x, Py.toordinal x - Py.weekday x
                         = 7 * ((Py.toordinal x - 1) / 7) + 1).
  { intros x. unfold Py.weekday. Z.to_euclidean_division_equations. lia. }
  split.
  - intros Heq. rewrite Heq in Oa. rewrite Oa in Ob.
    rewrite !Hk in Ob. lia.
  - intros Hweek. unfold Budget._get_week_start, Py.midnight_days_before.
    rewrite !Hk, Hweek. reflexivity.
Qed.

Lemma week_start_same_iff_same_week_witness :
  Budget._get_week_start Sample.sunday
  = Budget._get_week_start Sample.sunday_noon.
Proof.
  apply week_start_same_iff_same_week; vm_compute; try discriminate.
  reflexivity.
Defined.

#[local] Close Scope Z_scope.

(** * Further properties of the selector *)

(** What the catalog holds under a tier. *)
Lemma catalog_lookup
  (config : Config.t) (tier : string) :
  let enabled_client :=
    match Config.models config !! tier with
    | Some model_config =>
        if default false (Config.enabled model_config)
        then Some (Selector.mk_client tier model_config)
        else None
    | None => None
    end in
  Selector.models (Selector.__init__ config) !! tier
  = match enabled_client with
    | Some client => Some client
    | None =>
        if decide (tier = "rule")
        then Some (Selector.mk_client "rule" Config.no_model_config)
        else None
    end.
Proof.
  cbv zeta. cbn [Selector.__init__ Selector.models].
  unfold Selector._initialize_models.
  match goal with |- context [map_imap ?f ?m] => set (models := map_imap f m) end.
  assert (Hl : forall t, models !! t
               = match Config.models config !! t with
                 | Some model_config =>
                     if default false (Config.enabled model_config)
                     then Some (Selector.mk_client t model_config)
                     else None
                 | None => None
                 end).
  { intros t. subst models. rewrite map_lookup_imap.
    destruct (Config.models config !! t); reflexivity. }
  rewrite <- (Hl tier).
  destruct (models !! "rule") as [client |] eqn:Erule.
  - destruct (models !! tier) as [c |] eqn:Et; [reflexivity |].
    case_decide as Hr; [| reflexivity]. subst tier. congruence.
  - case_decide as Hr.
    + subst tier. rewrite Erule, lookup_insert_eq. reflexivity.
    + rewrite lookup_insert_ne by congruence.
      destruct (models !! tier); reflexivity.
Qed.

(** X11: the catalog built by [_initialize_models] holds a tier exactly
    when the configuration enables it, with a client that carries the
    tier's name and configuration; ["rule"] is added with an empty
    configuration when the configuration does not enable it. *)
Theorem catalog_holds_enabled_tiers_and_rule
  (config : Config.t) (tier : string) :
  let enabled_client :=
    match Config.models config !! tier with
    | Some model_config =>
        if default false (Config.enabled model_config)
        then Some (Selector.mk_client tier model_config)
        else None
    | None => None
    end in
  Selector.models (Selector.__init__ config) !! tier
  = match enabled_client with
    | Some client => Some client
    | None =>
        if decide (tier = "rule")
        then Some (Selector.mk_client "rule" Config.no_model_config)
        else None
    end.
Proof. exact (catalog_lookup config tier). Qed.

(** The configuration enables the tier. *)
Lemma enabled_tier_is_instantiated (config : Config.t) (tier : string) :
  (exists model_config,
     Config.models config !! tier = Some model_config
     /\ Config.enabled model_config = Some true) ->
  is_Some (Selector.models (Selector.__init__ config) !! tier).
Proof.
  intros (model_config & Hl & He).
  rewrite catalog_lookup. rewrite Hl, He. cbn. eauto.
Qed.

(** With the three model tiers enabled no lookup of [select_model] fails. *)
Lemma select_model_returns_on_full_catalog
  (config : Config.t) (complexity : Q) (budget_status : Selector.StatusDict) :
  (forall tier, In tier ["premium"; "mid"; "open"] ->
     exists model_config,
       Config.models config !! tier = Some model_config
       /\ Config.enabled model_config = Some true) ->
  exists tier client,
    Selector.select_model (Selector.__init__ config) complexity budget_status
    = Py.Ok (tier, client)
    /\ In tier Selector.tiers
    /\ Selector.models (Selector.__init__ config) !! tier = Some client.
Proof.
  intros Hfull.
  pose proof (select_model_outcome (Selector.__init__ config) complexity
                budget_status) as Hout.
  destruct (Selector.select_model (Selector.__init__ config) complexity
              budget_status) as [[tier client] | e].
  - exists tier, client. tauto.
  - destruct Hout as (tier & _ & Hin & Hnone). exfalso.
    assert (Hsome : is_Some (Selector.models (Selector.__init__ config) !! tier)).
    { cbn in Hin. destruct Hin as [<- | [<- | [<- | [<- | []]]]];
        try (apply enabled_tier_is_instantiated, Hfull; cbn; tauto).
      apply rule_always_instantiated. }
    rewrite Hnone in Hsome. destruct Hsome as [? ?]. discriminate.
Qed.

(** X12: when the configuration enables the premium, mid and open tiers,
    [select_model] raises for no complexity and no budget status: it
    returns one of the four tiers together with that tier's client from
    the catalog. *)
Theorem select_model_total_on_full_catalog
  (config : Config.t) (complexity : Q) (budget_status : Selector.StatusDict) :
  (forall tier, In tier ["premium"; "mid"; "open"] ->
     exists model_config,
       Config.models config !! tier = Some model_config
       /\ Config.enabled model_config = Some true) ->
  exists tier client,
    Selector.select_model (Selector.__init__ config) complexity budget_status
    = Py.Ok (tier, client)
    /\ In tier Selector.tiers
    /\ Selector.models (Selector.__init__ config) !! tier = Some client.
Proof.
  exact (select_model_returns_on_full_catalog config complexity budget_status).
Qed.

Lemma select_model_total_on_full_catalog_witness :
  exists tier client,
    Selector.select_model (Selector.__init__ Sample.cheap_open) 0.3
      (Selector.mk_status_dict (Some true) (Some 0))
    = Py.Ok (tier, client)
    /\ In tier Selector.tiers
    /\ Selector.models (Selector.__init__ Sample.cheap_open) !! tier
       = Some client.
Proof.
  apply select_model_total_on_full_catalog.
  intros tier Hin. cbn in Hin.
  destruct Hin as [<- | [<- | [<- | []]]]; eexists; split; reflexivity.
Defined.

(** X13: with the built-in default configuration [select_model] never
    raises, whatever the complexity and the budget status. *)
Theorem default_config_never_raises
  (complexity : Q) (budget_status : Selector.StatusDict) :
  exists tier client,
    Selector.select_model
      (Selector.__init__ ConfigLoader._create_default_config)
      complexity budget_status
    = Py.Ok (tier, client)
    /\ In tier Selector.tiers.
Proof.
  destruct (select_model_returns_on_full_catalog
              ConfigLoader._create_default_config complexity budget_status)
    as (tier & client & Hok & Hin & _).
  { intros tier Hin. cbn in Hin.
    destruct Hin as [<- | [<- | [<- | []]]]; eexists; split; reflexivity. }
  eauto.
Qed.

(** X14: what [select_model] returns respects the budget: a tier other
    than ["rule"] is returned only when the remaining budget meets the
    tier's floor, and ["premium"] only when the budget is not critical. *)
Theorem selected_tier_respects_budget
  (self : Selector.ModelSelector) (complexity : Q)
  (budget_status : Selector.StatusDict) :
  let budget_remaining :=
    match Selector.get_remaining budget_status with
    | Some r => Selector.Finite r
    | None => Selector.Infinity
    end in
  match Selector.select_model self complexity budget_status with
  | Py.Ok (tier, _) =>
      (tier = "rule"
       \/ Selector._can_afford_model self tier budget_remaining = true)
      /\ (tier = "premium" ->
          default false (Selector.get_is_critical budget_status) = false)
  | Py.Raise _ => True
  end.
Proof.
  cbv zeta. unfold Selector.select_model.
  set (remaining := match Selector.get_remaining budget_status with
                    | Some r => Selector.Finite r
                    | None => Selector.Infinity
                    end).
  set (critical := default false (Selector.get_is_critical budget_status)).
  assert (R : forall tier,
             (tier = "rule"
              \/ Selector._can_afford_model self tier remaining = true) ->
             (tier = "premium" -> critical = false) ->
             match Selector.return_tier self tier with
             | Py.Ok (named, _) =>
                 (named = "rule"
                  \/ Selector._can_afford_model self named remaining = true)
                 /\ (named = "premium" -> critical = false)
             | Py.Raise _ => True
             end).
  { intros tier H1 H2. unfold Selector.return_tier.
    destruct (Selector.models self !! tier); [split; assumption | exact I]. }
  destruct (Py.Qltb _ complexity && negb critical)%bool eqn:E1;
    [apply andb_true_iff in E1 as [_ E1]; apply negb_true_iff in E1 |];
    repeat match goal with
      | |- context [if negb critical then _ else _] =>
          destruct critical eqn:?; cbn [negb]
      | |- context [if ?b then _ else _] => destruct b eqn:?
      end;
    apply R; first [left; reflexivity | right; assumption | idtac];
    try (intros ?; discriminate); try (intros _; assumption);
    try (intros _; reflexivity).
Qed.

(** [index_of] finds the first position that holds the element. *)
Lemma index_of_spec (x : string) (l : list string) :
  match Py.index_of x l with
  | Some i => l !! i = Some x /\ forall j, (j < i)%nat -> l !! j <> Some x
  | None => ~ In x l
  end.
Proof.
  induction l as [| y l IH]; cbn [Py.index_of]; [tauto |].
  destruct (String.eqb_spec y x) as [-> | Hne].
  - split; [reflexivity | intros j Hj; lia].
  - destruct (Py.index_of x l) as [i |].
    + destruct IH as [Hi Hfirst]. split; [exact Hi |].
      intros [| j] Hj; cbn; [congruence | apply Hfirst; lia].
    + cbn. intros [H | H]; [congruence | tauto].
Qed.

(** What [fallback_model] returns, by positions in the order. *)
Lemma fallback_model_spec
  (self : Selector.ModelSelector) (current_model : string) :
  match Selector.fallback_model self current_model with
  | Some next =>
      exists i,
        Selector.fallback_order self !! i = Some current_model
        /\ (forall j, (j < i)%nat ->
              Selector.fallback_order self !! j <> Some current_model)
        /\ Selector.fallback_order self !! S i = Some next
  | None =>
      ~ In current_model (Selector.fallback_order self)
      \/ exists i,
           Selector.fallback_order self !! i = Some current_model
           /\ (forall j, (j < i)%nat ->
                 Selector.fallback_order self !! j <> Some current_model)
           /\ S i = length (Selector.fallback_order self)
  end.
Proof.
  unfold Selector.fallback_model.
  pose proof (index_of_spec current_model (Selector.fallback_order self)) as Hi.
  destruct (Py.index_of current_model (Selector.fallback_order self)) as [i |];
    [| left; exact Hi].
  destruct Hi as [Hi Hfirst].
  assert (Hlen : (i < length (Selector.fallback_order self))%nat).
  { apply lookup_lt_is_Some. eauto. }
  destruct (Nat.ltb_spec i (length (Selector.fallback_order self) - 1))
    as [Hlt | Hge].
  - replace (i + 1)%nat with (S i) by lia.
    destruct (lookup_lt_is_Some_2 (Selector.fallback_order self) (S i))
      as [next Hnext]; [lia |].
    rewrite Hnext. exists i. repeat split; assumption.
  - right. exists i. repeat split; [assumption .. | lia].
Qed.

(** X15: [fallback_model] returns the entry that follows the first
    occurrence of the tier in the fallback order, and [None] when the tier
    does not occur or that occurrence is the last entry. *)
Theorem fallback_model_is_next_in_order
  (self : Selector.ModelSelector) (current_model : string) :
  match Selector.fallback_model self current_model with
  | Some next =>
      exists i,
        Selector.fallback_order self !! i = Some current_model
        /\ (forall j, (j < i)%nat ->
              Selector.fallback_order self !! j <> Some current_model)
        /\ Selector.fallback_order self !! S i = Some next
  | None =>
      ~ In current_model (Selector.fallback_order self)
      \/ exists i,
           Selector.fallback_order self !! i = Some current_model
           /\ (forall j, (j < i)%nat ->
                 Selector.fallback_order self !! j <> Some current_model)
           /\ S i = length (Selector.fallback_order self)
  end.
Proof. exact (fallback_model_spec self current_model). Qed.

(** X16: in a fallback order without repetitions the fallback of the
    [i]-th tier is the [i+1]-th, for every position: following the chain
    from any tier visits the later tiers one by one and ends with [None]
    after the last. *)
Theorem fallback_walks_the_order
  (self : Selector.ModelSelector) (i : nat) (tier : string) :
  NoDup (Selector.fallback_order self) ->
  Selector.fallback_order self !! i = Some tier ->
  Selector.fallback_model self tier = Selector.fallback_order self !! S i.
Proof.
  intros Hnodup Hi.
  pose proof (fallback_model_spec self tier) as Hf.
  destruct (Selector.fallback_model self tier) as [next |].
  - destruct Hf as (k & Hk & _ & Hnext).
    rewrite (NoDup_lookup _ _ _ _ Hnodup Hi Hk). symmetry. exact Hnext.
  - destruct Hf as [Hnot | (k & Hk & _ & Hlast)].
    + exfalso. apply Hnot. apply list_elem_of_In.
      eapply list_elem_of_lookup_2. exact Hi.
    + rewrite (NoDup_lookup _ _ _ _ Hnodup Hi Hk). symmetry.
      apply lookup_ge_None. lia.
Qed.

Lemma fallback_walks_the_order_witness :
  let self :=
    Selector.mk_selector Sample.no_config ∅
      (Config.mk_thresholds None None None)
      ["premium"; "mid"; "open"; "rule"] in
  Selector.fallback_model self "mid" = Some "open"
  /\ Selector.fallback_model self "rule" = None.
Proof.
  cbv zeta.
  set (self := Selector.mk_selector Sample.no_config ∅
                 (Config.mk_thresholds None None None)
                 ["premium"; "mid"; "open"; "rule"]).
  assert (Hnodup : NoDup (Selector.fallback_order self)).
  { apply (bool_decide_unpack _). vm_compute. exact I. }
  split.
  - exact (fallback_walks_the_order self 1%nat "mid" Hnodup eq_refl).
  - exact (fallback_walks_the_order self 3%nat "rule" Hnodup eq_refl).
Defined.

(** X17: when the budget is not critical and the premium, mid and open
    tiers are instantiated and affordable, [select_model] names the tier
    that the simulation's threshold rule [_select_model] names for the
    same thresholds. *)
Theorem select_model_agrees_with_simulation
  (self : Selector.ModelSelector) (complexity : Q)
  (budget_status : Selector.StatusDict) :
  let params :=
    Simulate.mk_params
      (default 0.8 (Config.th_premium (Selector.thresholds self)))
      (default 0.5 (Config.th_mid (Selector.thresholds self)))
      (default 0.2 (Config.th_open (Selector.thresholds self))) in
  let budget_remaining :=
    match Selector.get_remaining budget_status with
    | Some r => Selector.Finite r
    | None => Selector.Infinity
    end in
  default false (Selector.get_is_critical budget_status) = false ->
  (forall tier, In tier ["premium"; "mid"; "open"; "rule"] ->
     is_Some (Selector.models self !! tier)) ->
  (forall tier, In tier ["premium"; "mid"; "open"] ->
     Selector._can_afford_model self tier budget_remaining = true) ->
  Selector.chosen (Selector.select_model self complexity budget_status)
  = Py.Ok (Simulate._select_model params complexity).
Proof.
  intros params remaining Hcrit Hcat Hafford.
  unfold Selector.select_model, Simulate._select_model. subst params.
  cbn [Simulate.premium_threshold Simulate.mid_threshold
         Simulate.open_threshold].
  fold remaining. rewrite Hcrit. cbn [negb]. rewrite andb_true_r.
  rewrite !Hafford by (cbn; tauto).
  repeat match goal with
    | |- context [if Py.Qltb ?a ?b then _ else _] => destruct (Py.Qltb a b)
    end;
    apply chosen_return_tier, Hcat; cbn; tauto.
Qed.

Lemma select_model_agrees_with_simulation_witness :
  Selector.chosen
    (Selector.select_model
       (Selector.__init__ ConfigLoader._create_default_config) 0.6
       (Selector.mk_status_dict None None))
  = Py.Ok (Simulate._select_model (Simulate.mk_params 0.8 0.5 0.2) 0.6).
Proof.
  apply (select_model_agrees_with_simulation
           (Selector.__init__ ConfigLoader._create_default_config) 0.6
           (Selector.mk_status_dict None None)).
  - reflexivity.
  - intros tier Hin. cbn in Hin.
    destruct Hin as [<- | [<- | [<- | [<- | []]]]]; vm_compute; eauto.
  - intros tier Hin. reflexivity.
Defined.

(** * Further properties of the scorer *)

(** ** Letter case *)

Lemma lower_char_idempotent (c : ascii) :
  Py.lower_char (Py.lower_char c) = Py.lower_char c.
Proof.
  destruct c as [[] [] [] [] [] [] [] []]; vm_compute; reflexivity.
Qed.

Lemma isspace_lower_char (c : ascii) :
  Py.isspace (Py.lower_char c) = Py.isspace c.
Proof.
  destruct c as [[] [] [] [] [] [] [] []]; vm_compute; reflexivity.
Qed.

Lemma lower_idempotent (s : string) : Py.lower (Py.lower s) = Py.lower s.
Proof.
  induction s as [| c s IH]; cbn; [reflexivity |].
  rewrite lower_char_idempotent, IH. reflexivity.
Qed.

Lemma lower_app (s t : string) :
  Py.lower (s ++ t) = Py.lower s ++ Py.lower t.
Proof.
  induction s as [| c s IH]; [reflexivity |].
  change (Py.lower (String c (s ++ t))
          = String (Py.lower_char c) (Py.lower s ++ Py.lower t)).
  cbn [Py.lower]. rewrite IH. reflexivity.
Qed.

Lemma lower_nonempty (s : string) :
  String.eqb (Py.lower s) "" = String.eqb s "".
Proof. destruct s; reflexivity. Qed.

(** Lower-casing changes no blank, so it changes no word boundary. *)
Lemma split_from_lower (cur s : string) :
  length (Py.split_from (Py.lower cur) (Py.lower s))
  = length (Py.split_from cur s).
Proof.
  revert cur. induction s as [| c s IH]; intros cur; cbn [Py.lower Py.split_from].
  - rewrite lower_nonempty. destruct (String.eqb cur ""); reflexivity.
  - rewrite isspace_lower_char, lower_nonempty.
    destruct (Py.isspace c).
    + destruct (String.eqb cur ""); cbn [length];
        rewrite <- (IH ""); reflexivity.
    + rewrite <- (IH (cur ++ String c "")), lower_app. reflexivity.
Qed.

Lemma split_lower (s : string) :
  length (Py.split (Py.lower s)) = length (Py.split s).
Proof. apply (split_from_lower "" s). Qed.

(** X18: scoring ignores letter case: two descriptions with the same
    lower-case form yield the same features, and so the same score or the
    same exception, for every context and every weighting. *)
Theorem scoring_ignores_letter_case
  (np_exp : Q -> Q) (self : Scorer.ComplexityScorer)
  (description1 description2 : string) (context : Py.pyobj) :
  Py.lower description1 = Py.lower description2 ->
  Scorer._extract_features description1 context
  = Scorer._extract_features description2 context
  /\ Py.bind (Scorer.calculate_complexity np_exp self description1 context)
       (fun scored => Py.Ok (fst scored))
     = Py.bind (Scorer.calculate_complexity np_exp self description2 context)
         (fun scored => Py.Ok (fst scored)).
Proof.
  intros Hlower.
  assert (Hf : Scorer._extract_features description1 context
               = Scorer._extract_features description2 context).
  { unfold Scorer._extract_features. rewrite Hlower.
    rewrite <- (split_lower description1), <- (split_lower description2),
      Hlower. reflexivity. }
  split; [exact Hf |].
  unfold Scorer.calculate_complexity. rewrite Hf.
  destruct (Scorer._extract_features description2 context) as [features | e];
    [| reflexivity].
  cbn [Py.bind].
  destruct (Scorer._calculate_weighted_score self features); reflexivity.
Qed.

Lemma scoring_ignores_letter_case_witness :
  Py.bind (Scorer.calculate_complexity (fun _ => 1)
             (Scorer.__init__ Sample.no_config) "Open CHROME and click Save"
             (Py.Scalar Py.PNone))
    (fun scored => Py.Ok (fst scored))
  = Py.bind (Scorer.calculate_complexity (fun _ => 1)
               (Scorer.__init__ Sample.no_config) "open chrome and click save"
               (Py.Scalar Py.PNone))
      (fun scored => Py.Ok (fst scored)).
Proof.
  apply scoring_ignores_letter_case. reflexivity.
Defined.

(** ** The weighted score is an average *)

Lemma flag_counts_in_unit (feature_name : string) (b : bool) :
  Scorer.counts_in_unit feature_name (Py.PBool b).
Proof. exists (if b then 1 else 0). destruct b; cbn; repeat split; lra. Qed.

Lemma inject_Z_nonneg (z : Z) : (0 <= z)%Z -> 0 <= inject_Z z.
Proof. intros H. unfold Qle. cbn. lia. Qed.

Lemma count_counts_in_unit (feature_name : string) (z : Z) :
  In feature_name ["word_count"; "app_count"; "step_count_estimate"] ->
  (0 <= z < Py.float_limit)%Z ->
  Scorer.counts_in_unit feature_name (Py.PInt z).
Proof.
  intros Hname Hz. unfold Scorer.counts_in_unit.
  cbn [Scorer._normalize_feature]. unfold Scorer.normalize_int.
  pose proof (inject_Z_nonneg z ltac:(lia)) as Hq.
  cbn in Hname.
  destruct Hname as [<- | [<- | [<- | []]]]; cbn [String.eqb Ascii.eqb Bool.eqb];
    rewrite int_truediv_sized by lia; cbn [Py.bind Py.to_float];
    eexists; (split; [reflexivity |]);
    match goal with
    | |- context [inject_Z z / ?k] =>
        assert (0 <= inject_Z z / k)
          by (apply Qle_shift_div_l; [reflexivity | lra])
    end; q_solve.
Qed.

Lemma context_value_counts_in_unit (key : string) (v : Py.pyval) :
  In key Scorer.context_keys -> Scorer.unit_valued v -> Scorer.counts_in_unit key v.
Proof.
  intros Hkey Hv. unfold Scorer.counts_in_unit.
  destruct v as [| b | z | q | s]; cbn [Scorer.unit_valued] in Hv.
  - exists 0.5. cbn. repeat split; lra.
  - apply flag_counts_in_unit.
  - assert (Hz : z = 0%Z \/ z = 1%Z) by lia.
    cbn in Hkey.
    destruct Hkey as [<- | [<- | [<- | []]]]; destruct Hz as [-> | ->];
      vm_compute; eexists; (split; [reflexivity |]); split; discriminate.
  - cbn [Scorer._normalize_feature Py.bind Py.to_float].
    eexists. split; [reflexivity |]. cbn in Hkey.
    destruct Hkey as [<- | [<- | [<- | []]]];
      unfold Scorer.normalize_float; cbn [String.eqb Ascii.eqb Bool.eqb];
      q_solve.
  - exists 0.5. cbn. repeat split; lra.
Qed.

(** Every feature extracted from a description of Python's length and a
    unit-valued context counts for a value between 0 and 1. *)
Lemma extracted_features_in_unit
  (description : string) (context : Py.pyobj)
  (features : gmap string Py.pyval) :
  (Z.of_nat (String.length description) <= Py.sys_maxsize)%Z ->
  Scorer.unit_context context ->
  Scorer._extract_features description context = Py.Ok features ->
  forall name v, features !! name = Some v -> Scorer.counts_in_unit name v.
Proof.
  intros Hlen Hctx Hf.
  destruct (description_counts_sized description Hlen) as (Hw & Ha & Hs).
  cbn [Scorer.float_sized] in Hw, Ha, Hs.
  unfold Scorer._extract_features in Hf. cbv zeta in Hf.
  match type of Hf with
  | context [list_to_map ?l] => set (base := list_to_map l) in Hf
  end.
  assert (Hbase : forall name v, base !! name = Some v ->
                    Scorer.counts_in_unit name v).
  { intros name v Hl. subst base. apply elem_of_list_to_map_2 in Hl.
    repeat (apply elem_of_cons in Hl as [Hl | Hl];
            [injection Hl as -> ->;
             first [ apply flag_counts_in_unit
                   | apply count_counts_in_unit; [cbn; tauto |] ] |]).
    4: { apply elem_of_nil in Hl. contradiction. }
    - split; [lia |]. lia.
    - unfold Scorer._count_apps in *. lia.
    - unfold Scorer._estimate_step_count in *. lia. }
  destruct (Py.truthy context) eqn:Ht.
  - destruct Hctx as [-> | (d & -> & Hd)]; [discriminate Ht |].
    injection Hf as <-. intros name v Hl.
    assert (Hget : forall key, In key Scorer.context_keys ->
                     Scorer.counts_in_unit key (Scorer.context_get d key)).
    { intros key Hkey. apply context_value_counts_in_unit; [exact Hkey |].
      unfold Scorer.context_get.
      destruct (d !! key) as [w |] eqn:E; [exact (Hd key w Hkey E) |].
      cbn. split; lra. }
    apply lookup_insert_Some in Hl as [[<- <-] | [_ Hl]];
      [apply Hget; cbn; tauto |].
    apply lookup_insert_Some in Hl as [[<- <-] | [_ Hl]];
      [apply Hget; cbn; tauto |].
    apply lookup_insert_Some in Hl as [[<- <-] | [_ Hl]];
      [apply Hget; cbn; tauto |].
    exact (Hbase name v Hl).
  - injection Hf as <-. exact Hbase.
Qed.

(** *** Weights *)

Lemma dict_set_forall (P : string * Q -> Prop) (key : string) (value : Q)
  (d : list (string * Q)) :
  (forall k, P (k, value)) -> Forall P d ->
  Forall P (Scorer.dict_set key value d).
Proof.
  intros Hnew Hd. induction Hd as [| [k v] d Hkv Hd IH]; cbn [Scorer.dict_set].
  - constructor; [apply Hnew | constructor].
  - destruct (String.eqb k key); constructor; auto.
Qed.

Lemma dict_merge_nonneg (d1 d2 : list (string * Q)) :
  Forall (fun item => 0 <= snd item) d1 ->
  Forall (fun item => 0 <= snd item) d2 ->
  Forall (fun item => 0 <= snd item) (Scorer.dict_merge d1 d2).
Proof.
  unfold Scorer.dict_merge. intros H1 H2. revert d1 H1.
  induction H2 as [| [k v] d2 Hv H2 IH]; intros d1 H1; cbn [fold_left];
    [exact H1 |].
  apply IH. apply dict_set_forall; [intros; exact Hv | exact H1].
Qed.

Lemma default_weights_nonneg :
  Forall (fun item => 0 <= snd item) Scorer.default_weights.
Proof. repeat constructor; cbn; lra. Qed.

(** One turn of the loop keeps [0 <= score <= total_weight]. *)
Lemma weigh_in_unit (features : gmap string Py.pyval) (acc : Q * Q)
  (item : string * Q) :
  (forall name v, features !! name = Some v -> Scorer.counts_in_unit name v) ->
  0 <= snd item ->
  0 <= fst acc /\ fst acc <= snd acc ->
  exists acc', Scorer.weigh features acc item = Py.Ok acc'
               /\ 0 <= fst acc' /\ fst acc' <= snd acc'.
Proof.
  intros Hunit Hw Hacc. destruct item as [feature_name weight].
  cbn [snd] in Hw. unfold Scorer.weigh.
  destruct (features !! feature_name) as [value |] eqn:E; [| eauto].
  destruct (Hunit _ _ E) as (x & Hx & Hx0 & Hx1).
  destruct (Scorer._normalize_feature feature_name value) as [normalized | e];
    cbn [Py.bind] in *; [| discriminate Hx].
  rewrite Hx. cbn [Py.bind]. eexists. split; [reflexivity |].
  cbn [fst snd]. split; nra.
Qed.

Lemma weighted_score_in_unit (self : Scorer.ComplexityScorer)
  (features : gmap string Py.pyval) :
  (forall name v, features !! name = Some v -> Scorer.counts_in_unit name v) ->
  Forall (fun item => 0 <= snd item) (Scorer.weights self) ->
  exists score,
    Scorer._calculate_weighted_score self features = Py.Ok score
    /\ 0 <= score /\ score <= 1.
Proof.
  intros Hunit Hweights. unfold Scorer._calculate_weighted_score.
  pose proof (dict_merge_nonneg _ _ default_weights_nonneg Hweights) as Hall.
  revert Hall.
  generalize (Scorer.dict_merge Scorer.default_weights (Scorer.weights self)).
  intros weights Hall.
  assert (Hfold : forall acc, 0 <= fst acc /\ fst acc <= snd acc ->
             exists acc',
               fold_left
                 (fun acc item =>
                    Py.bind acc (fun a => Scorer.weigh features a item))
                 weights (Py.Ok acc) = Py.Ok acc'
               /\ 0 <= fst acc' /\ fst acc' <= snd acc').
  { induction Hall as [| item weights Hitem Hall IH]; intros acc Hacc;
      [cbn; eauto |].
    cbn [fold_left Py.bind].
    destruct (weigh_in_unit features acc item Hunit Hitem Hacc)
      as (acc1 & -> & Hacc1).
    apply IH. exact Hacc1. }
  destruct (Hfold (0, 0)) as ([score total_weight] & -> & Hs0 & Hs1);
    [cbn; split; lra |].
  cbn [Py.bind fst snd] in *.
  destruct (Py.Qltb 0 total_weight) eqn:Ew.
  - apply Qltb_lt in Ew. eexists. split; [reflexivity |]. split.
    + apply Qle_shift_div_l; [exact Ew | lra].
    + apply Qle_shift_div_r; [exact Ew | lra].
  - apply Qltb_ge in Ew. eexists. split; [reflexivity |]. split; lra.
Qed.

(** X19: with weights that are not negative, the weighted score of the
    features of a description and a unit-valued context is a weighted
    mean: [_calculate_weighted_score] does not raise and returns a value
    between 0 and 1, before the sigmoid is applied. *)
Theorem weighted_score_is_a_mean
  (self : Scorer.ComplexityScorer) (description : string)
  (context : Py.pyobj) :
  (Z.of_nat (String.length description) <= Py.sys_maxsize)%Z ->
  Scorer.unit_context context ->
  Forall (fun item => 0 <= snd item) (Scorer.weights self) ->
  exists features score,
    Scorer._extract_features description context = Py.Ok features
    /\ Scorer._calculate_weighted_score self features = Py.Ok score
    /\ 0 <= score /\ score <= 1.
Proof.
  intros Hlen Hctx Hweights.
  destruct (extract_features_context description context) as (features & Hf & _).
  { destruct Hctx as [-> | (d & -> & _)]; eauto. }
  exists features.
  destruct (weighted_score_in_unit self features) as (score & Hs & Hrange);
    [| exact Hweights | eauto].
  exact (extracted_features_in_unit description context features Hlen Hctx Hf).
Qed.

Lemma weighted_score_is_a_mean_witness :
  exists features score,
    Scorer._extract_features "Open Chrome and click Save"
      (Py.Dict {[ "historical_success_rate" := Py.PFloat 0.9 ]})
    = Py.Ok features
    /\ Scorer._calculate_weighted_score (Scorer.__init__ Sample.no_config)
         features = Py.Ok score
    /\ 0 <= score /\ score <= 1.
Proof.
  apply weighted_score_is_a_mean.
  - vm_compute. discriminate.
  - right. eexists. split; [reflexivity |].
    intros key v Hkey Hl. cbn in Hkey.
    destruct Hkey as [<- | [<- | [<- | []]]]; vm_compute in Hl;
      try discriminate Hl.
    injection Hl as <-. cbn. split; lra.
  - vm_compute. constructor.
Defined.

(** ** Features without a weight *)

Lemma dict_set_keys (key : string) (value : Q) (d : list (string * Q))
  (k : string) :
  In k (map fst (Scorer.dict_set key value d)) ->
  k = key \/ In k (map fst d).
Proof.
  induction d as [| [k0 v0] d IH]; cbn [Scorer.dict_set map fst In].
  - intros [<- | []]. left. reflexivity.
  - destruct (String.eqb k0 key); cbn [map fst In]; tauto.
Qed.

Lemma dict_merge_keys (d1 d2 : list (string * Q)) (k : string) :
  In k (map fst (Scorer.dict_merge d1 d2)) ->
  In k (map fst d1) \/ In k (map fst d2).
Proof.
  unfold Scorer.dict_merge. revert d1.
  induction d2 as [| [k2 v2] d2 IH]; intros d1; cbn [fold_left map fst In];
    [tauto |].
  intros Hk. apply IH in Hk as [Hk | Hk]; [| tauto].
  apply dict_set_keys in Hk as [-> | Hk]; tauto.
Qed.

(** A feature that has no weight is not looked at. *)
Lemma unweighted_feature_is_ignored
  (self : Scorer.ComplexityScorer) (features : gmap string Py.pyval)
  (key : string) (value : Py.pyval) :
  ~ In key (map fst Scorer.default_weights) ->
  ~ In key (map fst (Scorer.weights self)) ->
  Scorer._calculate_weighted_score self (<[key := value]> features)
  = Scorer._calculate_weighted_score self features.
Proof.
  intros Hdefault Hself. unfold Scorer._calculate_weighted_score.
  assert (Hkeys : ~ In key (map fst (Scorer.dict_merge Scorer.default_weights
                                       (Scorer.weights self)))).
  { intros Hk. apply dict_merge_keys in Hk. tauto. }
  revert Hkeys.
  generalize (Scorer.dict_merge Scorer.default_weights (Scorer.weights self)).
  intros weights Hkeys. f_equal.
  generalize (Py.Ok (0, 0) : Py.result (Q * Q)).
  induction weights as [| [name weight] weights IH]; intros acc;
    [reflexivity |].
  cbn [fold_left]. cbn [map fst In] in Hkeys.
  rewrite IH by tauto. f_equal.
  destruct acc as [a | e]; [| reflexivity]. cbn [Py.bind].
  unfold Scorer.weigh. rewrite lookup_insert_ne by (intros ->; tauto).
  reflexivity.
Qed.

(** X20: a scorer whose configured weights name neither
    ["similar_tasks_complexity"] nor ["user_skill_level"] (the default
    weights name neither) ignores these two entries of the context: two
    non-empty contexts that agree on ["historical_success_rate"] get the
    same score, or the same exception. *)
Theorem unweighted_context_entries_are_ignored
  (np_exp : Q -> Q) (self : Scorer.ComplexityScorer) (description : string)
  (context1 context2 : gmap string Py.pyval) :
  ~ In "similar_tasks_complexity" (map fst (Scorer.weights self)) ->
  ~ In "user_skill_level" (map fst (Scorer.weights self)) ->
  context1 <> ∅ -> context2 <> ∅ ->
  context1 !! "historical_success_rate" = context2 !! "historical_success_rate" ->
  Py.bind (Scorer.calculate_complexity np_exp self description
             (Py.Dict context1))
    (fun scored => Py.Ok (fst scored))
  = Py.bind (Scorer.calculate_complexity np_exp self description
               (Py.Dict context2))
      (fun scored => Py.Ok (fst scored)).
Proof.
  intros Hsimilar Hskill Hne1 Hne2 Hrate.
  assert (Hd : forall key, In key ["similar_tasks_complexity"; "user_skill_level"] ->
                 ~ In key (map fst Scorer.default_weights)).
  { intros key [<- | [<- | []]]; vm_compute; intuition discriminate. }
  assert (Hf : forall context : gmap string Py.pyval,
             context <> ∅ ->
             exists features,
               Scorer._extract_features description (Py.Dict context)
               = Py.Ok features
               /\ Scorer._calculate_weighted_score self features
                  = Scorer._calculate_weighted_score self
                      (<["historical_success_rate" :=
                           Scorer.context_get context "historical_success_rate"]>
                       (default ∅
                          (match Scorer._extract_features description
                                   (Py.Scalar Py.PNone) with
                           | Py.Ok base => Some base
                           | Py.Raise _ => None
                           end)))).
  { intros context Hne. unfold Scorer._extract_features. cbn [Py.truthy].
    rewrite bool_decide_eq_false_2 by assumption. cbn [negb default].
    eexists. split; [reflexivity |].
    rewrite unweighted_feature_is_ignored
      by first [assumption | apply Hd; cbn; tauto].
    rewrite unweighted_feature_is_ignored
      by first [assumption | apply Hd; cbn; tauto].
    reflexivity. }
  destruct (Hf context1 Hne1) as (features1 & Hf1 & Hs1).
  destruct (Hf context2 Hne2) as (features2 & Hf2 & Hs2).
  unfold Scorer.calculate_complexity. rewrite Hf1, Hf2. cbn [Py.bind].
  rewrite Hs1, Hs2. unfold Scorer.context_get. rewrite Hrate.
  match goal with
  | |- context [Scorer._calculate_weighted_score self ?f] =>
      destruct (Scorer._calculate_weighted_score self f)
  end; reflexivity.
Qed.

Lemma unweighted_context_entries_are_ignored_witness :
  Py.bind (Scorer.calculate_complexity (fun _ => 1)
             (Scorer.__init__ Sample.no_config) "Open Chrome and click Save"
             (Py.Dict {[ "user_skill_level" := Py.PFloat 0.1 ]}))
    (fun scored => Py.Ok (fst scored))
  = Py.bind (Scorer.calculate_complexity (fun _ => 1)
               (Scorer.__init__ Sample.no_config) "Open Chrome and click Save"
               (Py.Dict {[ "user_skill_level" := Py.PFloat 0.9;
                           "similar_tasks_complexity" := Py.PInt 7 ]}))
      (fun scored => Py.Ok (fst scored)).
Proof.
  apply unweighted_context_entries_are_ignored.
  - vm_compute. tauto.
  - vm_compute. tauto.
  - apply (bool_decide_eq_false_1 _). vm_compute. reflexivity.
  - apply (bool_decide_eq_false_1 _). vm_compute. reflexivity.
  - vm_compute. reflexivity.
Defined.

(** * Further properties of the router *)

(** ** The routing log *)

Lemma calculate_complexity_range
  (np_exp : Q -> Q) (self scorer : Scorer.ComplexityScorer)
  (description : string) (context : Py.pyobj) (complexity : Q) :
  Scorer.calculate_complexity np_exp self description context
  = Py.Ok (complexity, scorer) ->
  0 <= complexity /\ complexity <= 1.
Proof.
  unfold Scorer.calculate_complexity.
  destruct (Scorer._extract_features description context) as [features | e];
    cbn [Py.bind]; [| discriminate].
  destruct (Scorer._calculate_weighted_score self features) as [score | e];
    cbn [Py.bind]; [| discriminate].
  intros H. injection H as <- _. apply clip_unit.
Qed.

Lemma substring_length (n : nat) (s : string) :
  (String.length (substring 0 n s) <= n)%nat.
Proof.
  revert s. induction n as [| n IH]; intros [| c s]; cbn; try lia.
  specialize (IH s). lia.
Qed.

(** A call of [select_model] logs at most one decision, a well-formed
    one. *)
Lemma select_model_log
  (np_exp : Q -> Q) (self : Router.RouterAgent) (description : string)
  (context : Py.pyobj) (now week_now : Py.datetime) :
  let self' :=
    fst (Router.select_model np_exp self description context now week_now) in
  Router.routing_history self' = Router.routing_history self
  \/ exists decision,
       Router.routing_history self'
       = (Router.routing_history self ++ [decision])%list
       /\ Router.well_formed decision.
Proof.
  cbv zeta. unfold Router.select_model.
  destruct (Scorer.calculate_complexity np_exp (Router.complexity_scorer self)
              description context) as [[complexity scorer] | e] eqn:Ec;
    [| left; reflexivity].
  pose proof (remaining_is_minimum (Router.budget_tracker self) now week_now)
    as (Hpos & _).
  destruct (Budget.check_budget_status (Router.budget_tracker self) now
              week_now) as [status tracker].
  cbn [fst] in Hpos. cbn [Router.model_selector Router.routing_history
                            Router.config].
  match goal with
  | |- context [Selector.select_model ?s ?c ?b] =>
      pose proof (select_model_outcome s c b) as Hout;
      destruct (Selector.select_model s c b) as [[tier client] | e]
  end; [| left; reflexivity].
  right. eexists. split; [reflexivity |].
  unfold Router.well_formed. cbn.
  apply calculate_complexity_range in Ec.
  pose proof (substring_length 50 description).
  repeat split; try tauto.
Qed.

Lemma router_step_log (np_exp : Q -> Q) (self : Router.RouterAgent)
  (c : Router.call) :
  Forall Router.well_formed (Router.routing_history self) ->
  Forall Router.well_formed
    (Router.routing_history (Router.step np_exp self c)).
Proof.
  intros Hlog. destruct c as [description context now week_now | d m b n w s];
    cbn [Router.step].
  - destruct (select_model_log np_exp self description context now week_now)
      as [-> | (decision & -> & Hd)]; [exact Hlog |].
    apply Forall_app. split; [exact Hlog |]. constructor; [exact Hd |].
    constructor.
  - exact Hlog.
Qed.

Lemma router_run_log (np_exp : Q -> Q) (self : Router.RouterAgent)
  (calls : list Router.call) :
  Forall Router.well_formed (Router.routing_history self) ->
  Forall Router.well_formed
    (Router.routing_history (Router.run np_exp self calls)).
Proof.
  intros Hlog. induction calls as [| c calls IH] using rev_ind; [exact Hlog |].
  rewrite router_run_snoc. apply router_step_log, IH.
Qed.

(** X21: every decision in the log of a router, after any sequence of
    [select_model] and [update_routing_performance] calls on a new
    agent, has a complexity between 0 and 1, names one of the four tiers,
    holds a remainder that is not negative and at most 50 characters of
    the description. *)
Theorem routing_log_is_well_formed
  (np_exp : Q -> Q) (config : Config.t)
  (day_now week_now month_now : Py.datetime) (calls : list Router.call) :
  Forall Router.well_formed
    (Router.routing_history
       (Router.run np_exp
          (Router.__init__ config day_now week_now month_now) calls)).
Proof. apply router_run_log. constructor. Qed.

(** ** Statistics *)

Lemma count_decision_snoc (history : list Router.RoutingDecision)
  (decision : Router.RoutingDecision) :
  fold_left Router.count_decision (history ++ [decision])%list ∅
  = Router.count_decision (fold_left Router.count_decision history ∅) decision.
Proof. apply fold_left_app. Qed.

(** The count kept for a tier once the loop has run over a log. *)
Lemma distribution_counts (history : list Router.RoutingDecision)
  (tier : string) :
  fold_left Router.count_decision history (∅ : gmap string Z) !! tier
  = match filter (fun d => Router.model_type d = tier) history with
    | [] => None
    | chosen => Some (Z.of_nat (length chosen))
    end.
Proof.
  induction history as [| decision history IH] using rev_ind; [reflexivity |].
  rewrite count_decision_snoc, filter_app.
  set (counts := fold_left Router.count_decision history ∅) in *.
  unfold Router.count_decision.
  destruct (decide (Router.model_type decision = tier)) as [He | He].
  - rewrite filter_cons_True by exact He. rewrite filter_nil.
    rewrite He, lookup_insert_eq, IH.
    destruct (filter (fun d => Router.model_type d = tier) history)
      as [| r rs]; cbn [default app length]; [reflexivity |].
    rewrite length_app. cbn [length]. f_equal. unfold id. lia.
  - rewrite filter_cons_False by exact He. rewrite filter_nil, app_nil_r.
    rewrite lookup_insert_ne by exact He. exact IH.
Qed.

(** The share kept for a tier. *)
Lemma distribution_lookup
  (self : Router.RouterAgent) (tier : string) :
  Router._calculate_model_distribution self !! tier
  = match filter (fun d => Router.model_type d = tier)
            (Router.routing_history self) with
    | [] => None
    | chosen =>
        Some (inject_Z (Z.of_nat (length chosen))
              / inject_Z (Z.of_nat (length (Router.routing_history self))))
    end.
Proof.
  unfold Router._calculate_model_distribution.
  destruct (Router.routing_history self) as [| decision history] eqn:Eh;
    [reflexivity |].
  rewrite <- Eh.
  replace (0 <? Z.of_nat (length (Router.routing_history self)))%Z with true
    by (rewrite Eh; cbn [length]; symmetry; apply Z.ltb_lt; lia).
  rewrite lookup_fmap, distribution_counts.
  destruct (filter (fun d => Router.model_type d = tier)
              (Router.routing_history self)); reflexivity.
Qed.

(** X22: [_calculate_model_distribution] has an entry for exactly the
    tiers that occur in the log, and the entry is the tier's share: the
    number of decisions for it over the number of all decisions. *)
Theorem model_distribution_is_share
  (self : Router.RouterAgent) (tier : string) :
  Router._calculate_model_distribution self !! tier
  = match filter (fun d => Router.model_type d = tier)
            (Router.routing_history self) with
    | [] => None
    | chosen =>
        Some (inject_Z (Z.of_nat (length chosen))
              / inject_Z (Z.of_nat (length (Router.routing_history self))))
    end.
Proof. exact (distribution_lookup self tier). Qed.

Lemma sum_in_unit (xs : list Q) :
  Forall (fun x => 0 <= x /\ x <= 1) xs ->
  0 <= Py.sum xs /\ Py.sum xs <= inject_Z (Z.of_nat (length xs)).
Proof.
  induction xs as [| x xs IH] using rev_ind; intros Hxs.
  - vm_compute. split; discriminate.
  - apply Forall_app in Hxs as [Hxs Hx]. inversion Hx as [| ? ? [Hx0 Hx1] _].
    destruct (IH Hxs) as [IH0 IH1].
    rewrite sum_snoc, length_app. cbn [length].
    rewrite Nat2Z.inj_add, inject_Z_plus.
    change (inject_Z (Z.of_nat 1)) with 1. split; lra.
Qed.

Lemma average_in_unit (self : Router.RouterAgent) :
  Forall Router.well_formed (Router.routing_history self) ->
  0 <= Router._calculate_average_complexity self
  /\ Router._calculate_average_complexity self <= 1.
Proof.
  intros Hlog. unfold Router._calculate_average_complexity.
  destruct (Router.routing_history self) as [| decision history] eqn:Eh;
    [split; lra |].
  rewrite <- Eh in *.
  destruct (sum_in_unit (map Router.complexity (Router.routing_history self)))
    as [H0 H1].
  { apply Forall_map. eapply Forall_impl; [exact Hlog |].
    intros d Hd. unfold Router.well_formed in Hd. cbn. tauto. }
  rewrite length_map in H1.
  assert (Hn : 0 < inject_Z (Z.of_nat (length (Router.routing_history self)))).
  { rewrite Eh. cbn [length]. change 0 with (inject_Z 0).
    rewrite <- Zlt_Qlt. lia. }
  split.
  - apply Qle_shift_div_l; [exact Hn | lra].
  - apply Qle_shift_div_r; [exact Hn | lra].
Qed.

(** X23: the statistics of a router, after any sequence of calls on a new
    agent: the average complexity lies between 0 and 1 (it is 0 for an
    empty log), every entry of the distribution is for one of the four
    tiers with a share above 0 and at most 1, the count is the length of
    the log and the remainder is not negative. *)
Theorem routing_stats_are_in_range
  (np_exp : Q -> Q) (config : Config.t)
  (day_now week_now month_now : Py.datetime) (calls : list Router.call)
  (now stats_week_now : Py.datetime) :
  let self :=
    Router.run np_exp (Router.__init__ config day_now week_now month_now)
      calls in
  let stats := fst (Router.get_routing_stats self now stats_week_now) in
  Router.total_decisions stats = length (Router.routing_history self)
  /\ (0 <= Router.avg_complexity stats /\ Router.avg_complexity stats <= 1)
  /\ (Router.routing_history self = [] ->
      Router.avg_complexity stats = 0 /\ Router.model_distribution stats = ∅)
  /\ (forall tier share,
        Router.model_distribution stats !! tier = Some share ->
        In tier Selector.tiers /\ 0 < share /\ share <= 1)
  /\ 0 <= Router.stats_budget_remaining stats.
Proof.
  cbv zeta.
  pose proof (router_run_log np_exp
                (Router.__init__ config day_now week_now month_now) calls
                ltac:(constructor)) as Hlog.
  set (self := Router.run np_exp _ calls) in *.
  unfold Router.get_routing_stats.
  pose proof (remaining_is_minimum (Router.budget_tracker self) now
                stats_week_now) as (Hpos & _).
  unfold Budget.get_remaining_budget.
  destruct (Budget.check_budget_status (Router.budget_tracker self) now
              stats_week_now) as [status tracker].
  cbn [fst Router.total_decisions Router.avg_complexity
         Router.model_distribution Router.stats_budget_remaining] in *.
  split; [reflexivity |]. split; [apply average_in_unit, Hlog |].
  split.
  { intros Hempty. unfold Router._calculate_average_complexity,
      Router._calculate_model_distribution. rewrite Hempty. split; reflexivity. }
  split; [| exact Hpos].
  intros tier share Hshare. rewrite distribution_lookup in Hshare.
  destruct (filter (fun d => Router.model_type d = tier)
              (Router.routing_history self)) as [| d chosen] eqn:Ef;
    [discriminate Hshare |].
  injection Hshare as <-.
  assert (Hin : d ∈ filter (fun d => Router.model_type d = tier)
                  (Router.routing_history self))
    by (rewrite Ef; apply list_elem_of_here).
  apply list_elem_of_filter in Hin as [Htier Hin].
  rewrite Forall_forall in Hlog.
  assert (Hwf : Router.well_formed d).
  { apply Hlog. exact Hin. }
  pose proof (length_filter (fun d => Router.model_type d = tier)
                (Router.routing_history self)) as Hlen.
  rewrite Ef in Hlen. cbn [length] in Hlen.
  assert (Hn : 0 < inject_Z (Z.of_nat (length (Router.routing_history self)))).
  { change 0 with (inject_Z 0). rewrite <- Zlt_Qlt. lia. }
  split; [| split].
  - rewrite <- Htier. unfold Router.well_formed in Hwf. tauto.
  - apply Qlt_shift_div_l; [exact Hn |]. rewrite Qmult_0_l.
    change 0 with (inject_Z 0). rewrite <- Zlt_Qlt. cbn [length]. lia.
  - apply Qle_shift_div_r; [exact Hn |]. rewrite Qmult_1_l.
    rewrite <- Zle_Qle. lia.
Qed.

(** ** The cost the orchestrator reports *)




(** * The expense history *)

#[local] Open Scope Z_scope.

(** ** Ordinals follow the order of dates *)

Lemma days_before_year_succ (y : Z) :
  Py.days_before_year (y + 1)
  = Py.days_before_year y + (if Py.is_leap y then 366 else 365).
Proof.
  unfold Py.days_before_year, Py.is_leap. cbv zeta.
  replace (y + 1 - 1) with y by lia.
  destruct (y mod 4 =? 0) eqn:E4; destruct (y mod 100 =? 0) eqn:E100;
    destruct (y mod 400 =? 0) eqn:E400; cbn [andb orb negb];
    rewrite ?Z.eqb_eq, ?Z.eqb_neq in *;
    Z.to_euclidean_division_equations; lia.
Qed.

Lemma days_before_year_mono (y y' : Z) :
  y <= y' -> Py.days_before_year y <= Py.days_before_year y'.
Proof.
  intros H. replace y' with (y + Z.of_nat (Z.to_nat (y' - y))) by lia.
  induction (Z.to_nat (y' - y)) as [| k IH]; [rewrite Z.add_0_r; lia |].
  replace (y + Z.of_nat (S k)) with (y + Z.of_nat k + 1) by lia.
  rewrite days_before_year_succ. destruct (Py.is_leap _); lia.
Qed.

Lemma days_before_month_mono (y m m' : Z) :
  1 <= m -> m <= m' ->
  Py.days_before_month y m <= Py.days_before_month y m'.
Proof.
  intros Hm H. replace m' with (m + Z.of_nat (Z.to_nat (m' - m))) by lia.
  induction (Z.to_nat (m' - m)) as [| k IH]; [rewrite Z.add_0_r; lia |].
  replace (m + Z.of_nat (S k)) with (m + Z.of_nat k + 1) by lia.
  rewrite days_before_month_succ by lia.
  pose proof (days_in_month_bounds y (m + Z.of_nat k)). lia.
Qed.

Lemma days_before_month_first (y : Z) : Py.days_before_month y 1 = 0.
Proof. reflexivity. Qed.

(** A day of the calendar lies within its year. *)
Lemma day_of_year_bounds (y m d : Z) :
  1 <= m <= 12 -> 1 <= d <= Py.days_in_month y m ->
  1 <= Py.days_before_month y m + d
  /\ Py.days_before_month y m + d <= (if Py.is_leap y then 366 else 365).
Proof.
  intros Hm Hd.
  pose proof (days_before_month_mono y 1 m ltac:(lia) ltac:(lia)) as H1.
  rewrite days_before_month_first in H1.
  pose proof (days_before_month_mono y (m + 1) 13 ltac:(lia) ltac:(lia)) as H2.
  rewrite days_before_month_succ, days_before_month_end in H2 by lia.
  lia.
Qed.

(** The date [(y, m, d)] comes before [(y', m', d')]. *)
Lemma ymd2ord_lt (y m d y' m' d' : Z) :
  1 <= m <= 12 -> 1 <= d <= Py.days_in_month y m ->
  1 <= m' <= 12 -> 1 <= d' <= Py.days_in_month y' m' ->
  y < y' \/ (y = y' /\ (m < m' \/ (m = m' /\ d < d'))) ->
  Py.ymd2ord y m d < Py.ymd2ord y' m' d'.
Proof.
  intros Hm Hd Hm' Hd' Hlt. unfold Py.ymd2ord.
  pose proof (day_of_year_bounds y m d Hm Hd) as [B1 B2].
  pose proof (day_of_year_bounds y' m' d' Hm' Hd') as [B1' B2'].
  destruct Hlt as [Hy | [<- [Hmm | [<- Hdd]]]].
  - pose proof (days_before_year_mono (y + 1) y' ltac:(lia)) as Hmono.
    rewrite days_before_year_succ in Hmono. lia.
  - pose proof (days_before_month_mono y (m + 1) m' ltac:(lia) ltac:(lia))
      as Hmono.
    rewrite days_before_month_succ in Hmono by lia. lia.
  - lia.
Qed.

(** [date.fromordinal] follows the order of the ordinals. *)
Lemma ord2ymd_mono (n n' : Z) :
  1 <= n -> n <= n' ->
  let a := Py.ord2ymd n in
  let b := Py.ord2ymd n' in
  (Py.d_year a, Py.d_month a, Py.d_day a)
  = (Py.d_year b, Py.d_month b, Py.d_day b)
  \/ Py.d_year a < Py.d_year b
  \/ (Py.d_year a = Py.d_year b
      /\ (Py.d_month a < Py.d_month b
          \/ (Py.d_month a = Py.d_month b /\ Py.d_day a < Py.d_day b))).
Proof.
  intros Hn Hle. cbv zeta.
  destruct (ord2ymd_ordinal n Hn) as (Ha & _ & Hma & Hda).
  destruct (ord2ymd_ordinal n' ltac:(lia)) as (Hb & _ & Hmb & Hdb).
  set (a := Py.ord2ymd n) in *. set (b := Py.ord2ymd n') in *.
  destruct (Z.lt_trichotomy (Py.d_year a) (Py.d_year b)) as [Hy | [Hy | Hy]];
    [tauto | |].
  - destruct (Z.lt_trichotomy (Py.d_month a) (Py.d_month b))
      as [Hmo | [Hmo | Hmo]]; [tauto | |].
    + destruct (Z.lt_trichotomy (Py.d_day a) (Py.d_day b))
        as [Hdy | [Hdy | Hdy]]; [tauto | left; congruence |].
      exfalso.
      pose proof (ymd2ord_lt _ _ _ _ _ _ Hmb Hdb Hma Hda) as Hlt. lia.
    + exfalso.
      pose proof (ymd2ord_lt _ _ _ _ _ _ Hmb Hdb Hma Hda) as Hlt. lia.
  - exfalso.
    pose proof (ymd2ord_lt _ _ _ _ _ _ Hmb Hdb Hma Hda) as Hlt. lia.
Qed.

(** [date.fromordinal] undoes [toordinal] on the days of the calendar. *)
Lemma ord2ymd_ymd2ord (y m d : Z) :
  1 <= y -> 1 <= m <= 12 -> 1 <= d <= Py.days_in_month y m ->
  Py.ord2ymd (Py.ymd2ord y m d) = Py.mk_date y m d.
Proof.
  intros Hy Hm Hd.
  assert (Hn : 1 <= Py.ymd2ord y m d).
  { unfold Py.ymd2ord.
    pose proof (day_of_year_bounds y m d Hm Hd) as [B1 _].
    pose proof (days_before_year_mono 1 y Hy) as H0.
    change (Py.days_before_year 1) with 0 in H0. lia. }
  destruct (ord2ymd_ordinal _ Hn) as (Ha & _ & Hma & Hda).
  destruct (Py.ord2ymd (Py.ymd2ord y m d)) as [y' m' d'].
  cbn [Py.d_year Py.d_month Py.d_day] in *.
  destruct (Z.lt_trichotomy y' y) as [H | [H | H]].
  - pose proof (ymd2ord_lt y' m' d' y m d Hma Hda Hm Hd ltac:(lia)). lia.
  - subst y'. destruct (Z.lt_trichotomy m' m) as [H | [H | H]].
    + pose proof (ymd2ord_lt y m' d' y m d Hma Hda Hm Hd ltac:(lia)). lia.
    + subst m'. unfold Py.ymd2ord in Ha. f_equal. lia.
    + pose proof (ymd2ord_lt y m d y m' d' Hm Hd Hma Hda ltac:(lia)). lia.
  - pose proof (ymd2ord_lt y m d y' m' d' Hm Hd Hma Hda ltac:(lia)). lia.
Qed.

(** ** The order of [datetime]s *)

Lemma tuple_le_cons (x y : Z) (a b : list Z) :
  Py.tuple_le (x :: a) (y :: b) = true
  <-> x < y \/ (x = y /\ Py.tuple_le a b = true).
Proof.
  cbn [Py.tuple_le].
  rewrite orb_true_iff, andb_true_iff, Z.ltb_lt, Z.eqb_eq. reflexivity.
Qed.

Lemma tuple_le_refl (a : list Z) : Py.tuple_le a a = true.
Proof.
  induction a as [| x a IH]; [reflexivity |]. apply tuple_le_cons. tauto.
Qed.

Lemma tuple_le_trans (a b c : list Z) :
  Py.tuple_le a b = true -> Py.tuple_le b c = true -> Py.tuple_le a c = true.
Proof.
  revert b c. induction a as [| x a IH]; intros [| y b] [| z c];
    try reflexivity; try discriminate.
  rewrite !tuple_le_cons. intros [Hxy | [-> Hab]] [Hyz | [-> Hbc]];
    try (left; lia).
  right. split; [reflexivity |]. exact (IH b c Hab Hbc).
Qed.

Lemma datetime_ge_trans (a b c : Py.datetime) :
  Py.datetime_ge a b = true -> Py.datetime_ge b c = true ->
  Py.datetime_ge a c = true.
Proof.
  unfold Py.datetime_ge. intros Hab Hbc.
  exact (tuple_le_trans _ _ _ Hbc Hab).
Qed.

(** The ordinal of a [datetime] is one of the calendar. *)
Lemma valid_ordinal (dt : Py.datetime) :
  Py.valid_datetime dt -> 1 <= Py.toordinal dt <= Py.max_ordinal.
Proof.
  intros (Hy & Hm & Hd & _). unfold Py.toordinal, Py.ymd2ord.
  pose proof (day_of_year_bounds _ _ _ Hm Hd) as [B1 B2].
  pose proof (days_before_year_mono 1 (Py.year dt) ltac:(lia)) as H0.
  change (Py.days_before_year 1) with 0 in H0.
  pose proof (days_before_year_mono (Py.year dt + 1) 10000 ltac:(lia)) as H1.
  rewrite days_before_year_succ in H1.
  change (Py.days_before_year 10000) with Py.max_ordinal in H1.
  destruct (Py.is_leap (Py.year dt)); lia.
Qed.

(** Going back fewer days gives a later [datetime]. *)
Lemma minus_days_order (k k' : Z) (now cutoff cutoff' : Py.datetime) :
  k' <= k ->
  Py.minus_days k now = Py.Ok cutoff ->
  Py.minus_days k' now = Py.Ok cutoff' ->
  Py.datetime_ge cutoff' cutoff = true.
Proof.
  unfold Py.minus_days. cbv zeta. intros Hk.
  destruct ((0 <? Py.toordinal now - k)
            && (Py.toordinal now - k <=? Py.max_ordinal)) eqn:E;
    [| discriminate].
  destruct ((0 <? Py.toordinal now - k')
            && (Py.toordinal now - k' <=? Py.max_ordinal)) eqn:E';
    [| discriminate].
  apply andb_true_iff in E as [E _]. apply Z.ltb_lt in E.
  intros H H'. injection H as <-. injection H' as <-.
  pose proof (ord2ymd_mono (Py.toordinal now - k) (Py.toordinal now - k')
                ltac:(lia) ltac:(lia)) as Hmono.
  cbv zeta in Hmono.
  unfold Py.datetime_ge, Py.fields.
  cbn [Py.year Py.month Py.day Py.hour Py.minute Py.second Py.microsecond].
  destruct Hmono as [Heq | [Hy | [Hy [Hm | [Hm Hd]]]]].
  - injection Heq as -> -> ->. apply tuple_le_refl.
  - apply tuple_le_cons. tauto.
  - apply tuple_le_cons. right. split; [exact Hy |].
    apply tuple_le_cons. tauto.
  - apply tuple_le_cons. right. split; [exact Hy |].
    apply tuple_le_cons. right. split; [exact Hm |].
    apply tuple_le_cons. tauto.
Qed.

Lemma minus_days_returns (k : Z) (now : Py.datetime) :
  Py.valid_datetime now -> 0 <= k < Py.toordinal now ->
  exists cutoff, Py.minus_days k now = Py.Ok cutoff.
Proof.
  intros Hv Hk. pose proof (valid_ordinal now Hv) as Ho.
  unfold Py.minus_days. cbv zeta.
  replace (0 <? Py.toordinal now - k) with true
    by (symmetry; apply Z.ltb_lt; lia).
  replace (Py.toordinal now - k <=? Py.max_ordinal) with true
    by (symmetry; apply Z.leb_le; lia).
  cbn [andb]. eauto.
Qed.

Lemma filter_sublist {A : Type} (p q : A -> bool) (l : list A) :
  (forall x, p x = true -> q x = true) ->
  sublist (List.filter p l) (List.filter q l).
Proof.
  intros Hpq. induction l as [| x l IH]; cbn [List.filter]; [constructor |].
  destruct (p x) eqn:Ep.
  - rewrite (Hpq x Ep). apply sublist_skip, IH.
  - destruct (q x); [apply sublist_cons, IH | exact IH].
Qed.

Lemma filter_sublist_all {A : Type} (p : A -> bool) (l : list A) :
  sublist (List.filter p l) l.
Proof.
  induction l as [| x l IH]; cbn [List.filter]; [constructor |].
  destruct (p x); [apply sublist_skip, IH | apply sublist_cons, IH].
Qed.

(** X25: for a reading of the clock after January of year 1, the three
    windows of [get_expense_history] are computed without raising and are
    nested: the history of the day is part of that of the week, which is
    part of that of the month, which is part of the ledger, each in
    ledger order. *)
Theorem expense_history_windows_nest
  (self : Budget.BudgetTracker) (now : Py.datetime) :
  Py.valid_datetime now -> 30 < Py.toordinal now ->
  exists of_day of_week of_month,
    Budget.get_expense_history self "day" now = Py.Ok of_day
    /\ Budget.get_expense_history self "week" now = Py.Ok of_week
    /\ Budget.get_expense_history self "month" now = Py.Ok of_month
    /\ sublist of_day of_week
    /\ sublist of_week of_month
    /\ sublist of_month (Budget.expenses self).
Proof.
  intros Hv Hn. unfold Budget.get_expense_history.
  cbn [String.eqb Ascii.eqb Bool.eqb].
  destruct (minus_days_returns 1 now Hv ltac:(lia)) as [c1 H1].
  destruct (minus_days_returns 7 now Hv ltac:(lia)) as [c7 H7].
  destruct (minus_days_returns 30 now Hv ltac:(lia)) as [c30 H30].
  rewrite H1, H7, H30. cbn [Py.bind].
  do 3 eexists. repeat (split; [reflexivity |]).
  pose proof (minus_days_order 7 1 now c7 c1 ltac:(lia) H7 H1) as O1.
  pose proof (minus_days_order 30 7 now c30 c7 ltac:(lia) H30 H7) as O7.
  split; [| split].
  - apply filter_sublist. intros e He. exact (datetime_ge_trans _ _ _ He O1).
  - apply filter_sublist. intros e He. exact (datetime_ge_trans _ _ _ He O7).
  - apply filter_sublist_all.
Qed.

Lemma expense_history_windows_nest_witness :
  let self :=
    Budget.record_expense
      (Budget.__init__ Sample.scenario_budget
         Sample.sunday Sample.sunday Sample.sunday)
      (1 # 2) "mid" "draft the letter"
      Sample.sunday Sample.sunday Sample.sunday in
  exists of_day of_week of_month,
    Budget.get_expense_history self "day" Sample.tuesday = Py.Ok of_day
    /\ Budget.get_expense_history self "week" Sample.tuesday = Py.Ok of_week
    /\ Budget.get_expense_history self "month" Sample.tuesday = Py.Ok of_month
    /\ sublist of_day of_week
    /\ sublist of_week of_month
    /\ sublist of_month (Budget.expenses self).
Proof.
  cbv zeta. apply expense_history_windows_nest.
  - repeat split; vm_compute; congruence.
  - vm_compute. reflexivity.
Defined.

Lemma valid_after_min (dt : Py.datetime) :
  Py.valid_datetime dt -> Py.datetime_ge dt Py.datetime_min = true.
Proof.
  intros (Hy & Hm & Hd & Hh & Hmi & Hs & Hus).
  unfold Py.datetime_ge, Py.fields, Py.datetime_min.
  cbn [Py.year Py.month Py.day Py.hour Py.minute Py.second Py.microsecond].
  repeat (apply tuple_le_cons;
          match goal with
          | |- ?a < ?b \/ _ =>
              destruct (Z.eq_dec a b) as [<- |]; [right | left; lia]
          end; split; [reflexivity |]).
  reflexivity.
Qed.

(** X26: every period name other than ["day"], ["week"] and ["month"]
    selects the whole ledger, in order, at every reading of the clock. *)
Theorem expense_history_of_other_periods
  (self : Budget.BudgetTracker) (period : string) (now : Py.datetime) :
  Forall (fun expense => Py.valid_datetime (Budget.timestamp expense))
    (Budget.expenses self) ->
  ~ In period ["day"; "week"; "month"] ->
  Budget.get_expense_history self period now = Py.Ok (Budget.expenses self).
Proof.
  intros Hvalid Hperiod. unfold Budget.get_expense_history.
  cbn [In] in Hperiod.
  replace (String.eqb period "day") with false
    by (symmetry; apply String.eqb_neq; intros ->; tauto).
  replace (String.eqb period "week") with false
    by (symmetry; apply String.eqb_neq; intros ->; tauto).
  replace (String.eqb period "month") with false
    by (symmetry; apply String.eqb_neq; intros ->; tauto).
  cbn [Py.bind]. f_equal.
  induction Hvalid as [| e l He Hl IH]; [reflexivity |].
  cbn [List.filter]. rewrite (valid_after_min _ He), IH. reflexivity.
Qed.

Lemma expense_history_of_other_periods_witness :
  let self :=
    Budget.record_expense
      (Budget.__init__ Sample.scenario_budget
         Sample.sunday Sample.sunday Sample.sunday)
      (1 # 2) "mid" "draft the letter"
      Sample.sunday Sample.sunday Sample.sunday in
  Budget.get_expense_history self "all" Sample.tuesday
  = Py.Ok (Budget.expenses self).
Proof.
  cbv zeta. apply expense_history_of_other_periods.
  - rewrite record_expense_ledger. cbn [Budget.__init__ Budget.expenses app].
    repeat constructor; vm_compute; congruence.
  - cbn [In]. intros [H | [H | [H | []]]]; discriminate H.
Defined.

(** X27: an expense stamped on the calendar day of the reading is in the
    history of the day, so that history holds at least what the daily
    counter has counted. *)
Theorem todays_expenses_are_in_day_history
  (self : Budget.BudgetTracker) (now : Py.datetime)
  (expense : Budget.ExpenseRecord) :
  Py.valid_datetime now -> 1 < Py.toordinal now ->
  In expense (Budget.expenses self) ->
  Py.to_date (Budget.timestamp expense) = Py.to_date now ->
  exists of_day,
    Budget.get_expense_history self "day" now = Py.Ok of_day
    /\ In expense of_day.
Proof.
  intros Hv Hn Hin Hday. unfold Budget.get_expense_history.
  cbn [String.eqb Ascii.eqb Bool.eqb].
  destruct (minus_days_returns 1 now Hv ltac:(lia)) as [cutoff Hc].
  rewrite Hc. cbn [Py.bind]. eexists. split; [reflexivity |].
  apply filter_In. split; [exact Hin |].
  unfold Py.minus_days in Hc. cbv zeta in Hc.
  destruct ((0 <? Py.toordinal now - 1)
            && (Py.toordinal now - 1 <=? Py.max_ordinal)); [| discriminate].
  injection Hc as <-.
  destruct Hv as (Hy & Hm & Hd & _).
  destruct (ord2ymd_ordinal (Py.toordinal now - 1) ltac:(lia))
    as (Ho & _ & Hmc & Hdc).
  set (c := Py.ord2ymd (Py.toordinal now - 1)) in *.
  injection Hday as Ey Em Ed.
  unfold Py.datetime_ge, Py.fields.
  cbn [Py.year Py.month Py.day Py.hour Py.minute Py.second Py.microsecond].
  rewrite Ey, Em, Ed.
  assert (Hlt : Py.d_year c < Py.year now
                \/ (Py.d_year c = Py.year now
                    /\ (Py.d_month c < Py.month now
                        \/ (Py.d_month c = Py.month now
                            /\ Py.d_day c < Py.day now)))).
  { unfold Py.toordinal in Ho.
    destruct (Z.lt_trichotomy (Py.d_year c) (Py.year now)) as [H | [H | H]];
      [tauto | |].
    - right. split; [exact H |]. rewrite H in *.
      destruct (Z.lt_trichotomy (Py.d_month c) (Py.month now))
        as [H' | [H' | H']]; [tauto | |].
      + right. split; [exact H' |]. rewrite H' in *.
        unfold Py.ymd2ord in Ho. lia.
      + pose proof (ymd2ord_lt _ _ _ _ _ _ Hm Hd Hmc Hdc
                      (or_intror (conj eq_refl (or_introl H')))). lia.
    - pose proof (ymd2ord_lt _ _ _ _ _ _ Hm Hd Hmc Hdc (or_introl H)). lia. }
  destruct Hlt as [H | [H [H' | [H' H'']]]].
  - apply tuple_le_cons. tauto.
  - apply tuple_le_cons. right. split; [exact H |].
    apply tuple_le_cons. tauto.
  - apply tuple_le_cons. right. split; [exact H |].
    apply tuple_le_cons. right. split; [exact H' |].
    apply tuple_le_cons. tauto.
Qed.

Lemma todays_expenses_are_in_day_history_witness :
  let self :=
    Budget.record_expense
      (Budget.__init__ Sample.scenario_budget
         Sample.sunday Sample.sunday Sample.sunday)
      (1 # 2) "mid" "draft the letter"
      Sample.sunday Sample.sunday Sample.sunday in
  exists of_day,
    Budget.get_expense_history self "day" Sample.sunday_noon = Py.Ok of_day
    /\ In (Budget.mk_expense Sample.sunday "mid" (1 # 2) "draft the letter"
             true) of_day.
Proof.
  cbv zeta. apply todays_expenses_are_in_day_history.
  - repeat split; vm_compute; congruence.
  - vm_compute. reflexivity.
  - rewrite record_expense_ledger. cbn. left. reflexivity.
  - reflexivity.
Defined.

#[local] Close Scope Z_scope.

(** ** Routing follows the complexity *)

Lemma Qltb_mono (t c1 c2 : Q) :
  c1 <= c2 -> Py.Qltb t c1 = true -> Py.Qltb t c2 = true.
Proof.
  intros Hle H. apply Qltb_lt in H.
  destruct (Py.Qltb t c2) eqn:E; [reflexivity |].
  apply Qltb_ge in E. lra.
Qed.

(** X28: a higher complexity never selects a lower tier: for one selector
    and one budget status, when [select_model] returns for two
    complexities, the tier for the higher one is the same or a higher
    one in the order rule, open, mid, premium. *)
Theorem higher_complexity_never_selects_a_lower_tier
  (self : Selector.ModelSelector) (budget_status : Selector.StatusDict)
  (complexity1 complexity2 : Q) (tier1 tier2 : string)
  (client1 client2 : Selector.MockClient) :
  complexity1 <= complexity2 ->
  Selector.select_model self complexity1 budget_status
  = Py.Ok (tier1, client1) ->
  Selector.select_model self complexity2 budget_status
  = Py.Ok (tier2, client2) ->
  (Selector.rank tier1 <= Selector.rank tier2)%nat.
Proof.
  intros Hle. unfold Selector.select_model. cbv zeta.
  set (tp := default 0.8 (Config.th_premium (Selector.thresholds self))).
  set (tm := default 0.5 (Config.th_mid (Selector.thresholds self))).
  set (to := default 0.2 (Config.th_open (Selector.thresholds self))).
  set (remaining := match Selector.get_remaining budget_status with
                    | Some r => Selector.Finite r
                    | None => Selector.Infinity
                    end).
  set (critical := default false (Selector.get_is_critical budget_status)).
  set (premium := Selector._can_afford_model self "premium" remaining).
  set (mid := Selector._can_afford_model self "mid" remaining).
  set (open := Selector._can_afford_model self "open" remaining).
  pose proof (Qltb_mono tp _ _ Hle) as Hp.
  pose proof (Qltb_mono tm _ _ Hle) as Hm.
  pose proof (Qltb_mono to _ _ Hle) as Ho.
  unfold Selector.return_tier.
  destruct (Py.Qltb tp complexity1); [rewrite (Hp eq_refl) |];
    (destruct (Py.Qltb tm complexity1); [rewrite (Hm eq_refl) |]);
    (destruct (Py.Qltb to complexity1); [rewrite (Ho eq_refl) |]);
    clear Hp Hm Ho;
    destruct critical, premium, mid, open; cbn [andb negb];
    repeat match goal with
      | |- context [Py.Qltb ?t complexity2] => destruct (Py.Qltb t complexity2)
      end;
    cbn [andb negb];
    repeat match goal with
      | |- context [Selector.models self !! ?t] =>
          destruct (Selector.models self !! t)
      end;
    intros H1 H2; try discriminate;
    injection H1 as <- _; injection H2 as <- _; vm_compute; lia.
Qed.

Lemma higher_complexity_never_selects_a_lower_tier_witness :
  (Selector.rank "open" <= Selector.rank "premium")%nat.
Proof.
  eapply (higher_complexity_never_selects_a_lower_tier
            (Selector.__init__ ConfigLoader._create_default_config)
            (Selector.mk_status_dict None None) 0.3 0.9).
  - vm_compute. discriminate.
  - vm_compute. reflexivity.
  - vm_compute. reflexivity.
Defined.

(** ** The dependency patterns *)

Lemma drop_empty (n : nat) : Py.drop n "" = "".
Proof. destruct n; reflexivity. Qed.

Lemma drop_drop (a b : nat) (s : string) :
  Py.drop a (Py.drop b s) = Py.drop (a + b) s.
Proof.
  revert s. induction b as [| b IH]; intros s.
  - rewrite Nat.add_0_r. reflexivity.
  - rewrite Nat.add_succ_r. destruct s as [| c s]; cbn [Py.drop].
    + apply drop_empty.
    + apply IH.
Qed.

(** What follows the leftmost occurrence is an end of the string. *)
Lemma after_first_drop (lit s rest : string) :
  Py.after_first lit s = Some rest ->
  exists i, rest = Py.drop (i + String.length lit) s.
Proof.
  induction s as [| c s IH]; cbn [Py.after_first].
  - destruct (String.prefix lit ""); [| discriminate].
    intros H. injection H as <-. exists O. reflexivity.
  - destruct (String.prefix lit (String c s)).
    + intros H. injection H as <-. exists O. reflexivity.
    + intros H. destruct (IH H) as [i ->]. exists (S i). reflexivity.
Qed.

(** An occurrence in an end of the string is one in the string, and the
    leftmost one leaves more of it. *)
Lemma after_first_of_end (lit : string) (n : nat) (s rest : string) :
  Py.after_first lit (Py.drop n s) = Some rest ->
  exists rest' m,
    Py.after_first lit s = Some rest' /\ rest = Py.drop m rest'.
Proof.
  revert s. induction n as [| n IH]; intros s H.
  - exists rest, O. split; [exact H | reflexivity].
  - destruct s as [| c s]; [exists rest, O; split; [exact H | reflexivity] |].
    cbn [Py.drop] in H. destruct (IH s H) as (rest1 & m & H1 & ->).
    cbn [Py.after_first].
    destruct (String.prefix lit (String c s)).
    + destruct (after_first_drop _ _ _ H1) as [i ->].
      rewrite drop_drop.
      destruct (String.length lit) as [| l].
      * exists (String c s), (S (m + (i + 0))). split; reflexivity.
      * exists (Py.drop l s), (m + S i)%nat. split; [reflexivity |].
        rewrite drop_drop. f_equal. lia.
    + exists rest1, m. split; [exact H1 | reflexivity].
Qed.

Lemma in_order_of_end (lits : list string) (n : nat) (line : string) :
  Py.in_order lits (Py.drop n line) = true -> Py.in_order lits line = true.
Proof.
  revert n line. induction lits as [| lit lits IH]; intros n line;
    [reflexivity |].
  cbn [Py.in_order].
  destruct (Py.after_first lit (Py.drop n line)) as [rest |] eqn:E;
    [| discriminate].
  destruct (after_first_of_end _ _ _ _ E) as (rest' & m & -> & ->).
  apply IH.
Qed.

(** A line that matches a sequence matches the sequence without its
    first literal. *)
Lemma in_order_tail (lit : string) (lits : list string) (line : string) :
  Py.in_order (lit :: lits) line = true -> Py.in_order lits line = true.
Proof.
  cbn [Py.in_order].
  destruct (Py.after_first lit line) as [rest |] eqn:E; [| discriminate].
  destruct (after_first_drop _ _ _ E) as [i ->]. apply in_order_of_end.
Qed.

Lemma re_search_seq_tail (lit : string) (lits : list string) (s : string) :
  Py.re_search_seq (lit :: lits) s = true -> Py.re_search_seq lits s = true.
Proof.
  unfold Py.re_search_seq. rewrite !existsb_exists.
  intros (line & Hin & Hm). exists line. split; [exact Hin |].
  exact (in_order_tail _ _ _ Hm).
Qed.

(** X29: two of the five patterns of [_has_inter_app_dependency] never
    change its answer: whatever matches [copy.*from.*to.*] or
    [export.*from.*to.*] matches [from.*to.*], so the function answers
    as the three other patterns do. *)
Theorem inter_app_dependency_needs_three_patterns (description : string) :
  Scorer._has_inter_app_dependency description
  = existsb (fun pattern => Py.re_search_seq pattern description)
      [ ["from"; "to"]; ["import"; "into"]; ["search"; "and"; "create"] ].
Proof.
  unfold Scorer._has_inter_app_dependency. cbv zeta. cbn [existsb].
  pose proof (re_search_seq_tail "copy" ["from"; "to"] description) as Hcopy.
  pose proof (re_search_seq_tail "export" ["from"; "to"] description)
    as Hexport.
  destruct (Py.re_search_seq ["from"; "to"] description); [reflexivity |].
  destruct (Py.re_search_seq ["copy"; "from"; "to"] description);
    [discriminate (Hcopy eq_refl) |].
  destruct (Py.re_search_seq ["export"; "from"; "to"] description);
    [discriminate (Hexport eq_refl) |].
  destruct (Py.re_search_seq ["import"; "into"] description); reflexivity.
Qed.

(** * The configuration check *)

(** X30: a document that [validate_config] accepts has its three
    sections, and the components built from it work with sound figures:
    the tracker's daily limit, warning threshold and critical threshold
    are not negative, and the three thresholds [select_model] compares
    the complexity with lie between 0 and 1. *)
Theorem validated_config_gives_sound_figures
  (config : ConfigLoader.Document) (day_now week_now month_now : Py.datetime) :
  ConfigLoader.validate_config config = true ->
  let tracker :=
    Budget.__init__ (ConfigLoader.sections config) day_now week_now month_now in
  let thresholds :=
    Selector.thresholds (Selector.__init__ (ConfigLoader.sections config)) in
  (is_Some (ConfigLoader.doc_models config)
   /\ is_Some (ConfigLoader.doc_thresholds config)
   /\ is_Some (ConfigLoader.doc_budget config))
  /\ (0 <= Budget.daily_budget tracker
      /\ 0 <= Budget.warning_threshold tracker
      /\ 0 <= Budget.critical_threshold tracker)
  /\ Forall (fun value => 0 <= value /\ value <= 1)
       [default 0.8 (Config.th_premium thresholds);
        default 0.5 (Config.th_mid thresholds);
        default 0.2 (Config.th_open thresholds)].
Proof.
  unfold ConfigLoader.validate_config. intros Hvalid. cbv zeta.
  destruct config as [[models |] [thresholds |] [budget |] order weights];
    cbn [ConfigLoader.doc_models ConfigLoader.doc_thresholds
           ConfigLoader.doc_budget] in *; try discriminate Hvalid.
  split; [repeat split; eexists; reflexivity |].
  destruct thresholds as [tp tm to], budget as [dl wl ml wt ct].
  cbn [ConfigLoader.sections Budget.__init__ Selector.__init__
         Selector.thresholds Config.budget Config.thresholds default
         Budget.daily_budget Budget.warning_threshold
         Budget.critical_threshold Config.daily_limit
         Config.warning_threshold Config.critical_threshold
         Config.th_premium Config.th_mid Config.th_open forallb] in *.
  rewrite !andb_true_r in Hvalid.
  apply andb_true_iff in Hvalid as [Hth Hb].
  apply andb_true_iff in Hth as [Hp Hth].
  apply andb_true_iff in Hth as [Hm Ho].
  apply andb_true_iff in Hb as [Hd Hb].
  apply andb_true_iff in Hb as [Hw Hc].
  assert (Hlimit : forall (entry : option Q) (d : Q),
            0 <= d ->
            match entry with
            | Some value => negb (Py.Qltb value 0)
            | None => true
            end = true ->
            0 <= default d entry).
  { intros [value |] d Hd0 H; cbn [default]; [| exact Hd0].
    apply negb_true_iff, Qltb_ge in H. exact H. }
  assert (Hunit : forall (entry : option Q) (d : Q),
            0 <= d /\ d <= 1 ->
            match entry with
            | Some value => Qle_bool 0 value && Qle_bool value 1
            | None => true
            end = true ->
            0 <= default d entry /\ default d entry <= 1).
  { intros [value |] d Hd0 H; cbn [default]; [| exact Hd0].
    apply andb_true_iff in H as [H0 H1].
    apply Qle_bool_iff in H0, H1. tauto. }
  split.
  - repeat split; apply Hlimit; first [assumption | lra].
  - repeat constructor; apply Hunit; first [assumption | lra].
Qed.

Lemma validated_config_gives_sound_figures_witness :
  let config :=
    ConfigLoader.mk_document
      (Some (Config.models ConfigLoader._create_default_config))
      (Some (Config.thresholds ConfigLoader._create_default_config))
      (Some (Config.budget ConfigLoader._create_default_config)) [] [] in
  let tracker :=
    Budget.__init__ (ConfigLoader.sections config)
      Sample.sunday Sample.sunday Sample.sunday in
  let thresholds :=
    Selector.thresholds (Selector.__init__ (ConfigLoader.sections config)) in
  (is_Some (ConfigLoader.doc_models config)
   /\ is_Some (ConfigLoader.doc_thresholds config)
   /\ is_Some (ConfigLoader.doc_budget config))
  /\ (0 <= Budget.daily_budget tracker
      /\ 0 <= Budget.warning_threshold tracker
      /\ 0 <= Budget.critical_threshold tracker)
  /\ Forall (fun value => 0 <= value /\ value <= 1)
       [default 0.8 (Config.th_premium thresholds);
        default 0.5 (Config.th_mid thresholds);
        default 0.2 (Config.th_open thresholds)].
Proof.
  apply validated_config_gives_sound_figures. vm_compute. reflexivity.
Defined.
